(** * QuizVerse: the exam-attempt lifecycle of [app.py]

    A shallow embedding of the Flask views of [app.py] over an explicit
    database state, and the properties of the attempt lifecycle, grading,
    question authoring and proctor logging proved about them.

    Conventions of the embedding:
    - a table is the list of its rows in rowid order, the order in which
      SQLite returns them for a query without ORDER BY;
    - a view is a function from the database before the request to the
      database after it and the response, written [(payload, status)] as the
      views write [jsonify(...), status];
    - an exception inside a view's [try] is a [Raise] of the [result] monad;
      the [except] branch rolls the session back, so the database returned
      is the one the view started from;
    - a request body is a [json] value (numbers are the integers), a Python
      dict an association list whose first binding of a key is the one
      [d[k]] reads;
    - date-times are naive timestamps on the UTC clock, as [Z]: the time of
      a request is an argument [now] of the view;
    - [current_user] is the logged-in user [login_required] lets through. *)

From Stdlib Require Import ZArith String Ascii List Bool Lia DecimalString.
Import ListNotations.
Set Warnings "-register-all".
Local Open Scope string_scope.
Local Open Scope Z_scope.

(** ** Python values and exceptions *)

Inductive json : Type :=
| JNull
| JBool (b : bool)
| JNum (z : Z)
| JStr (s : string)
| JArr (l : list json)
| JObj (m : list (string * json)).

Inductive exn : Type :=
| ValueError (msg : string)
| KeyError (key : string)
| TypeError
| AttributeError
| InvalidLiteral (s : string)    (* the ValueError of [int(s)] *)
| InvalidIsoformat (s : string)  (* the ValueError of [fromisoformat(s)] *)
| DBAPIError                     (* a statement the database refuses *)
| OverflowError.                 (* an int too large for an SQLite INTEGER *)

Inductive result (A : Type) : Type :=
| Ok (a : A)
| Raise (e : exn).
Arguments Ok {A} a.
Arguments Raise {A} e.

Definition bind {A B : Type} (r : result A) (k : A -> result B) : result B :=
  match r with
  | Ok a => k a
  | Raise e => Raise e
  end.

Notation "x <- r ;; k" := (bind r (fun x => k))
  (at level 61, r at next level, right associativity).

Fixpoint assoc {A : Type} (k : string) (m : list (string * A)) : option A :=
  match m with
  | [] => None
  | (k', v) :: m' => if String.eqb k k' then Some v else assoc k m'
  end.

(** [d[k]]: only a dict can be indexed by a string. *)
Definition getitem (d : json) (k : string) : result json :=
  match d with
  | JObj m => match assoc k m with
              | Some v => Ok v
              | None => Raise (KeyError k)
              end
  | _ => Raise TypeError
  end.

(** [d.get(k)], with [None] read as [JNull]: only a dict has [get]. *)
Definition get (d : json) (k : string) : result json :=
  match d with
  | JObj m => match assoc k m with
              | Some v => Ok v
              | None => Ok JNull
              end
  | _ => Raise AttributeError
  end.

(** [d.get(k, default)]. *)
Definition get_default (d : json) (k : string) (default : json) : result json :=
  match d with
  | JObj m => match assoc k m with
              | Some v => Ok v
              | None => Ok default
              end
  | _ => Raise AttributeError
  end.

Definition is_substring (k s : string) : bool :=
  match String.index 0 k s with
  | Some _ => true
  | None => false
  end.

Definition eq_str (v : json) (s : string) : bool :=
  match v with
  | JStr s' => String.eqb s' s
  | _ => false
  end.

(** [k in d]: key membership on a dict, substring test on a str, element
    test on a list, [TypeError] on the values that are not containers. *)
Definition contains (k : string) (d : json) : result bool :=
  match d with
  | JObj m => Ok (match assoc k m with Some _ => true | None => false end)
  | JStr s => Ok (is_substring k s)
  | JArr l => Ok (existsb (fun v => eq_str v k) l)
  | _ => Raise TypeError
  end.

(** [all(key in d for key in keys)]. *)
Fixpoint all_in (keys : list string) (d : json) : result bool :=
  match keys with
  | [] => Ok true
  | k :: ks => b <- contains k d ;; if b then all_in ks d else Ok false
  end.

(** Truth value of a Python object. *)
Definition truthy (v : json) : bool :=
  match v with
  | JNull => false
  | JBool b => b
  | JNum z => negb (z =? 0)
  | JStr s => negb (String.eqb s "")
  | JArr l => match l with [] => false | _ => true end
  | JObj m => match m with [] => false | _ => true end
  end.

(** [str(n)] for an int. *)
Definition str (n : Z) : string := NilZero.string_of_int (Z.to_int n).

Definition upper_ascii (c : ascii) : ascii :=
  let n := nat_of_ascii c in
  if (andb (Nat.leb 97 n) (Nat.leb n 122)) then ascii_of_nat (n - 32) else c.

(** [s.upper()], on the ASCII letters; the bytes of other characters are
    kept, which no comparison with ["A"] .. ["D"] can tell apart. *)
Fixpoint upper (s : string) : string :=
  match s with
  | EmptyString => EmptyString
  | String c s' => String (upper_ascii c) (upper s')
  end.

(** [s.replace('Z', '+00:00')]. *)
Fixpoint replace_Z (s : string) : string :=
  match s with
  | EmptyString => EmptyString
  | String c s' =>
      if Ascii.eqb c "Z"%char then String.append "+00:00" (replace_Z s')
      else String c (replace_Z s')
  end.

(** ** What the views take from the interpreter and the storage layer

    The views call [datetime.fromisoformat], [isoformat] and [int], and hand
    request values to SQLAlchemy columns.  Their behaviour on the values the
    schema declares is fixed below; on other values it is left open, so the
    theorems hold whatever a given interpreter and SQLite build do there. *)
Class Platform : Type := {
  (** [datetime.fromisoformat(s)] as the DateTime column then stores it;
      [None] when the call raises ValueError. *)
  fromisoformat : string -> option Z;
  (** [d.isoformat()]. *)
  isoformat : Z -> string;
  (** [int(s)] for a str; [None] when the call raises ValueError. *)
  int_of_str : string -> option Z;
  (** The value a NOT NULL String or Text column holds after an INSERT that
      binds [v]; [None] when the statement fails. *)
  bind_text : json -> option string;
  bind_text_str : forall s, bind_text (JStr s) = Some s;
  (** The same for a NOT NULL Integer column, which holds the 64-bit
      integers of SQLite. *)
  bind_integer : json -> option Z;
  bind_integer_num :
    forall z, - 2 ^ 63 <= z < 2 ^ 63 -> bind_integer (JNum z) = Some z
}.

(** ** The tables (the [db.Model] classes) *)

Module User.
Record t : Type := mk { id : Z; email : string; role : string }.
End User.

Module Quiz.
Record t : Type := mk {
  id : Z;
  title : string;
  start_time : Z;
  duration_minutes : Z;
  teacher_id : Z
}.
End Quiz.

Module Question.
Record t : Type := mk {
  id : Z;
  quiz_id : Z;
  text : string;
  option_a : string;
  option_b : string;
  option_c : string;
  option_d : string;
  correct_answer : string
}.
End Question.

Module Attempt.
Record t : Type := mk {
  id : Z;
  quiz_id : Z;
  student_id : Z;
  score : option Z;
  total_questions : option Z;
  started_at : Z;
  finished_at : option Z;
  finished : bool
}.
End Attempt.

Module ProctorLog.
Record t : Type := mk {
  id : Z;
  quiz_id : Z;
  student_id : Z;
  event_type : string;
  question_number : Z;
  timestamp : Z
}.
End ProctorLog.

Record db : Type := mkdb {
  users : list User.t;
  quizzes : list Quiz.t;
  questions : list Question.t;
  attempts : list Attempt.t;
  proctor_logs : list ProctorLog.t
}.

Definition set_quizzes (st : db) (l : list Quiz.t) : db :=
  mkdb (users st) l (questions st) (attempts st) (proctor_logs st).
Definition set_questions (st : db) (l : list Question.t) : db :=
  mkdb (users st) (quizzes st) l (attempts st) (proctor_logs st).
Definition set_attempts (st : db) (l : list Attempt.t) : db :=
  mkdb (users st) (quizzes st) (questions st) l (proctor_logs st).
Definition set_proctor_logs (st : db) (l : list ProctorLog.t) : db :=
  mkdb (users st) (quizzes st) (questions st) (attempts st) l.

(** The rowid SQLite gives a new row of an INTEGER PRIMARY KEY table: one
    more than the largest in use, 1 in an empty table. *)
Definition next_id (ids : list Z) : Z := 1 + fold_right Z.max 0 ids.

(** ** Requests and responses *)

Inductive method : Type := GET | POST | DELETE.

Inductive payload : Type :=
| Json (j : json)                       (* jsonify(j) *)
| Failure (prefix : string) (e : exn)   (* jsonify({'error': f'{prefix}{str(e)}'}) *)
| Unhandled (e : exn)                   (* an exception that leaves the view *)
| Refused.                              (* a response of the framework itself *)

Definition response : Type := (payload * Z)%type.

Definition error (msg : string) : payload := Json (JObj [("error", JStr msg)]).

Definition opt_json {A : Type} (f : A -> json) (o : option A) : json :=
  match o with
  | Some a => f a
  | None => JNull
  end.

(** The rows of a CSV upload as [csv.DictReader] yields them: a dict from
    the header's names to the row's fields, [None] where the row is short. *)
Definition row : Type := list (string * option string).

(** [request.files['file']]: the file name, and the rows read from the
    stream, [None] when its bytes are not UTF-8. *)
Record upload : Type := mk_upload {
  filename : string;
  stream : option (list row)
}.

(** The message of the [except UnicodeDecodeError] branch. *)
Definition not_utf8 : string :=
  let quote := String (ascii_of_nat 34) EmptyString in
  String.append "Error processing CSV: The file is not UTF-8 encoded. Please re-save your CSV as "
    (String.append quote (String.append "UTF-8" (String.append quote "."))).

Fixpoint endswith (s suffix : string) : bool :=
  if String.eqb s suffix then true
  else match s with
       | EmptyString => false
       | String _ s' => endswith s' suffix
       end.

(** ** Queries *)

(** The row of the quizzes table under a primary key. *)
Definition get_quiz (st : db) (quiz_id : Z) : option Quiz.t :=
  find (fun q => Quiz.id q =? quiz_id) (quizzes st).

(** The integers SQLite stores and takes as parameters: 64 bits, signed. *)
Definition sqlite_integer (z : Z) : bool :=
  (- 2 ^ 63 <=? z) && (z <? 2 ^ 63).

(** [db.session.get(Quiz, quiz_id)].  The key is a parameter of the
    SELECT: a Python int that is no SQLite integer raises OverflowError
    when it is bound.  The ids of the table are SQLite integers, so a key
    that is the id of a row is bound and finds it. *)
Definition session_get_quiz (st : db) (quiz_id : Z) : result (option Quiz.t) :=
  match get_quiz st quiz_id with
  | Some quiz => Ok (Some quiz)
  | None => if sqlite_integer quiz_id then Ok None else Raise OverflowError
  end.

Definition get_user (st : db) (user_id : Z) : option User.t :=
  find (fun u => User.id u =? user_id) (users st).

(** [Question.query.filter_by(quiz_id=quiz_id).all()] *)
Definition questions_of (st : db) (quiz_id : Z) : list Question.t :=
  filter (fun q => Question.quiz_id q =? quiz_id) (questions st).

(** [Attempt.query.filter_by(quiz_id=quiz_id).all()] *)
Definition attempts_of (st : db) (quiz_id : Z) : list Attempt.t :=
  filter (fun a => Attempt.quiz_id a =? quiz_id) (attempts st).

(** [ProctorLog.query.filter_by(quiz_id=quiz_id).all()] *)
Definition logs_of (st : db) (quiz_id : Z) : list ProctorLog.t :=
  filter (fun l => ProctorLog.quiz_id l =? quiz_id) (proctor_logs st).

(** [Attempt.query.filter_by(quiz_id=quiz_id, student_id=student_id).first()] *)
Definition attempt_of (st : db) (quiz_id student_id : Z) : option Attempt.t :=
  find (fun a => (Attempt.quiz_id a =? quiz_id) && (Attempt.student_id a =? student_id))
       (attempts st).

(** [Attempt.query.filter_by(quiz_id=quiz_id, student_id=student_id,
    finished=False).first()] *)
Definition active_attempt_of (st : db) (quiz_id student_id : Z) : option Attempt.t :=
  find (fun a => (Attempt.quiz_id a =? quiz_id) && (Attempt.student_id a =? student_id)
                 && negb (Attempt.finished a))
       (attempts st).

(** [Quiz.question_count] *)
Definition question_count (st : db) (q : Quiz.t) : Z :=
  Z.of_nat (length (questions_of st (Quiz.id q))).

(** ** Inserts, updates and deletes, as the commit applies them *)

Definition insert_quiz (st : db) (title : string) (start_time duration teacher : Z)
  : Quiz.t * db :=
  let q := Quiz.mk (next_id (map Quiz.id (quizzes st))) title start_time duration teacher in
  (q, set_quizzes st (quizzes st ++ [q])).

Definition insert_question (st : db) (quiz_id : Z) (text a b c d correct : string)
  : Question.t * db :=
  let q := Question.mk (next_id (map Question.id (questions st)))
                       quiz_id text a b c d correct in
  (q, set_questions st (questions st ++ [q])).

(** A new Attempt takes the column defaults: [started_at] is now,
    [finished] is False, the other nullable columns are NULL. *)
Definition insert_attempt (st : db) (now quiz_id student_id : Z) : Attempt.t * db :=
  let a := Attempt.mk (next_id (map Attempt.id (attempts st)))
                      quiz_id student_id None None now None false in
  (a, set_attempts st (attempts st ++ [a])).

Definition insert_log (st : db) (now quiz_id student_id : Z) (event_type : string)
  (question_number : Z) : ProctorLog.t * db :=
  let l := ProctorLog.mk (next_id (map ProctorLog.id (proctor_logs st)))
                         quiz_id student_id event_type question_number now in
  (l, set_proctor_logs st (proctor_logs st ++ [l])).

(** The UPDATE of the graded attempt, by primary key. *)
Definition update_attempt (st : db) (a' : Attempt.t) : db :=
  set_attempts st
    (map (fun a => if Attempt.id a =? Attempt.id a' then a' else a) (attempts st)).

(** [db.session.delete(quiz)] with the three [cascade="all, delete-orphan"]
    relationships. *)
Definition delete_quiz (st : db) (quiz : Quiz.t) : db :=
  mkdb (users st)
       (filter (fun q => negb (Quiz.id q =? Quiz.id quiz)) (quizzes st))
       (filter (fun q => negb (Question.quiz_id q =? Quiz.id quiz)) (questions st))
       (filter (fun a => negb (Attempt.quiz_id a =? Quiz.id quiz)) (attempts st))
       (filter (fun l => negb (ProctorLog.quiz_id l =? Quiz.id quiz)) (proctor_logs st)).

(** ** The views *)

Section Views.
Context {P : Platform}.

Definition column_text (v : json) : result string :=
  match bind_text v with
  | Some s => Ok s
  | None => Raise DBAPIError
  end.

Definition column_integer (v : json) : result Z :=
  match bind_integer v with
  | Some z => Ok z
  | None => Raise DBAPIError
  end.

(** [int(v)] *)
Definition int (v : json) : result Z :=
  match v with
  | JNum z => Ok z
  | JBool b => Ok (if b then 1 else 0)
  | JStr s => match int_of_str s with
              | Some z => Ok z
              | None => Raise (InvalidLiteral s)
              end
  | _ => Raise TypeError
  end.

(** [v.replace('Z', '+00:00')]: only a str has [replace]. *)
Definition replace (v : json) : result string :=
  match v with
  | JStr s => Ok (replace_Z s)
  | _ => Raise AttributeError
  end.

Definition parse_datetime (s : string) : result Z :=
  match fromisoformat s with
  | Some t => Ok t
  | None => Raise (InvalidIsoformat s)
  end.

(** *** [manage_quizzes] *)

Definition create_quiz (st : db) (current_user : User.t) (data : json)
  : result (db * response) :=
  raw <- getitem data "startTime" ;;
  iso <- replace raw ;;
  start_time <- parse_datetime iso ;;
  title <- getitem data "title" ;;
  minutes <- getitem data "durationMinutes" ;;
  duration <- int minutes ;;
  title <- column_text title ;;
  duration <- column_integer (JNum duration) ;;
  let (new_quiz, st') :=
    insert_quiz st title start_time duration (User.id current_user) in
  Ok (st', (Json (JObj [("id", JNum (Quiz.id new_quiz));
                        ("title", JStr (Quiz.title new_quiz))]), 201)).

Definition quiz_summary (st : db) (q : Quiz.t) : json :=
  JObj [("id", JNum (Quiz.id q));
        ("title", JStr (Quiz.title q));
        ("startTime", JStr (isoformat (Quiz.start_time q)));
        ("durationMinutes", JNum (Quiz.duration_minutes q));
        ("questionCount", JNum (question_count st q))].

(** The route takes [methods=['GET', 'POST']]: the framework answers 405
    to another method before the view runs. *)
Definition manage_quizzes (st : db) (current_user : User.t) (m : method)
  (data : json) : db * response :=
  match m with
  | DELETE => (st, (Refused, 405))
  | _ =>
      if negb (String.eqb (User.role current_user) "teacher")
      then (st, (error "Not authorized", 403))
      else match m with
           | POST =>
               match create_quiz st current_user data with
               | Ok r => r
               | Raise e => (st, (Failure "Error creating quiz: " e, 400))
               end
           | _ =>
               let quizzes :=
                 filter (fun q => Quiz.teacher_id q =? User.id current_user) (quizzes st) in
               (st, (Json (JArr (map (quiz_summary st) quizzes)), 200))
           end
  end.

(** *** [manage_quiz_details] *)

Definition question_detail (q : Question.t) : json :=
  JObj [("id", JNum (Question.id q));
        ("text", JStr (Question.text q));
        ("options", JObj [("A", JStr (Question.option_a q));
                          ("B", JStr (Question.option_b q));
                          ("C", JStr (Question.option_c q));
                          ("D", JStr (Question.option_d q))]);
        ("correctAnswer", JStr (Question.correct_answer q))].

(** [a.student.email]: the relationship loads the user row; on a missing
    row [a.student] is None and the attribute access raises. *)
Definition student_email (st : db) (student_id : Z) : result string :=
  match get_user st student_id with
  | Some u => Ok (User.email u)
  | None => Raise AttributeError
  end.

Definition result_detail (st : db) (a : Attempt.t) : result json :=
  mail <- student_email st (Attempt.student_id a) ;;
  Ok (JObj [("studentEmail", JStr mail);
            ("score", opt_json JNum (Attempt.score a));
            ("totalQuestions", opt_json JNum (Attempt.total_questions a));
            ("finishedAt",
             opt_json (fun t => JStr (isoformat t)) (Attempt.finished_at a))]).

Definition log_detail (st : db) (l : ProctorLog.t) : result json :=
  mail <- student_email st (ProctorLog.student_id l) ;;
  Ok (JObj [("studentEmail", JStr mail);
            ("eventType", JStr (ProctorLog.event_type l));
            ("questionNumber", JNum (ProctorLog.question_number l));
            ("timestamp", JStr (isoformat (ProctorLog.timestamp l)))]).

(** A list comprehension whose element expression may raise. *)
Fixpoint comprehension {A : Type} (f : A -> result json) (l : list A)
  : result (list json) :=
  match l with
  | [] => Ok []
  | a :: l' => j <- f a ;; js <- comprehension f l' ;; Ok (j :: js)
  end.

Definition quiz_detail (st : db) (quiz : Quiz.t) : result response :=
  let question_list := map question_detail (questions_of st (Quiz.id quiz)) in
  results_list <- comprehension (result_detail st) (attempts_of st (Quiz.id quiz)) ;;
  logs_list <- comprehension (log_detail st) (logs_of st (Quiz.id quiz)) ;;
  Ok (Json (JObj [("id", JNum (Quiz.id quiz));
                  ("title", JStr (Quiz.title quiz));
                  ("questions", JArr question_list);
                  ("results", JArr results_list);
                  ("proctorLogs", JArr logs_list)]), 200).

(** The route takes [methods=['GET', 'DELETE']]: the framework answers
    405 to another method before the view runs.  The lookup of the quiz is
    outside any [try]: its exception leaves the view, a 500. *)
Definition manage_quiz_details (st : db) (current_user : User.t) (m : method)
  (quiz_id : Z) : db * response :=
  match m with
  | POST => (st, (Refused, 405))
  | _ =>
      match session_get_quiz st quiz_id with
      | Raise e => (st, (Unhandled e, 500))
      | Ok None => (st, (error "Quiz not found", 404))
      | Ok (Some quiz) =>
          match m with
          | DELETE =>
              if negb (String.eqb (User.role current_user) "teacher")
              then (st, (error "Not authorized", 403))
              else if negb (Quiz.teacher_id quiz =? User.id current_user)
              then (st, (error "Not authorized to delete this quiz", 403))
              else (delete_quiz st quiz,
                    (Json (JObj [("message", JStr "Quiz deleted successfully")]), 200))
          | _ =>
              if String.eqb (User.role current_user) "teacher"
                 && negb (Quiz.teacher_id quiz =? User.id current_user)
              then (st, (error "Not authorized to view this quiz", 403))
              else match quiz_detail st quiz with
                   | Ok r => (st, r)
                   | Raise e => (st, (Unhandled e, 500))
                   end
          end
      end
  end.

(** *** [add_question_manual] *)

Definition new_question_manual (st : db) (quiz : Quiz.t) (data : json)
  : result (db * response) :=
  present <- all_in ["text"; "options"; "correctAnswer"] data ;;
  if negb present
  then Raise (ValueError "Missing required fields (text, options, correctAnswer)")
  else
    options <- getitem data "options" ;;
    present <- all_in ["A"; "B"; "C"; "D"] options ;;
    if negb present
    then Raise (ValueError "Missing option fields (A, B, C, D)")
    else
      text <- getitem data "text" ;;
      a <- getitem options "A" ;;
      b <- getitem options "B" ;;
      c <- getitem options "C" ;;
      d <- getitem options "D" ;;
      correct <- getitem data "correctAnswer" ;;
      text <- column_text text ;;
      a <- column_text a ;;
      b <- column_text b ;;
      c <- column_text c ;;
      d <- column_text d ;;
      correct <- column_text correct ;;
      let (new_question, st') := insert_question st (Quiz.id quiz) text a b c d correct in
      Ok (st', (Json (JObj [("id", JNum (Question.id new_question));
                            ("text", JStr (Question.text new_question))]), 201)).

Definition add_question_manual (st : db) (current_user : User.t) (quiz_id : Z)
  (data : json) : db * response :=
  if negb (String.eqb (User.role current_user) "teacher")
  then (st, (error "Not authorized", 403))
  else match session_get_quiz st quiz_id with
       | Raise e => (st, (Unhandled e, 500))
       | Ok None => (st, (error "Quiz not found or not authorized", 404))
       | Ok (Some quiz) =>
           if negb (Quiz.teacher_id quiz =? User.id current_user)
           then (st, (error "Quiz not found or not authorized", 404))
           else match new_question_manual st quiz data with
                | Ok r => r
                | Raise e => (st, (Failure "Error adding question: " e, 400))
                end
       end.

(** *** [add_questions_csv] *)

Definition csv_columns : list string :=
  ["question_text"; "option_a"; "option_b"; "option_c"; "option_d"; "correct_answer"].

(** [row[k]] *)
Definition field (r : row) (k : string) : result (option string) :=
  match assoc k r with
  | Some v => Ok v
  | None => Raise (KeyError k)
  end.

(** A value of a CSV row bound to a NOT NULL String column. *)
Definition column_field (v : option string) : result string :=
  match v with
  | Some s => Ok s
  | None => Raise DBAPIError
  end.

(** A [Question] handed to [db.session.add], not yet flushed. *)
Record pending_question : Type := mk_pending {
  p_text : option string;
  p_option_a : option string;
  p_option_b : option string;
  p_option_c : option string;
  p_option_d : option string;
  p_correct_answer : string
}.

(** The body of the [for row in csv_reader] loop. *)
Definition read_row (r : row) : result pending_question :=
  if negb (forallb (fun key => match assoc key r with Some _ => true | None => false end)
                   csv_columns)
  then Raise (ValueError "Missing columns in CSV")
  else
    raw <- field r "correct_answer" ;;
    match raw with
    | None => Raise AttributeError
    | Some answer =>
        let correct_ans := upper answer in
        if negb (existsb (String.eqb correct_ans) ["A"; "B"; "C"; "D"])
        then Raise (ValueError (String.append "Invalid correct_answer value: " answer))
        else
          text <- field r "question_text" ;;
          a <- field r "option_a" ;;
          b <- field r "option_b" ;;
          c <- field r "option_c" ;;
          d <- field r "option_d" ;;
          Ok (mk_pending text a b c d correct_ans)
    end.

Fixpoint read_rows (rows : list row) : result (list pending_question) :=
  match rows with
  | [] => Ok []
  | r :: rows' => p <- read_row r ;; ps <- read_rows rows' ;; Ok (p :: ps)
  end.

(** The flush of the commit: the pending questions are inserted in the
    order they were added. *)
Fixpoint flush_questions (st : db) (quiz_id : Z) (ps : list pending_question)
  : result db :=
  match ps with
  | [] => Ok st
  | p :: ps' =>
      text <- column_field (p_text p) ;;
      a <- column_field (p_option_a p) ;;
      b <- column_field (p_option_b p) ;;
      c <- column_field (p_option_c p) ;;
      d <- column_field (p_option_d p) ;;
      flush_questions (snd (insert_question st quiz_id text a b c d (p_correct_answer p)))
                      quiz_id ps'
  end.

Definition import_rows (st : db) (quiz : Quiz.t) (rows : list row)
  : result (db * response) :=
  ps <- read_rows rows ;;
  let added_count := Z.of_nat (length ps) in
  st' <- flush_questions st (Quiz.id quiz) ps ;;
  Ok (st', (Json (JObj [("message",
                         JStr (String.append "Successfully added "
                                 (String.append (str added_count) " questions.")))]),
            201)).

Definition add_questions_csv (st : db) (current_user : User.t) (quiz_id : Z)
  (files : option upload) : db * response :=
  if negb (String.eqb (User.role current_user) "teacher")
  then (st, (error "Not authorized", 403))
  else match session_get_quiz st quiz_id with
       | Raise e => (st, (Unhandled e, 500))
       | Ok None => (st, (error "Quiz not found or not authorized", 404))
       | Ok (Some quiz) =>
           if negb (Quiz.teacher_id quiz =? User.id current_user)
           then (st, (error "Quiz not found or not authorized", 404))
           else match files with
                | None => (st, (error "No file part", 400))
                | Some file =>
                    if String.eqb (filename file) ""
                    then (st, (error "No selected file", 400))
                    else if endswith (filename file) ".csv"
                    then match stream file with
                         | None =>
                             (st, (error not_utf8, 400))
                         | Some rows =>
                             match import_rows st quiz rows with
                             | Ok r => r
                             | Raise e => (st, (Failure "Error processing CSV: " e, 400))
                             end
                         end
                    else (st, (error "Invalid file type. Must be .csv", 400))
                end
       end.

(** *** [start_quiz_attempt] *)

(** The student's view of a question: no ['correctAnswer'] entry. *)
Definition question_view (q : Question.t) : json :=
  JObj [("id", JNum (Question.id q));
        ("text", JStr (Question.text q));
        ("options", JObj [("A", JStr (Question.option_a q));
                          ("B", JStr (Question.option_b q));
                          ("C", JStr (Question.option_c q));
                          ("D", JStr (Question.option_d q))])].

Definition start_quiz_attempt (st : db) (now : Z) (current_user : User.t)
  (quiz_id : Z) : db * response :=
  if negb (String.eqb (User.role current_user) "student")
  then (st, (error "Not authorized", 403))
  else match session_get_quiz st quiz_id with
       | Raise e => (st, (Unhandled e, 500))
       | Ok None => (st, (error "Quiz not found", 404))
       | Ok (Some quiz) =>
           match attempt_of st (Quiz.id quiz) (User.id current_user) with
           | Some _ => (st, (error "Quiz already attempted", 400))
           | None =>
               if now <? Quiz.start_time quiz
               then (st, (error "Quiz has not started yet", 403))
               else
                 let (new_attempt, st') :=
                   insert_attempt st now (Quiz.id quiz) (User.id current_user) in
                 let question_list := map question_view (questions_of st' (Quiz.id quiz)) in
                 (st', (Json (JObj [("attemptId", JNum (Attempt.id new_attempt));
                                    ("quizTitle", JStr (Quiz.title quiz));
                                    ("duration", JNum (Quiz.duration_minutes quiz));
                                    ("questions", JArr question_list)]), 201))
           end
       end.

(** *** [submit_quiz_attempt] *)

(** The [for q in questions] loop: [score] after the questions [qs]. *)
Fixpoint grade (qs : list Question.t) (student_answers : json) (score : Z)
  : result Z :=
  match qs with
  | [] => Ok score
  | q :: qs' =>
      student_ans <- get student_answers (str (Question.id q)) ;;
      grade qs' student_answers
            (if truthy student_ans && eq_str student_ans (Question.correct_answer q)
             then score + 1 else score)
  end.

Definition grade_attempt (st : db) (now : Z) (attempt : Attempt.t) (quiz_id : Z)
  (student_answers : json) : result (db * response) :=
  let questions := questions_of st quiz_id in
  let total := Z.of_nat (length questions) in
  score <- grade questions student_answers 0 ;;
  let attempt' :=
    Attempt.mk (Attempt.id attempt) (Attempt.quiz_id attempt) (Attempt.student_id attempt)
               (Some score) (Some total) (Attempt.started_at attempt) (Some now) true in
  Ok (update_attempt st attempt',
      (Json (JObj [("score", JNum score); ("totalQuestions", JNum total)]), 200)).

(** The view looks no quiz up: its [quiz_id] is only a parameter of the
    two filters, and is taken among the SQLite integers, where the ids of
    all quizzes and attempts are. *)
Definition submit_quiz_attempt (st : db) (now : Z) (current_user : User.t)
  (quiz_id : Z) (data : json) : db * response :=
  if negb (String.eqb (User.role current_user) "student")
  then (st, (error "Not authorized", 403))
  else match active_attempt_of st quiz_id (User.id current_user) with
       | None => (st, (error "No active attempt found", 404))
       | Some attempt =>
           match get_default data "answers" (JObj []) with
           | Raise e => (st, (Unhandled e, 500))
           | Ok student_answers =>
               match grade_attempt st now attempt quiz_id student_answers with
               | Ok r => r
               | Raise e => (st, (Failure "Error submitting quiz: " e, 400))
               end
           end
       end.

(** *** [log_proctor_event] *)

(** The [quiz_id] of the URL goes to an Integer column as the body's
    [questionNumber] does: the INSERT binds both. *)
Definition new_log (st : db) (now : Z) (current_user : User.t) (quiz_id : Z)
  (data : json) : result (db * response) :=
  event_type <- getitem data "eventType" ;;
  question_number <- getitem data "questionNumber" ;;
  quiz_id <- column_integer (JNum quiz_id) ;;
  event_type <- column_text event_type ;;
  question_number <- column_integer question_number ;;
  Ok (snd (insert_log st now quiz_id (User.id current_user) event_type question_number),
      (Json (JObj [("status", JStr "logged")]), 200)).

Definition log_proctor_event (st : db) (now : Z) (current_user : User.t)
  (quiz_id : Z) (data : json) : db * response :=
  if negb (String.eqb (User.role current_user) "student")
  then (st, (error "Not authorized", 403))
  else match new_log st now current_user quiz_id data with
       | Ok r => r
       | Raise e => (st, (Failure "Error logging event: " e, 400))
       end.

(** ** The application as a transition system *)

Inductive request : Type :=
| ManageQuizzes (m : method) (data : json)
| ManageQuizDetails (m : method) (quiz_id : Z)
| AddQuestionManual (quiz_id : Z) (data : json)
| AddQuestionsCsv (quiz_id : Z) (files : option upload)
| StartQuizAttempt (quiz_id : Z)
| SubmitQuizAttempt (quiz_id : Z) (data : json)
| LogProctorEvent (quiz_id : Z) (data : json).

Definition handle (st : db) (now : Z) (current_user : User.t) (r : request)
  : db * response :=
  match r with
  | ManageQuizzes m data => manage_quizzes st current_user m data
  | ManageQuizDetails m quiz_id => manage_quiz_details st current_user m quiz_id
  | AddQuestionManual quiz_id data => add_question_manual st current_user quiz_id data
  | AddQuestionsCsv quiz_id files => add_questions_csv st current_user quiz_id files
  | StartQuizAttempt quiz_id => start_quiz_attempt st now current_user quiz_id
  | SubmitQuizAttempt quiz_id data => submit_quiz_attempt st now current_user quiz_id data
  | LogProctorEvent quiz_id data => log_proctor_event st now current_user quiz_id data
  end.

(** The databases the application can be in: it starts with no attempt
    and changes by requests only. *)
Inductive reachable : db -> Prop :=
| reachable_init (st : db) : attempts st = [] -> reachable st
| reachable_step (st : db) (now : Z) (current_user : User.t) (r : request) :
    reachable st -> reachable (fst (handle st now current_user r)).

End Views.

(** ** Vocabulary of the properties *)

(** The pair an attempt belongs to. *)
Definition attempt_key (a : Attempt.t) : Z * Z :=
  (Attempt.quiz_id a, Attempt.student_id a).

(** The rows of the attempts table for a (quiz, student) pair. *)
Definition attempts_for (st : db) (quiz_id student_id : Z) : list Attempt.t :=
  filter (fun a => (Attempt.quiz_id a =? quiz_id) && (Attempt.student_id a =? student_id))
         (attempts st).

(** Primary keys are unique, and so are (quiz, student) pairs. *)
Definition attempts_unique (st : db) : Prop :=
  NoDup (map Attempt.id (attempts st)) /\ NoDup (map attempt_key (attempts st)).

(** The attempt as the grading leaves it. *)
Definition graded (attempt : Attempt.t) (score total now : Z) : Attempt.t :=
  Attempt.mk (Attempt.id attempt) (Attempt.quiz_id attempt) (Attempt.student_id attempt)
             (Some score) (Some total) (Attempt.started_at attempt) (Some now) true.

(** A question counts for the score when the answers mapping has an entry
    under the question's id and the entry equals the correct key. *)
Definition answered_correctly (answers : list (string * json)) (q : Question.t) : bool :=
  match assoc (str (Question.id q)) answers with
  | Some v => eq_str v (Question.correct_answer q)
  | None => false
  end.

Definition expected_score (qs : list Question.t) (answers : list (string * json)) : Z :=
  Z.of_nat (length (filter (answered_correctly answers) qs)).

(** A question is credited when the entry is moreover not the empty
    string: the entry under the question's id is a str, it is not empty,
    and it is the correct key. *)
Definition credited (answers : list (string * json)) (q : Question.t) : bool :=
  match assoc (str (Question.id q)) answers with
  | Some (JStr s) => negb (String.eqb s "") && String.eqb s (Question.correct_answer q)
  | _ => false
  end.

Definition credited_score (qs : list Question.t) (answers : list (string * json)) : Z :=
  Z.of_nat (length (filter (credited answers) qs)).

(** A question with its correct key blanked out. *)
Definition without_key (q : Question.t) : Question.t :=
  Question.mk (Question.id q) (Question.quiz_id q) (Question.text q)
              (Question.option_a q) (Question.option_b q) (Question.option_c q)
              (Question.option_d q) "".

(** Two databases that differ at most in the correct keys of questions. *)
Definition same_but_keys (st1 st2 : db) : Prop :=
  users st1 = users st2
  /\ quizzes st1 = quizzes st2
  /\ map without_key (questions st1) = map without_key (questions st2)
  /\ attempts st1 = attempts st2
  /\ proctor_logs st1 = proctor_logs st2.

(** The students named by the attempts and proctor logs of a quiz have a
    row in the users table. *)
Definition students_registered (st : db) (quiz_id : Z) : Prop :=
  (forall a, In a (attempts_of st quiz_id) -> get_user st (Attempt.student_id a) <> None)
  /\ (forall l, In l (logs_of st quiz_id) -> get_user st (ProctorLog.student_id l) <> None).

(** The text a row holds in a column: none when the column is absent from
    the row or the row is too short to reach it. *)
Definition text_field (r : row) (k : string) : option string :=
  match assoc k r with
  | Some v => v
  | None => None
  end.

(** A row that misses none of the six columns and whose correct answer,
    uppercased, is one of A, B, C, D. *)
Definition row_ok (r : row) : bool :=
  forallb (fun k => match text_field r k with Some _ => true | None => false end)
          csv_columns
  && match text_field r "correct_answer" with
     | Some answer => existsb (String.eqb (upper answer)) ["A"; "B"; "C"; "D"]
     | None => false
     end.

(** The question a row is stored as. *)
Definition stored_as (quiz_id : Z) (r : row) (q : Question.t) : Prop :=
  Question.quiz_id q = quiz_id
  /\ text_field r "question_text" = Some (Question.text q)
  /\ text_field r "option_a" = Some (Question.option_a q)
  /\ text_field r "option_b" = Some (Question.option_b q)
  /\ text_field r "option_c" = Some (Question.option_c q)
  /\ text_field r "option_d" = Some (Question.option_d q)
  /\ option_map upper (text_field r "correct_answer") = Some (Question.correct_answer q)
  /\ In (Question.correct_answer q) ["A"; "B"; "C"; "D"].

(** A pending question one of whose texts is missing. *)
Definition incomplete (p : pending_question) : Prop :=
  p_text p = None \/ p_option_a p = None \/ p_option_b p = None
  \/ p_option_c p = None \/ p_option_d p = None.

(** The message of a successful import. *)
Definition added_message (n : nat) : json :=
  JObj [("message",
         JStr (String.append "Successfully added "
                 (String.append (str (Z.of_nat n)) " questions.")))].

Section Coercions.
Context {P : Platform}.



End Coercions.

(** ** A reference platform

    CPython and SQLite on the values in their canonical form: date-times
    written [YYYY-MM-DDTHH:MM:SS], optionally followed by [+00:00], counted
    in seconds from 1970-01-01T00:00:00; decimal integers with an optional
    sign; a storage layer that takes a str for a String column and a 64-bit
    int for an Integer column and refuses the rest. *)

Module Reference.

Definition digit (c : ascii) : option Z :=
  let n := nat_of_ascii c in
  if (Nat.leb 48 n && Nat.leb n 57)%bool then Some (Z.of_nat (n - 48)) else None.

Fixpoint digits (s : string) (acc : Z) : option Z :=
  match s with
  | EmptyString => Some acc
  | String c s' => match digit c with
                   | Some d => digits s' (10 * acc + d)
                   | None => None
                   end
  end.

(** A non-empty run of decimal digits. *)
Definition number (s : string) : option Z :=
  match s with
  | EmptyString => None
  | _ => digits s 0
  end.

Definition days_from_civil (y m d : Z) : Z :=
  let y := if m <=? 2 then y - 1 else y in
  let era := y / 400 in
  let yoe := y - era * 400 in
  let doy := (153 * (m + (if 2 <? m then -3 else 9)) + 2) / 5 + d - 1 in
  let doe := yoe * 365 + yoe / 4 - yoe / 100 + doy in
  era * 146097 + doe - 719468.

Definition civil_from_days (days : Z) : Z * Z * Z :=
  let z := days + 719468 in
  let era := z / 146097 in
  let doe := z - era * 146097 in
  let yoe := (doe - doe / 1460 + doe / 36524 - doe / 146096) / 365 in
  let doy := doe - (365 * yoe + yoe / 4 - yoe / 100) in
  let mp := (5 * doy + 2) / 153 in
  let d := doy - (153 * mp + 2) / 5 + 1 in
  let m := mp + (if mp <? 10 then 3 else -9) in
  (yoe + era * 400 + (if m <=? 2 then 1 else 0), m, d).

Definition is_leap (y : Z) : bool :=
  ((y mod 4 =? 0) && negb (y mod 100 =? 0) || (y mod 400 =? 0))%bool.

Definition days_in_month (y m : Z) : Z :=
  if m =? 2 then (if is_leap y then 29 else 28)
  else if ((m =? 4) || (m =? 6) || (m =? 9) || (m =? 11))%bool then 30 else 31.

Definition parse_iso (s : string) : option Z :=
  let part := fun (n len : nat) => String.substring n len s in
  let tz := String.substring 19 (String.length s - 19)%nat s in
  match number (part 0 4)%nat, number (part 5 2)%nat, number (part 8 2)%nat,
        number (part 11 2)%nat, number (part 14 2)%nat, number (part 17 2)%nat with
  | Some y, Some m, Some d, Some hh, Some mm, Some ss =>
      if (String.eqb (part 4 1)%nat "-" && String.eqb (part 7 1)%nat "-"
          && String.eqb (part 10 1)%nat "T"
          && String.eqb (part 13 1)%nat ":" && String.eqb (part 16 1)%nat ":"
          && (String.eqb tz "" || String.eqb tz "+00:00")
          && (1 <=? y) && (1 <=? m) && (m <=? 12)
          && (1 <=? d) && (d <=? days_in_month y m)
          && (hh <? 24) && (mm <? 60) && (ss <? 60))%bool
      then Some (((days_from_civil y m d * 24 + hh) * 60 + mm) * 60 + ss)
      else None
  | _, _, _, _, _, _ => None
  end.

(** [n] in decimal, zero-padded to [width] digits. *)
Definition padded (width : nat) (n : Z) : string :=
  let s := str n in
  String.append (String.concat "" (repeat "0" (width - String.length s)%nat)) s.

Definition print_iso (t : Z) : string :=
  let '(y, m, d) := civil_from_days (t / 86400) in
  let secs := t mod 86400 in
  String.concat ""
    [padded 4 y; "-"; padded 2 m; "-"; padded 2 d; "T";
     padded 2 (secs / 3600); ":"; padded 2 (secs mod 3600 / 60); ":";
     padded 2 (secs mod 60)].

Definition parse_int (s : string) : option Z :=
  match s with
  | String "+" s' => number s'
  | String "-" s' => option_map Z.opp (number s')
  | _ => number s
  end.

Definition text_column (v : json) : option string :=
  match v with
  | JStr s => Some s
  | _ => None
  end.

Definition integer_column (v : json) : option Z :=
  match v with
  | JNum z => if ((- 2 ^ 63 <=? z) && (z <? 2 ^ 63))%bool then Some z else None
  | _ => None
  end.

Definition platform : Platform.
Proof.
  refine {| fromisoformat := parse_iso;
            isoformat := print_iso;
            int_of_str := parse_int;
            bind_text := text_column;
            bind_integer := integer_column |}.
  - reflexivity.
  - intros z [Hlo Hhi]. unfold integer_column.
    apply Z.leb_le in Hlo. apply Z.ltb_lt in Hhi.
    now rewrite Hlo, Hhi.
Defined.

End Reference.


(** ** A scenario: one quiz, five questions, one student *)

Module Scenario.

Definition teacher : User.t := User.mk 1 "teacher@example.org" "teacher".
Definition student : User.t := User.mk 2 "student@example.org" "student".

(** 2024-01-01T10:00:00, the start of the quiz, and moments around it. *)
Definition opening : Z := 1704103200.
Definition before_opening : Z := opening - 1.
Definition during : Z := opening + 600.
Definition a_year_later : Z := opening + 31536000.

Definition run (st : db) (now : Z) (u : User.t) (r : request) : db * response :=
  @handle Reference.platform st now u r.

Definition question_data (text correct : string) : json :=
  JObj [("text", JStr text);
        ("options", JObj [("A", JStr "first"); ("B", JStr "second");
                          ("C", JStr "third"); ("D", JStr "fourth")]);
        ("correctAnswer", JStr correct)].

Definition quiz_data : json :=
  JObj [("title", JStr "Midterm");
        ("startTime", JStr "2024-01-01T10:00:00Z");
        ("durationMinutes", JNum 30)].

Definition registered : db := mkdb [teacher; student] [] [] [] [].

(** The teacher creates the quiz and gives it the keys A, B, C, D, A. *)
Definition authored : db :=
  Eval vm_compute in
  fold_left (fun st r => fst (run st 0 teacher r))
    [ManageQuizzes POST quiz_data;
     AddQuestionManual 1 (question_data "q1" "A");
     AddQuestionManual 1 (question_data "q2" "B");
     AddQuestionManual 1 (question_data "q3" "C");
     AddQuestionManual 1 (question_data "q4" "D");
     AddQuestionManual 1 (question_data "q5" "A")]
    registered.

(** The student starts the quiz ten minutes in. *)
Definition started : db :=
  Eval vm_compute in fst (run authored during student (StartQuizAttempt 1)).

(** The submission of the student: q2 wrong, q4 left out. *)
Definition answers : json :=
  JObj [("answers", JObj [("1", JStr "A"); ("2", JStr "X"); ("3", JStr "C");
                          ("5", JStr "A")])].

Definition submitted : db :=
  Eval vm_compute in fst (run started (during + 900) student (SubmitQuizAttempt 1 answers)).

(** Another course of events: the teacher adds a sixth question, whose
    correct key is the empty string, before the student starts. *)
Definition blank_key : json := question_data "q6" "".

Definition started_with_blank_key : db :=
  Eval vm_compute in
  fst (run (fst (run authored 0 teacher (AddQuestionManual 1 blank_key)))
           during student (StartQuizAttempt 1)).

End Scenario.


(** * The rest of the application *)

(** ** [get_student_quizzes] *)

Section StudentQuizzes.
Context {P : Platform}.

Definition attempt_summary (attempt : Attempt.t) : json :=
  JObj [("score", opt_json JNum (Attempt.score attempt));
        ("totalQuestions", opt_json JNum (Attempt.total_questions attempt));
        ("finished", JBool (Attempt.finished attempt))].

(** The [quiz_data] of one turn of the loop. *)
Definition student_quiz (st : db) (current_user : User.t) (q : Quiz.t) : json :=
  let attempt := attempt_of st (Quiz.id q) (User.id current_user) in
  JObj [("id", JNum (Quiz.id q));
        ("title", JStr (Quiz.title q));
        ("startTime", JStr (isoformat (Quiz.start_time q)));
        ("durationMinutes", JNum (Quiz.duration_minutes q));
        ("questionCount", JNum (question_count st q));
        ("attempt", opt_json attempt_summary attempt)].

Definition get_student_quizzes (st : db) (current_user : User.t) : db * response :=
  if negb (String.eqb (User.role current_user) "student")
  then (st, (error "Not authorized", 403))
  else (st, (Json (JArr (map (student_quiz st current_user) (quizzes st))), 200)).

End StudentQuizzes.

(** ** Accounts and sessions

    [flask_bcrypt] salts its hashes at random and is not part of the
    program: a hasher is a parameter, with the salt an input of the request
    and the one law that a generated hash checks against its password. *)
Class Hasher : Type := {
  (** [bcrypt.generate_password_hash(password).decode('utf-8')] under a
      salt; [None] when the call raises. *)
  generate_password_hash : string -> json -> option string;
  (** [bcrypt.check_password_hash(pw_hash, password)]; [None] when the call
      raises. *)
  check_password_hash : string -> json -> option bool;
  check_generated :
    forall salt password pw_hash,
      generate_password_hash salt password = Some pw_hash ->
      check_password_hash pw_hash password = Some true
}.

(** The database with the [password_hash] column of the user table, kept
    by user id beside the rows of [users]. *)
Record app : Type := mk_app {
  store : db;
  password_hash : list (Z * string)
}.

Definition hash_of (a : app) (user_id : Z) : option string :=
  option_map snd (find (fun entry => fst entry =? user_id) (password_hash a)).

(** [User.query.filter_by(email=email).first()] *)
Definition user_by_email (st : db) (email : string) : option User.t :=
  find (fun u => String.eqb (User.email u) email) (users st).

Definition set_users (st : db) (l : list User.t) : db :=
  mkdb l (quizzes st) (questions st) (attempts st) (proctor_logs st).

Definition user_json (u : User.t) : json :=
  JObj [("uid", JNum (User.id u));
        ("email", JStr (User.email u));
        ("role", JStr (User.role u))].

(** [not data or not data.get(k1) or not data.get(k2) ...] *)
Fixpoint any_missing (data : json) (keys : list string) : result bool :=
  match keys with
  | [] => Ok false
  | k :: ks => v <- get data k ;; if negb (truthy v) then Ok true else any_missing data ks
  end.

Definition missing_fields (data : json) (keys : list string) : result bool :=
  if negb (truthy data) then Ok true else any_missing data keys.

Section Accounts.
Context {P : Platform} {H : Hasher}.

(** [user.set_password(password)] *)
Definition set_password (salt : string) (password : json) : result string :=
  match generate_password_hash salt password with
  | Some pw_hash => Ok pw_hash
  | None => Raise TypeError
  end.

(** [user.check_password(password)] *)
Definition check_password (a : app) (user : User.t) (password : json) : result bool :=
  match hash_of a (User.id user) with
  | None => Raise AttributeError
  | Some pw_hash =>
      match check_password_hash pw_hash password with
      | Some b => Ok b
      | None => Raise TypeError
      end
  end.

(** The session is the user id [login_user] leaves in the cookie. *)
Definition new_account (a : app) (salt : string) (session : option Z) (data : json)
  : result (app * option Z * response) :=
  email <- getitem data "email" ;;
  known <- column_text email ;;
  match user_by_email (store a) known with
  | Some _ => Ok (a, session, (error "Email already registered", 400))
  | None =>
      role <- getitem data "role" ;;
      password <- getitem data "password" ;;
      pw_hash <- set_password salt password ;;
      email <- column_text email ;;
      role <- column_text role ;;
      let new_user := User.mk (next_id (map User.id (users (store a)))) email role in
      Ok (mk_app (set_users (store a) (users (store a) ++ [new_user]))
                 (password_hash a ++ [(User.id new_user, pw_hash)]),
          Some (User.id new_user),
          (Json (user_json new_user), 201))
  end.

Definition register (a : app) (salt : string) (session : option Z) (data : json)
  : app * option Z * response :=
  match missing_fields data ["email"; "password"; "role"] with
  | Raise e => (a, session, (Unhandled e, 500))
  | Ok true => (a, session, (error "Missing required fields", 400))
  | Ok false =>
      match new_account a salt session data with
      | Ok r => r
      | Raise e => (a, session, (Unhandled e, 500))
      end
  end.

Definition authenticate (a : app) (session : option Z) (data : json)
  : result (app * option Z * response) :=
  email <- getitem data "email" ;;
  known <- column_text email ;;
  match user_by_email (store a) known with
  | None => Ok (a, session, (error "Invalid credentials", 401))
  | Some user =>
      password <- getitem data "password" ;;
      ok <- check_password a user password ;;
      if ok
      then Ok (a, Some (User.id user), (Json (user_json user), 200))
      else Ok (a, session, (error "Invalid credentials", 401))
  end.

Definition login (a : app) (session : option Z) (data : json)
  : app * option Z * response :=
  match missing_fields data ["email"; "password"] with
  | Raise e => (a, session, (Unhandled e, 500))
  | Ok true => (a, session, (error "Missing email or password", 400))
  | Ok false =>
      match authenticate a session data with
      | Ok r => r
      | Raise e => (a, session, (Unhandled e, 500))
      end
  end.

(** [load_user] on the id of the session: the [current_user] of a request,
    none for an anonymous one. *)
Definition load_user (a : app) (session : option Z) : option User.t :=
  match session with
  | Some user_id => get_user (store a) user_id
  | None => None
  end.

(** [@login_required]: an anonymous request is refused with 401. *)
Definition login_required (a : app) (session : option Z)
  (view : User.t -> app * option Z * response) : app * option Z * response :=
  match load_user a session with
  | Some current_user => view current_user
  | None => (a, session, (Refused, 401))
  end.

Definition logout (a : app) (session : option Z) : app * option Z * response :=
  login_required a session
    (fun _ => (a, None, (Json (JObj [("message", JStr "Logged out successfully")]), 200))).

Definition check_session (a : app) (session : option Z) : app * option Z * response :=
  match load_user a session with
  | Some current_user => (a, session, (Json (user_json current_user), 200))
  | None => (a, session, (error "Not authenticated", 401))
  end.

(** *** The routes *)

Inductive route : Type :=
| Register (data : json)
| Login (data : json)
| Logout
| CheckSession
| StudentQuizzes
| Api (r : request).

(** A view that works on the database alone, under [@login_required]. *)
Definition protected (a : app) (session : option Z)
  (view : User.t -> db * response) : app * option Z * response :=
  login_required a session
    (fun current_user =>
       let (st', r) := view current_user in
       (mk_app st' (password_hash a), session, r)).

Definition serve (a : app) (now : Z) (salt : string) (session : option Z) (rt : route)
  : app * option Z * response :=
  match rt with
  | Register data => register a salt session data
  | Login data => login a session data
  | Logout => logout a session
  | CheckSession => check_session a session
  | StudentQuizzes => protected a session (get_student_quizzes (store a))
  | Api r => protected a session (fun current_user => handle (store a) now current_user r)
  end.

(** The states of the application: it starts on the empty database that
    [db.create_all()] makes, and changes by requests only. *)
Inductive app_reachable : app -> Prop :=
| app_reachable_init : app_reachable (mk_app (mkdb [] [] [] [] []) [])
| app_reachable_step (a : app) (now : Z) (salt : string) (session : option Z)
    (rt : route) :
    app_reachable a -> app_reachable (fst (fst (serve a now salt session rt))).

End Accounts.

(** ** The changes a request can make *)

(** One change of the database, by the user [u] at the time [now], with
    the conditions under which the views make it. *)
Inductive change (now : Z) (u : User.t) (st : db) : db -> Prop :=
| quiz_created (title : string) (start_time duration : Z) :
    User.role u = "teacher" ->
    change now u st (snd (insert_quiz st title start_time duration (User.id u)))
| quiz_deleted (quiz : Quiz.t) :
    User.role u = "teacher" ->
    get_quiz st (Quiz.id quiz) = Some quiz ->
    Quiz.teacher_id quiz = User.id u ->
    change now u st (delete_quiz st quiz)
| question_added (quiz : Quiz.t) (text a b c d correct : string) :
    User.role u = "teacher" ->
    get_quiz st (Quiz.id quiz) = Some quiz ->
    Quiz.teacher_id quiz = User.id u ->
    change now u st (snd (insert_question st (Quiz.id quiz) text a b c d correct))
| attempt_started (quiz : Quiz.t) :
    User.role u = "student" ->
    get_quiz st (Quiz.id quiz) = Some quiz ->
    attempt_of st (Quiz.id quiz) (User.id u) = None ->
    Quiz.start_time quiz <= now ->
    change now u st (snd (insert_attempt st now (Quiz.id quiz) (User.id u)))
| attempt_graded (attempt : Attempt.t) (score : Z) :
    User.role u = "student" ->
    active_attempt_of st (Attempt.quiz_id attempt) (User.id u) = Some attempt ->
    0 <= score <= Z.of_nat (length (questions_of st (Attempt.quiz_id attempt))) ->
    change now u st
      (update_attempt st
         (graded attempt score
                 (Z.of_nat (length (questions_of st (Attempt.quiz_id attempt)))) now))
| event_logged (quiz_id : Z) (event_type : string) (question_number : Z) :
    User.role u = "student" ->
    change now u st
      (snd (insert_log st now quiz_id (User.id u) event_type question_number)).

Inductive changes (now : Z) (u : User.t) : db -> db -> Prop :=
| changes_none (st : db) : changes now u st st
| changes_more (st st' st'' : db) :
    change now u st st' -> changes now u st' st'' -> changes now u st st''.

(** ** Invariants of the tables *)

(** Primary keys are unique in the four tables the views write. *)
Definition keys_unique (st : db) : Prop :=
  NoDup (map Quiz.id (quizzes st))
  /\ NoDup (map Question.id (questions st))
  /\ NoDup (map Attempt.id (attempts st))
  /\ NoDup (map ProctorLog.id (proctor_logs st)).

(** Every question and every attempt belongs to a quiz of the table. *)
Definition rows_belong (st : db) : Prop :=
  (forall q, In q (questions st) -> get_quiz st (Question.quiz_id q) <> None)
  /\ (forall a, In a (attempts st) -> get_quiz st (Attempt.quiz_id a) <> None).

(** An unfinished attempt has no score, total or finish time; a finished
    one has all three, with the score between zero and the total. *)
Definition attempt_scored (a : Attempt.t) : Prop :=
  if Attempt.finished a
  then exists score total,
         Attempt.score a = Some score /\ Attempt.total_questions a = Some total
         /\ 0 <= score <= total /\ Attempt.finished_at a <> None
  else Attempt.score a = None /\ Attempt.total_questions a = None
       /\ Attempt.finished_at a = None.

(** The user table of a reachable application: ids and emails are
    unique, and the hash column has one entry for each row, in order. *)
Definition accounts_sound (a : app) : Prop :=
  NoDup (map User.id (users (store a)))
  /\ NoDup (map User.email (users (store a)))
  /\ map fst (password_hash a) = map User.id (users (store a)).

(** The students of every attempt and proctor log have a row in the user
    table. *)
Definition students_known (st : db) : Prop :=
  (forall a, In a (attempts st) -> get_user st (Attempt.student_id a) <> None)
  /\ (forall l, In l (proctor_logs st) -> get_user st (ProctorLog.student_id l) <> None).

(** ** A stand-in hasher

    Not bcrypt: the hash is the salt, a dollar sign and the password in
    clear.  It satisfies the law of [Hasher], which is all the properties
    use. *)
Module Standin.

Definition generate (salt : string) (password : json) : option string :=
  match password with
  | JStr p => if String.eqb p "" then None
              else Some (String.append salt (String.append "$" p))
  | _ => None
  end.

Definition check (pw_hash : string) (password : json) : option bool :=
  match password with
  | JStr p => Some (endswith pw_hash (String.append "$" p))
  | _ => None
  end.

Definition hasher : Hasher.
Proof.
  refine {| generate_password_hash := generate; check_password_hash := check |}.
  intros salt [| | |p| |] pw_hash; simpl; try discriminate.
  destruct (String.eqb p ""); [discriminate|].
  intros Heq. injection Heq as <-. f_equal.
  generalize (String.append "$" p). intros suffix.
  induction salt as [|c salt IH].
  - destruct suffix; cbn -[String.eqb]; now rewrite String.eqb_refl.
  - cbn -[String.eqb]. destruct (String.eqb _ _); [reflexivity|exact IH].
Defined.

End Standin.

(** ** A scenario of the whole application *)

Module Site.

Definition serve := @serve Reference.platform Standin.hasher.

Definition teacher_form : json :=
  JObj [("email", JStr "teacher@example.org"); ("password", JStr "chalk");
        ("role", JStr "teacher")].

Definition student_form : json :=
  JObj [("email", JStr "student@example.org"); ("password", JStr "pencil");
        ("role", JStr "student")].

(** A teacher who owns no quiz of the scenario, and a visitor whose role
    is neither of the two. *)
Definition colleague : User.t := User.mk 3 "colleague@example.org" "teacher".
Definition visitor : User.t := User.mk 4 "visitor@example.org" "guest".

Definition empty : app := mk_app (mkdb [] [] [] [] []) [].

(** The requests of the scenario, with their time, salt and session. *)
Definition script : list (Z * string * option Z * route) :=
  [(0, "s1", None, Register teacher_form);
   (0, "s2", None, Register student_form);
   (0, "", Some 1, Api (ManageQuizzes POST Scenario.quiz_data));
   (0, "", Some 1, Api (AddQuestionManual 1 (Scenario.question_data "q1" "A")));
   (0, "", Some 1, Api (AddQuestionManual 1 (Scenario.question_data "q2" "B")));
   (Scenario.during, "", Some 2, Api (StartQuizAttempt 1));
   (Scenario.during + 60, "", Some 2,
    Api (LogProctorEvent 1 (JObj [("eventType", JStr "tab-blur");
                                  ("questionNumber", JNum 2)])));
   (Scenario.during + 900, "", Some 2,
    Api (SubmitQuizAttempt 1 (JObj [("answers", JObj [("1", JStr "A"); ("2", JStr "C")])])))].

Definition play (a : app) (step : Z * string * option Z * route) : app :=
  let '(now, salt, session, rt) := step in fst (fst (serve a now salt session rt)).

Definition signed_up : app := Eval vm_compute in fold_left play (firstn 2 script) empty.

Definition graded : app := Eval vm_compute in fold_left play script empty.

End Site.

(** * Properties *)

(** ** Lists and lookups *)

Lemma find_none_iff {A : Type} (p : A -> bool) (l : list A) :
  find p l = None <-> forall a, In a l -> p a = false.
Proof.
  split.
  - intros H a Ha. exact (find_none p l H a Ha).
  - induction l as [|x l IH]; intros H; simpl; [reflexivity|].
    rewrite (H x (or_introl eq_refl)). apply IH.
    intros a Ha. apply H. now right.
Qed.

Lemma find_app_none {A : Type} (p : A -> bool) (l l' : list A) :
  find p l = None -> find p (l ++ l') = find p l'.
Proof.
  induction l as [|x l IH]; simpl; [reflexivity|].
  destruct (p x); [discriminate|exact IH].
Qed.

(** Deleting rows keeps a key unique. *)
Lemma filter_keeps_unique {Row Key : Type} (key : Row -> Key) (rows : list Row)
  (keep : Row -> bool) :
  NoDup (map key rows) -> NoDup (map key (filter keep rows)).
Proof.
  induction rows as [|x rows IH]; simpl; intros H; [constructor|].
  inversion H as [|? ? Hnotin Hnd]; subst.
  destruct (keep x); simpl; [constructor|]; auto.
  intros Hin. apply Hnotin.
  apply in_map_iff in Hin. destruct Hin as [y [Hy Hin]].
  apply filter_In in Hin. apply in_map_iff. exists y. tauto.
Qed.

Lemma NoDup_map_In_eq {A B : Type} (f : A -> B) (l : list A) (x y : A) :
  NoDup (map f l) -> In x l -> In y l -> f x = f y -> x = y.
Proof.
  induction l as [|a l IH]; simpl; intros Hnd Hx Hy Hf; [contradiction|].
  inversion Hnd as [|? ? Hnotin Hnd']; subst.
  destruct Hx as [Hx|Hx], Hy as [Hy|Hy]; subst; auto.
  - exfalso. apply Hnotin. rewrite Hf. now apply in_map.
  - exfalso. apply Hnotin. rewrite <- Hf. now apply in_map.
Qed.

Lemma fold_max_bound (ids : list Z) (z : Z) :
  In z ids -> z <= fold_right Z.max 0 ids.
Proof.
  induction ids as [|a ids IH]; simpl; [contradiction|].
  intros [->|H]; [lia|]. specialize (IH H). lia.
Qed.

Lemma next_id_fresh (ids : list Z) : ~ In (next_id ids) ids.
Proof.
  intros H. apply fold_max_bound in H. unfold next_id in H. lia.
Qed.

Lemma session_get_quiz_some (st : db) (quiz_id : Z) (quiz : Quiz.t) :
  get_quiz st quiz_id = Some quiz -> session_get_quiz st quiz_id = Ok (Some quiz).
Proof. intros H. unfold session_get_quiz. now rewrite H. Qed.

Lemma session_get_quiz_none (st : db) (quiz_id : Z) :
  get_quiz st quiz_id = None -> - 2 ^ 63 <= quiz_id < 2 ^ 63 ->
  session_get_quiz st quiz_id = Ok None.
Proof.
  intros H [Hlo Hhi]. unfold session_get_quiz, sqlite_integer. rewrite H.
  apply Z.leb_le in Hlo. apply Z.ltb_lt in Hhi. now rewrite Hlo, Hhi.
Qed.

Lemma session_get_quiz_overflow (st : db) (quiz_id : Z) :
  get_quiz st quiz_id = None -> ~ (- 2 ^ 63 <= quiz_id < 2 ^ 63) ->
  session_get_quiz st quiz_id = Raise OverflowError.
Proof.
  intros H Hout. unfold session_get_quiz, sqlite_integer. rewrite H.
  destruct (- 2 ^ 63 <=? quiz_id) eqn:Hlo; [|reflexivity].
  destruct (quiz_id <? 2 ^ 63) eqn:Hhi; [|reflexivity].
  apply Z.leb_le in Hlo. apply Z.ltb_lt in Hhi. exfalso. apply Hout. lia.
Qed.

Lemma session_get_quiz_raise (st : db) (quiz_id : Z) (e : exn) :
  session_get_quiz st quiz_id = Raise e ->
  get_quiz st quiz_id = None /\ ~ (- 2 ^ 63 <= quiz_id < 2 ^ 63) /\ e = OverflowError.
Proof.
  unfold session_get_quiz, sqlite_integer.
  destruct (get_quiz st quiz_id); [discriminate|].
  destruct (- 2 ^ 63 <=? quiz_id) eqn:Hlo; destruct (quiz_id <? 2 ^ 63) eqn:Hhi;
    simpl; try discriminate; intros [= <-]; repeat split; trivial;
    intros [H1 H2]; try (apply Z.leb_gt in Hlo); try (apply Z.ltb_ge in Hhi); lia.
Qed.

Lemma session_get_quiz_cases (st : db) (quiz_id : Z) :
  (exists quiz, get_quiz st quiz_id = Some quiz
                /\ session_get_quiz st quiz_id = Ok (Some quiz))
  \/ (get_quiz st quiz_id = None /\ session_get_quiz st quiz_id = Ok None)
  \/ (get_quiz st quiz_id = None /\ session_get_quiz st quiz_id = Raise OverflowError).
Proof.
  unfold session_get_quiz. destruct (get_quiz st quiz_id) as [quiz|]; eauto.
  destruct (sqlite_integer quiz_id); auto.
Qed.

(** Case analysis on the lookup of a quiz. *)
Ltac lookup st quiz_id quiz Hq :=
  let Hs := fresh "Hs" in
  destruct (session_get_quiz_cases st quiz_id) as [[quiz [Hq Hs]]|[[Hq Hs]|[Hq Hs]]];
  rewrite Hs; clear Hs.

Lemma get_quiz_id (st : db) (quiz_id : Z) (quiz : Quiz.t) :
  get_quiz st quiz_id = Some quiz -> Quiz.id quiz = quiz_id.
Proof.
  intros H. apply find_some in H. destruct H as [_ H]. now apply Z.eqb_eq.
Qed.

(** ** The attempts table under the views *)

Lemma attempt_of_none_key (st : db) (quiz_id student_id : Z) :
  attempt_of st quiz_id student_id = None ->
  ~ In (quiz_id, student_id) (map attempt_key (attempts st)).
Proof.
  unfold attempt_of. intros H Hin.
  apply in_map_iff in Hin. destruct Hin as [a [Hk Ha]].
  apply (find_none _ _ H) in Ha.
  unfold attempt_key in Hk. inversion Hk; subst.
  now rewrite !Z.eqb_refl in Ha.
Qed.

Lemma NoDup_snoc {A : Type} (l : list A) (x : A) :
  NoDup l -> ~ In x l -> NoDup (l ++ [x]).
Proof.
  intros Hnd Hx. apply NoDup_app; [exact Hnd|repeat constructor; intros []|].
  intros a Ha [<-|[]]. contradiction.
Qed.

(** Inversion of a computation of the [result] monad that returned. *)
Ltac monad_inv H :=
  repeat
    match type of H with
    | bind ?r _ = Ok _ =>
        let E := fresh "E" in destruct r eqn:E; simpl in H; [|discriminate H]
    | (if ?b then _ else _) = Ok _ =>
        let E := fresh "E" in destruct b eqn:E; simpl in H; try discriminate H
    | (let (_, _) := ?x in _) = Ok _ =>
        let E := fresh "E" in destruct x eqn:E; simpl in H
    | Ok _ = Ok _ => inversion H; subst; clear H
    | Raise _ = Ok _ => discriminate H
    end.

Section AttemptsTable.
Context {P : Platform}.

Lemma create_quiz_attempts st u data st' r :
  create_quiz st u data = Ok (st', r) -> attempts st' = attempts st.
Proof.
  unfold create_quiz. intros H. monad_inv H. reflexivity.
Qed.

Lemma new_question_manual_attempts st quiz data st' r :
  new_question_manual st quiz data = Ok (st', r) -> attempts st' = attempts st.
Proof.
  unfold new_question_manual. intros H. monad_inv H. reflexivity.
Qed.

Lemma flush_questions_attempts ps : forall st quiz_id st',
  flush_questions st quiz_id ps = Ok st' -> attempts st' = attempts st.
Proof.
  induction ps as [|p ps IH]; simpl; intros st quiz_id st' H.
  - now inversion H.
  - monad_inv H. apply IH in H. exact H.
Qed.

Lemma import_rows_attempts st quiz rows st' r :
  import_rows st quiz rows = Ok (st', r) -> attempts st' = attempts st.
Proof.
  unfold import_rows. intros H. monad_inv H.
  eapply flush_questions_attempts; eassumption.
Qed.

Lemma manage_quizzes_attempts st u m data :
  attempts (fst (manage_quizzes st u m data)) = attempts st.
Proof.
  unfold manage_quizzes.
  destruct m; try reflexivity; (destruct (negb _); [reflexivity|]); try reflexivity.
  destruct (create_quiz st u data) as [[st' r]|e] eqn:E; [|reflexivity].
  simpl. eapply create_quiz_attempts; eassumption.
Qed.

Lemma add_question_manual_attempts st u quiz_id data :
  attempts (fst (add_question_manual st u quiz_id data)) = attempts st.
Proof.
  unfold add_question_manual.
  destruct (negb _); [reflexivity|].
  lookup st quiz_id quiz Hq; [|reflexivity|reflexivity].
  destruct (negb _); [reflexivity|].
  destruct (new_question_manual st quiz data) as [[st' r]|e] eqn:E; [|reflexivity].
  simpl. eapply new_question_manual_attempts; eassumption.
Qed.

Lemma add_questions_csv_attempts st u quiz_id files :
  attempts (fst (add_questions_csv st u quiz_id files)) = attempts st.
Proof.
  unfold add_questions_csv.
  destruct (negb _); [reflexivity|].
  lookup st quiz_id quiz Hq; [|reflexivity|reflexivity].
  destruct (negb _); [reflexivity|].
  destruct files as [file|]; [|reflexivity].
  destruct (String.eqb _ _); [reflexivity|].
  destruct (endswith _ _); [|reflexivity].
  destruct (stream file) as [rows|]; [|reflexivity].
  destruct (import_rows st quiz rows) as [[st' r]|e] eqn:E; [|reflexivity].
  simpl. eapply import_rows_attempts; eassumption.
Qed.

Lemma log_proctor_event_attempts st now u quiz_id data :
  attempts (fst (log_proctor_event st now u quiz_id data)) = attempts st.
Proof.
  unfold log_proctor_event.
  destruct (negb _); [reflexivity|].
  destruct (new_log st now u quiz_id data) as [[st' r]|e] eqn:E; [|reflexivity].
  unfold new_log in E. monad_inv E. reflexivity.
Qed.

Lemma manage_quiz_details_attempts st u m quiz_id :
  attempts (fst (manage_quiz_details st u m quiz_id)) = attempts st
  \/ attempts (fst (manage_quiz_details st u m quiz_id))
     = filter (fun a => negb (Attempt.quiz_id a =? quiz_id)) (attempts st).
Proof.
  unfold manage_quiz_details.
  destruct m; [|now left|];
    (lookup st quiz_id quiz Hq; [|now left|now left]);
    apply get_quiz_id in Hq; subst quiz_id.
  - destruct (_ && _); [now left|]. destruct (quiz_detail st quiz); now left.
  - destruct (negb _); [now left|]. destruct (negb _); [now left|]. now right.
Qed.

(** What [start_quiz_attempt] does to the attempts table: nothing, or one
    row appended for a pair that had none. *)
Lemma start_quiz_attempt_attempts st now u quiz_id :
  fst (start_quiz_attempt st now u quiz_id) = st
  \/ (attempt_of st quiz_id (User.id u) = None
      /\ fst (start_quiz_attempt st now u quiz_id)
         = snd (insert_attempt st now quiz_id (User.id u))).
Proof.
  unfold start_quiz_attempt.
  destruct (negb _); [now left|].
  lookup st quiz_id quiz Hq; [|now left|now left].
  apply get_quiz_id in Hq. subst quiz_id.
  destruct (attempt_of st (Quiz.id quiz) (User.id u)) eqn:Ha; [now left|].
  destruct (now <? Quiz.start_time quiz); [now left|].
  right. split; reflexivity.
Qed.

(** What [submit_quiz_attempt] does to the attempts table: nothing, or the
    grading of the first unfinished attempt of the pair. *)
Lemma submit_quiz_attempt_attempts st now u quiz_id data :
  fst (submit_quiz_attempt st now u quiz_id data) = st
  \/ exists attempt score total,
       active_attempt_of st quiz_id (User.id u) = Some attempt
       /\ fst (submit_quiz_attempt st now u quiz_id data)
          = update_attempt st
              (Attempt.mk (Attempt.id attempt) (Attempt.quiz_id attempt)
                          (Attempt.student_id attempt) (Some score) (Some total)
                          (Attempt.started_at attempt) (Some now) true).
Proof.
  unfold submit_quiz_attempt.
  destruct (negb _); [now left|].
  destruct (active_attempt_of st quiz_id (User.id u)) as [attempt|] eqn:Ha; [|now left].
  destruct (get_default data "answers" (JObj [])) as [answers|e]; [|now left].
  unfold grade_attempt.
  destruct (grade (questions_of st quiz_id) answers 0) as [score|e] eqn:Hg; [|now left].
  right. simpl. eauto.
Qed.

Lemma update_attempt_keys st a a' :
  NoDup (map Attempt.id (attempts st)) ->
  In a (attempts st) ->
  Attempt.id a' = Attempt.id a ->
  attempt_key a' = attempt_key a ->
  map Attempt.id (attempts (update_attempt st a')) = map Attempt.id (attempts st)
  /\ map attempt_key (attempts (update_attempt st a')) = map attempt_key (attempts st).
Proof.
  intros Hnd Hin Hid Hkey. simpl. rewrite !map_map. split.
  - apply map_ext. intros x. destruct (Attempt.id x =? Attempt.id a') eqn:E; [|reflexivity].
    apply Z.eqb_eq in E. congruence.
  - apply map_ext_in. intros x Hx.
    destruct (Attempt.id x =? Attempt.id a') eqn:E; [|reflexivity].
    apply Z.eqb_eq in E.
    assert (x = a) by (eapply NoDup_map_In_eq; eauto; congruence).
    subst x. exact Hkey.
Qed.

(** Every request keeps primary keys and (quiz, student) pairs unique. *)
Lemma handle_attempts_unique st now u r :
  attempts_unique st -> attempts_unique (fst (handle st now u r)).
Proof.
  intros [Hid Hkey]. unfold attempts_unique.
  destruct r as [m data|m quiz_id|quiz_id data|quiz_id files|quiz_id|quiz_id data|quiz_id data];
    simpl.
  - now rewrite manage_quizzes_attempts.
  - destruct (manage_quiz_details_attempts st u m quiz_id) as [-> | ->];
      [now split|].
    split; now apply filter_keeps_unique.
  - now rewrite add_question_manual_attempts.
  - now rewrite add_questions_csv_attempts.
  - destruct (start_quiz_attempt_attempts st now u quiz_id) as [-> | [Hnone ->]];
      [now split|].
    simpl. rewrite !map_app. simpl. split.
    + apply NoDup_snoc; [exact Hid|apply next_id_fresh].
    + apply NoDup_snoc; [exact Hkey|now apply attempt_of_none_key].
  - destruct (submit_quiz_attempt_attempts st now u quiz_id data)
      as [-> | [attempt [score [total [Ha ->]]]]]; [now split|].
    apply find_some in Ha. destruct Ha as [Ha _].
    destruct (update_attempt_keys st attempt
                (Attempt.mk (Attempt.id attempt) (Attempt.quiz_id attempt)
                            (Attempt.student_id attempt) (Some score) (Some total)
                            (Attempt.started_at attempt) (Some now) true))
      as [-> ->]; auto.
  - now rewrite log_proctor_event_attempts.
Qed.

Lemma reachable_attempts_unique st : reachable st -> attempts_unique st.
Proof.
  induction 1 as [st H|st now u r _ IH].
  - unfold attempts_unique. rewrite H. split; constructor.
  - now apply handle_attempts_unique.
Qed.

Lemma attempts_for_at_most_one st quiz_id student_id :
  NoDup (map attempt_key (attempts st)) ->
  (length (attempts_for st quiz_id student_id) <= 1)%nat.
Proof.
  unfold attempts_for. induction (attempts st) as [|a l IH]; simpl; intros Hnd; [lia|].
  inversion Hnd as [|? ? Hnotin Hnd']; subst.
  destruct ((Attempt.quiz_id a =? quiz_id) && (Attempt.student_id a =? student_id)) eqn:E;
    [|auto].
  apply andb_true_iff in E. destruct E as [E1 E2].
  apply Z.eqb_eq in E1, E2.
  assert (Hnil : filter (fun a0 => (Attempt.quiz_id a0 =? quiz_id)
                                   && (Attempt.student_id a0 =? student_id)) l = []).
  { destruct (filter _ l) as [|b l'] eqn:Hf; [reflexivity|].
    exfalso. apply Hnotin.
    assert (Hb : In b (filter (fun a0 => (Attempt.quiz_id a0 =? quiz_id)
                                         && (Attempt.student_id a0 =? student_id)) l))
      by (rewrite Hf; now left).
    apply filter_In in Hb. destruct Hb as [Hb Hp].
    apply andb_true_iff in Hp. destruct Hp as [Hp1 Hp2].
    apply Z.eqb_eq in Hp1, Hp2.
    apply in_map_iff. exists b. split; [|exact Hb].
    unfold attempt_key. congruence. }
  simpl. rewrite Hnil. simpl. lia.
Qed.

End AttemptsTable.

(** ** Starting an attempt *)

Section StartAttempt.
Context {P : Platform}.

Lemma role_check (u : User.t) (r : string) :
  User.role u = r -> negb (String.eqb (User.role u) r) = false.
Proof. intros ->. now rewrite String.eqb_refl. Qed.

Lemma attempt_of_attempts_for st quiz_id student_id :
  attempt_of st quiz_id student_id = None <-> attempts_for st quiz_id student_id = [].
Proof.
  unfold attempt_of, attempts_for.
  induction (attempts st) as [|a l IH]; simpl; [tauto|].
  destruct ((Attempt.quiz_id a =? quiz_id) && (Attempt.student_id a =? student_id));
    [split; discriminate|exact IH].
Qed.

Lemma attempt_of_found st quiz_id student_id a :
  In a (attempts st) ->
  Attempt.quiz_id a = quiz_id ->
  Attempt.student_id a = student_id ->
  attempt_of st quiz_id student_id <> None.
Proof.
  intros Hin Hq Hs Hnone. unfold attempt_of in Hnone.
  apply (find_none _ _ Hnone) in Hin. subst.
  now rewrite !Z.eqb_refl in Hin.
Qed.

(** C1: at most one Attempt row exists for a (quiz, student) pair in every
    database the application reaches; [start_quiz_attempt] answers 400
    "Quiz already attempted" and changes nothing as soon as a row of the
    pair exists, whatever its [finished] flag; and when it does change the
    database, the pair had no row and the change is one appended row,
    unfinished, with [started_at] the time of the request. *)
Theorem start_quiz_attempt_at_most_once
  (st : db) (now : Z) (current_user : User.t) (quiz_id : Z) :
  reachable st ->
  (forall q s, (length (attempts_for st q s) <= 1)%nat)
  /\ (forall quiz a,
        User.role current_user = "student" ->
        get_quiz st quiz_id = Some quiz ->
        In a (attempts st) ->
        Attempt.quiz_id a = quiz_id ->
        Attempt.student_id a = User.id current_user ->
        start_quiz_attempt st now current_user quiz_id
        = (st, (error "Quiz already attempted", 400)))
  /\ (fst (start_quiz_attempt st now current_user quiz_id) <> st ->
      attempts_for st quiz_id (User.id current_user) = []
      /\ fst (start_quiz_attempt st now current_user quiz_id)
         = set_attempts st
             (attempts st
              ++ [Attempt.mk (next_id (map Attempt.id (attempts st)))
                             quiz_id (User.id current_user) None None now None false])).
Proof.
  intros Hreach. split; [|split].
  - intros q s. apply attempts_for_at_most_one.
    now apply reachable_attempts_unique.
  - intros quiz a Hrole Hquiz Hin Hq Hs.
    unfold start_quiz_attempt. rewrite (role_check _ _ Hrole), (session_get_quiz_some _ _ _ Hquiz).
    rewrite (get_quiz_id _ _ _ Hquiz).
    destruct (attempt_of st quiz_id (User.id current_user)) eqn:Ha; [reflexivity|].
    exfalso. eapply attempt_of_found; eauto.
  - intros Hchanged.
    destruct (start_quiz_attempt_attempts st now current_user quiz_id)
      as [Hsame | [Hnone Hnew]]; [contradiction|].
    split; [now apply attempt_of_attempts_for|exact Hnew].
Qed.

(** C5: for an existing quiz and a student with no attempt on it,
    [start_quiz_attempt] answers 403 "Quiz has not started yet" exactly
    when the time of the request is strictly before the quiz's start time;
    from the start time on it creates the attempt and answers 201, however
    late the request is: the duration plays no part. *)
Theorem start_quiz_attempt_timing
  (st : db) (now : Z) (current_user : User.t) (quiz_id : Z) (quiz : Quiz.t) :
  User.role current_user = "student" ->
  get_quiz st quiz_id = Some quiz ->
  attempts_for st quiz_id (User.id current_user) = [] ->
  (now < Quiz.start_time quiz
   <-> start_quiz_attempt st now current_user quiz_id
       = (st, (error "Quiz has not started yet", 403)))
  /\ (Quiz.start_time quiz <= now ->
      start_quiz_attempt st now current_user quiz_id
      = (snd (insert_attempt st now quiz_id (User.id current_user)),
         (Json (JObj [("attemptId", JNum (next_id (map Attempt.id (attempts st))));
                      ("quizTitle", JStr (Quiz.title quiz));
                      ("duration", JNum (Quiz.duration_minutes quiz));
                      ("questions",
                       JArr (map question_view (questions_of st quiz_id)))]),
          201))).
Proof.
  intros Hrole Hquiz Hnone.
  apply attempt_of_attempts_for in Hnone.
  assert (Hlate : Quiz.start_time quiz <= now ->
      start_quiz_attempt st now current_user quiz_id
      = (snd (insert_attempt st now quiz_id (User.id current_user)),
         (Json (JObj [("attemptId", JNum (next_id (map Attempt.id (attempts st))));
                      ("quizTitle", JStr (Quiz.title quiz));
                      ("duration", JNum (Quiz.duration_minutes quiz));
                      ("questions",
                       JArr (map question_view (questions_of st quiz_id)))]),
          201))).
  { intros Hle. unfold start_quiz_attempt.
    rewrite (role_check _ _ Hrole), (session_get_quiz_some _ _ _ Hquiz), (get_quiz_id _ _ _ Hquiz), Hnone.
    apply Z.ltb_ge in Hle. rewrite Hle. reflexivity. }
  split; [split|exact Hlate].
  - intros Hlt. unfold start_quiz_attempt.
    rewrite (role_check _ _ Hrole), (session_get_quiz_some _ _ _ Hquiz), (get_quiz_id _ _ _ Hquiz), Hnone.
    apply Z.ltb_lt in Hlt. now rewrite Hlt.
  - intros Heq. destruct (Z.lt_ge_cases now (Quiz.start_time quiz)) as [Hlt|Hge];
      [exact Hlt|].
    rewrite (Hlate Hge) in Heq. discriminate Heq.
Qed.

End StartAttempt.

Lemma scenario_started_reachable : @reachable Reference.platform Scenario.started.
Proof.
  exact (@reachable_step Reference.platform Scenario.authored Scenario.during
           Scenario.student (StartQuizAttempt 1)
           (@reachable_init Reference.platform Scenario.authored eq_refl)).
Defined.

Lemma start_quiz_attempt_at_most_once_witness :
  @reachable Reference.platform Scenario.started
  /\ start_quiz_attempt Scenario.started Scenario.a_year_later
       Scenario.student 1
     = (Scenario.started, (error "Quiz already attempted", 400)).
Proof.
  split; [exact scenario_started_reachable|].
  destruct (@start_quiz_attempt_at_most_once Reference.platform Scenario.started
              Scenario.a_year_later Scenario.student 1 scenario_started_reachable)
    as [_ [Hblocked _]].
  eapply Hblocked.
  - reflexivity.
  - reflexivity.
  - left. reflexivity.
  - reflexivity.
  - reflexivity.
Defined.

Lemma start_quiz_attempt_timing_witness :
  start_quiz_attempt Scenario.authored Scenario.before_opening
    Scenario.student 1
  = (Scenario.authored, (error "Quiz has not started yet", 403))
  /\ fst (start_quiz_attempt Scenario.authored Scenario.a_year_later
            Scenario.student 1)
     = snd (insert_attempt Scenario.authored Scenario.a_year_later 1 2).
Proof.
  destruct (start_quiz_attempt_timing Scenario.authored
              Scenario.before_opening Scenario.student 1
              (Quiz.mk 1 "Midterm" Scenario.opening 30 1) eq_refl eq_refl eq_refl)
    as [[Hearly _] _].
  destruct (start_quiz_attempt_timing Scenario.authored
              Scenario.a_year_later Scenario.student 1
              (Quiz.mk 1 "Midterm" Scenario.opening 30 1) eq_refl eq_refl eq_refl)
    as [_ Hlate].
  split.
  - apply Hearly. reflexivity.
  - rewrite Hlate; [reflexivity|]. vm_compute. discriminate.
Defined.

(** ** Submitting an attempt *)

Lemma active_attempt_of_none st quiz_id student_id :
  (forall a, In a (attempts st) ->
             Attempt.quiz_id a = quiz_id -> Attempt.student_id a = student_id ->
             Attempt.finished a = true) ->
  active_attempt_of st quiz_id student_id = None.
Proof.
  intros H. unfold active_attempt_of. apply find_none_iff. intros a Ha.
  destruct (Attempt.quiz_id a =? quiz_id) eqn:Eq; [|reflexivity].
  destruct (Attempt.student_id a =? student_id) eqn:Es; [|reflexivity].
  apply Z.eqb_eq in Eq, Es. now rewrite (H a Ha Eq Es).
Qed.

Lemma active_attempt_of_some st quiz_id student_id a :
  active_attempt_of st quiz_id student_id = Some a ->
  In a (attempts st)
  /\ Attempt.quiz_id a = quiz_id /\ Attempt.student_id a = student_id
  /\ Attempt.finished a = false.
Proof.
  intros H. apply find_some in H. destruct H as [Hin H].
  apply andb_true_iff in H. destruct H as [H Hf].
  apply andb_true_iff in H. destruct H as [Hq Hs].
  apply Z.eqb_eq in Hq, Hs. apply negb_true_iff in Hf. tauto.
Qed.


(** After the grading, under unique keys, the pair has no unfinished row. *)
Lemma update_attempt_no_active st quiz_id student_id attempt score total now :
  attempts_unique st ->
  active_attempt_of st quiz_id student_id = Some attempt ->
  active_attempt_of (update_attempt st (graded attempt score total now))
                    quiz_id student_id = None.
Proof.
  intros [Hid Hkey] Ha. apply active_attempt_of_some in Ha.
  destruct Ha as [Hin [Hq [Hs Hf]]].
  apply active_attempt_of_none. intros x Hx Hxq Hxs.
  simpl in Hx. apply in_map_iff in Hx. destruct Hx as [a [Hxa Ha]].
  simpl in Hxa.
  destruct (Attempt.id a =? Attempt.id attempt) eqn:E; [now subst x|].
  subst x. exfalso.
  assert (a = attempt).
  { eapply NoDup_map_In_eq; eauto. unfold attempt_key. congruence. }
  subst a. now rewrite Z.eqb_refl in E.
Qed.



(** ** Grading *)

Lemma grade_credited_score answers qs : forall acc,
  grade qs (JObj answers) acc = Ok (acc + credited_score qs answers).
Proof.
  unfold credited_score.
  induction qs as [|q qs IH]; intros acc.
  - simpl. f_equal. lia.
  - cbn [grade filter get bind]. unfold credited at 1.
    destruct (assoc (str (Question.id q)) answers) as [v|] eqn:Ev; cbn [bind].
    + destruct v as [|b|z|s|l|m]; cbn [eq_str]; rewrite ?andb_false_r;
        try (rewrite IH; reflexivity).
      cbn [truthy].
      destruct (negb (String.eqb s "") && String.eqb s (Question.correct_answer q)).
      * cbn [length]. rewrite IH. f_equal. rewrite Nat2Z.inj_succ. lia.
      * apply IH.
    + cbn [truthy andb]. apply IH.
Qed.

(** Where no correct key is the empty string, the credited questions are
    those whose entry equals the key. *)
Lemma credited_answered_correctly answers qs :
  Forall (fun q => Question.correct_answer q <> "") qs ->
  credited_score qs answers = expected_score qs answers.
Proof.
  unfold credited_score, expected_score. intros Hkeys. do 2 f_equal.
  induction Hkeys as [|q qs Hq _ IH]; [reflexivity|].
  simpl. rewrite IH. clear IH.
  replace (credited answers q) with (answered_correctly answers q); [reflexivity|].
  unfold credited, answered_correctly.
  destruct (assoc (str (Question.id q)) answers) as [[|b|z|s|l|m]|]; try reflexivity.
  simpl. destruct (String.eqb s (Question.correct_answer q)) eqn:E.
  - apply String.eqb_eq in E. subst s.
    apply String.eqb_neq in Hq. now rewrite Hq.
  - now rewrite andb_false_r.
Qed.

Lemma credited_at_most_expected answers qs :
  credited_score qs answers <= expected_score qs answers.
Proof.
  unfold credited_score, expected_score. apply inj_le.
  induction qs as [|q qs IH]; [reflexivity|].
  simpl. unfold credited at 1, answered_correctly at 1.
  destruct (assoc (str (Question.id q)) answers) as [[|b|z|s|l|m]|]; simpl; try lia;
    try (destruct (String.eqb _ _); simpl; lia).
  destruct (String.eqb s (Question.correct_answer q)); rewrite ?andb_false_r;
    [destruct (negb _)|]; simpl; lia.
Qed.

Lemma grade_no_answers qs : forall acc, grade qs (JObj []) acc = Ok acc.
Proof.
  induction qs as [|q qs IH]; simpl; intros acc; [reflexivity|apply IH].
Qed.

Lemma grade_agree answers1 answers2 qs : forall acc,
  (forall q, In q qs ->
             assoc (str (Question.id q)) answers1 = assoc (str (Question.id q)) answers2) ->
  grade qs (JObj answers1) acc = grade qs (JObj answers2) acc.
Proof.
  induction qs as [|q qs IH]; simpl; intros acc H; [reflexivity|].
  rewrite (H q (or_introl eq_refl)).
  destruct (assoc (str (Question.id q)) answers2); simpl; apply IH; auto.
Qed.

Lemma submit_quiz_attempt_graded st now u quiz_id attempt data answers score :
  User.role u = "student" ->
  active_attempt_of st quiz_id (User.id u) = Some attempt ->
  get_default data "answers" (JObj []) = Ok answers ->
  grade (questions_of st quiz_id) answers 0 = Ok score ->
  submit_quiz_attempt st now u quiz_id data
  = (update_attempt st
       (graded attempt score (Z.of_nat (length (questions_of st quiz_id))) now),
     (Json (JObj [("score", JNum score);
                  ("totalQuestions",
                   JNum (Z.of_nat (length (questions_of st quiz_id))))]), 200)).
Proof.
  intros Hrole Ha Hd Hg. unfold submit_quiz_attempt.
  rewrite (role_check _ _ Hrole), Ha, Hd. unfold grade_attempt. now rewrite Hg.
Qed.

(** C2, as the code has it: for a student with an unfinished attempt and
    an answers mapping, [submit_quiz_attempt] answers 200 with [score] the
    number of the quiz's current questions whose entry in the mapping,
    under the question's id, is a str that is not empty and is the
    question's correct key, and with [totalQuestions] the number of the
    quiz's questions at that moment; the attempts table of the result
    holds both on the row of the attempt, which is finished at [now], and
    no other row or table changes.  That score is never more than the
    number of questions whose entry equals the correct key, and it is that
    number when no correct key of the quiz is the empty string. *)
Theorem submit_quiz_attempt_score
  (st : db) (now : Z) (current_user : User.t) (quiz_id : Z) (attempt : Attempt.t)
  (data answers : list (string * json)) :
  User.role current_user = "student" ->
  active_attempt_of st quiz_id (User.id current_user) = Some attempt ->
  assoc "answers" data = Some (JObj answers) ->
  let asked := questions_of st quiz_id in
  let score := credited_score asked answers in
  let total := Z.of_nat (length asked) in
  let result := submit_quiz_attempt st now current_user quiz_id (JObj data) in
  snd result = (Json (JObj [("score", JNum score); ("totalQuestions", JNum total)]), 200)
  /\ attempts (fst result)
     = map (fun a => if Attempt.id a =? Attempt.id attempt
                     then Attempt.mk (Attempt.id attempt) quiz_id (User.id current_user)
                                     (Some score) (Some total)
                                     (Attempt.started_at attempt) (Some now) true
                     else a)
           (attempts st)
  /\ users (fst result) = users st
  /\ quizzes (fst result) = quizzes st
  /\ questions (fst result) = questions st
  /\ proctor_logs (fst result) = proctor_logs st
  /\ score <= expected_score asked answers
  /\ (Forall (fun q => Question.correct_answer q <> "") asked ->
      score = expected_score asked answers).
Proof.
  intros Hrole Ha Hd asked score total result.
  assert (Hresult : result
                    = (update_attempt st (graded attempt score total now),
                       (Json (JObj [("score", JNum score);
                                    ("totalQuestions", JNum total)]), 200))).
  { eapply submit_quiz_attempt_graded; eauto.
    - simpl. now rewrite Hd.
    - now rewrite grade_credited_score. }
  destruct (active_attempt_of_some _ _ _ _ Ha) as [_ [Hq [Hs _]]].
  rewrite Hresult. unfold graded. rewrite Hq, Hs.
  repeat split; try reflexivity.
  - apply credited_at_most_expected.
  - apply credited_answered_correctly.
Qed.

(** The scoring example: keys A, B, C, D, A; answers A, X, C, none, A. *)
Lemma submit_quiz_attempt_score_witness :
  credited_score (questions_of Scenario.started 1)
    [("1", JStr "A"); ("2", JStr "X"); ("3", JStr "C"); ("5", JStr "A")] = 3
  /\ snd (submit_quiz_attempt Scenario.started (Scenario.during + 900) Scenario.student 1
            Scenario.answers)
     = (Json (JObj [("score", JNum 3); ("totalQuestions", JNum 5)]), 200)
  /\ attempts (fst (submit_quiz_attempt Scenario.started (Scenario.during + 900)
                      Scenario.student 1 Scenario.answers))
     = [Attempt.mk 1 1 2 (Some 3) (Some 5) Scenario.during (Some (Scenario.during + 900))
                   true].
Proof.
  split; [reflexivity|].
  destruct (submit_quiz_attempt_score Scenario.started (Scenario.during + 900)
              Scenario.student 1 (Attempt.mk 1 1 2 None None Scenario.during None false)
              [("answers", JObj [("1", JStr "A"); ("2", JStr "X"); ("3", JStr "C");
                                 ("5", JStr "A")])]
              [("1", JStr "A"); ("2", JStr "X"); ("3", JStr "C"); ("5", JStr "A")]
              eq_refl eq_refl eq_refl) as [Hresponse [Hattempts _]].
  split; [exact Hresponse|exact Hattempts].
Defined.

(** Against C2 as stated: [add_question_manual] stores a question whose
    correct key is the empty string; an answer that is the empty string is
    then present and equal to the key, and the question is not counted. *)
Lemma submit_quiz_attempt_blank_key :
  let answers := [("6", JStr "")] in
  snd (snd (Scenario.run Scenario.authored 0 Scenario.teacher
              (AddQuestionManual 1 Scenario.blank_key))) = 201
  /\ map Question.correct_answer (questions_of Scenario.started_with_blank_key 1)
     = ["A"; "B"; "C"; "D"; "A"; ""]
  /\ expected_score (questions_of Scenario.started_with_blank_key 1) answers = 1
  /\ snd (submit_quiz_attempt Scenario.started_with_blank_key (Scenario.during + 900)
            Scenario.student 1 (JObj [("answers", JObj answers)]))
     = (Json (JObj [("score", JNum 0); ("totalQuestions", JNum 6)]), 200).
Proof.
  intros answers. repeat split.
Qed.

Section Permanence.
Context {P : Platform}.

Lemma update_attempt_In st attempt a' :
  In attempt (attempts st) ->
  Attempt.id a' = Attempt.id attempt ->
  In a' (attempts (update_attempt st a')).
Proof.
  intros Hin Hid. simpl. apply in_map_iff. exists attempt.
  split; [|exact Hin]. rewrite Hid. now rewrite Z.eqb_refl.
Qed.

(** A request leaves a finished attempt as it is, unless it deletes the
    quiz and with it every attempt of the quiz. *)
Lemma handle_keeps_finished st now u r a :
  attempts_unique st ->
  In a (attempts st) ->
  Attempt.finished a = true ->
  In a (attempts (fst (handle st now u r)))
  \/ attempts_of (fst (handle st now u r)) (Attempt.quiz_id a) = [].
Proof.
  intros [Hid Hkey] Hin Hfin.
  destruct r as [m data|m quiz_id|quiz_id data|quiz_id files|quiz_id|quiz_id data|quiz_id data];
    simpl.
  - left. now rewrite manage_quizzes_attempts.
  - destruct (manage_quiz_details_attempts st u m quiz_id) as [H | H].
    + left. now rewrite H.
    + destruct (Attempt.quiz_id a =? quiz_id) eqn:E.
      * right. apply Z.eqb_eq in E. unfold attempts_of. rewrite H, E.
        clear. induction (attempts st) as [|x l IH]; simpl; [reflexivity|].
        destruct (Attempt.quiz_id x =? quiz_id) eqn:Ex; simpl; [exact IH|].
        now rewrite Ex.
      * left. rewrite H. apply filter_In. split; [exact Hin|]. now rewrite E.
  - left. now rewrite add_question_manual_attempts.
  - left. now rewrite add_questions_csv_attempts.
  - left. destruct (start_quiz_attempt_attempts st now u quiz_id) as [-> | [_ ->]];
      [exact Hin|].
    simpl. apply in_or_app. now left.
  - left. destruct (submit_quiz_attempt_attempts st now u quiz_id data)
      as [-> | [attempt [score [total [Ha ->]]]]]; [exact Hin|].
    apply active_attempt_of_some in Ha. destruct Ha as [Hin' [_ [_ Hf]]].
    simpl. apply in_map_iff. exists a. split; [|exact Hin].
    destruct (Attempt.id a =? Attempt.id attempt) eqn:E; [|reflexivity].
    apply Z.eqb_eq in E.
    assert (a = attempt)
      by (apply (NoDup_map_In_eq Attempt.id (attempts st)); assumption).
    subst a. congruence.
  - left. now rewrite log_proctor_event_attempts.
Qed.

(** C10: for a student with an unfinished attempt, a submission whose
    body has no ["answers"] entry, or an empty one, is answered 200 with
    score 0 and the quiz's current number of questions as total; the
    attempt is stored finished with these values, and no later request
    reopens it (a request keeps the row as graded, or deletes the quiz and
    its attempts); and two answers mappings that agree on the ids of the
    quiz's questions get the same response and leave the same database,
    so entries under other keys cannot change the score. *)
Theorem submit_quiz_attempt_without_answers
  (st : db) (now : Z) (current_user : User.t) (quiz_id : Z) (attempt : Attempt.t)
  (data : list (string * json)) :
  User.role current_user = "student" ->
  attempts_unique st ->
  active_attempt_of st quiz_id (User.id current_user) = Some attempt ->
  assoc "answers" data = None \/ assoc "answers" data = Some (JObj []) ->
  let total := Z.of_nat (length (questions_of st quiz_id)) in
  let st' := update_attempt st (graded attempt 0 total now) in
  submit_quiz_attempt st now current_user quiz_id (JObj data)
  = (st', (Json (JObj [("score", JNum 0); ("totalQuestions", JNum total)]), 200))
  /\ In (graded attempt 0 total now) (attempts st')
  /\ (forall now' u r,
        In (graded attempt 0 total now) (attempts (fst (handle st' now' u r)))
        \/ attempts_of (fst (handle st' now' u r)) quiz_id = [])
  /\ (forall answers1 answers2,
        (forall q, In q (questions_of st quiz_id) ->
                   assoc (str (Question.id q)) answers1
                   = assoc (str (Question.id q)) answers2) ->
        submit_quiz_attempt st now current_user quiz_id (JObj [("answers", JObj answers1)])
        = submit_quiz_attempt st now current_user quiz_id (JObj [("answers", JObj answers2)])).
Proof.
  intros Hrole Huniq Ha Hdata total st'.
  pose proof (active_attempt_of_some _ _ _ _ Ha) as [Hin [Hq [Hs Hf]]].
  assert (Hin' : In (graded attempt 0 total now) (attempts st'))
    by (now apply update_attempt_In with (attempt := attempt)).
  split; [|split; [exact Hin'|split]].
  - eapply submit_quiz_attempt_graded; eauto.
    + simpl. destruct Hdata as [-> | ->]; reflexivity.
    + apply grade_no_answers.
  - intros now' u r.
    assert (Huniq' : attempts_unique st').
    { destruct Huniq as [Hid Hkey]. unfold attempts_unique, st'.
      destruct (update_attempt_keys st attempt (graded attempt 0 total now))
        as [-> ->]; auto. }
    destruct (handle_keeps_finished st' now' u r _ Huniq' Hin' eq_refl) as [H|H];
      [now left|right].
    simpl in H. now rewrite Hq in H.
  - intros answers1 answers2 Hagree.
    unfold submit_quiz_attempt. rewrite (role_check _ _ Hrole), Ha. simpl.
    unfold grade_attempt. now rewrite (grade_agree answers1 answers2).
Qed.

End Permanence.

Lemma submit_quiz_attempt_without_answers_witness :
  submit_quiz_attempt Scenario.started (Scenario.during + 900) Scenario.student 1 (JObj [])
  = (update_attempt Scenario.started
       (graded (Attempt.mk 1 1 2 None None Scenario.during None false) 0 5
               (Scenario.during + 900)),
     (Json (JObj [("score", JNum 0); ("totalQuestions", JNum 5)]), 200)).
Proof.
  apply (@submit_quiz_attempt_without_answers Reference.platform Scenario.started
           (Scenario.during + 900) Scenario.student 1
           (Attempt.mk 1 1 2 None None Scenario.during None false) [] eq_refl).
  - split; vm_compute; repeat constructor; intros [].
  - reflexivity.
  - left. reflexivity.
Defined.

(** ** What the question views show *)

Section QuestionViews.
Context {P : Platform}.

Lemma question_view_no_key (q : Question.t) :
  contains "correctAnswer" (question_view q) = Ok false
  /\ getitem (question_view q) "correctAnswer" = Raise (KeyError "correctAnswer").
Proof. split; reflexivity. Qed.

Lemma question_detail_key (q : Question.t) :
  getitem (question_detail q) "correctAnswer" = Ok (JStr (Question.correct_answer q)).
Proof. reflexivity. Qed.

Lemma question_view_without_key (q : Question.t) :
  question_view (without_key q) = question_view q.
Proof. reflexivity. Qed.

Lemma question_views_same_but_keys quiz_id : forall qs1 qs2,
  map without_key qs1 = map without_key qs2 ->
  map question_view (filter (fun q => Question.quiz_id q =? quiz_id) qs1)
  = map question_view (filter (fun q => Question.quiz_id q =? quiz_id) qs2).
Proof.
  induction qs1 as [|q1 qs1 IH]; intros [|q2 qs2] H; try discriminate H; [reflexivity|].
  assert (Hq : without_key q1 = without_key q2)
    by exact (f_equal (hd (without_key q1)) H).
  assert (Hqs : map without_key qs1 = map without_key qs2)
    by exact (f_equal (@tl Question.t) H).
  assert (Hid : Question.quiz_id q1 = Question.quiz_id q2)
    by (change (Question.quiz_id (without_key q1) = Question.quiz_id (without_key q2));
        now rewrite Hq).
  assert (Hview : question_view q1 = question_view q2)
    by (rewrite <- (question_view_without_key q1), <- (question_view_without_key q2);
        now rewrite Hq).
  simpl. rewrite Hid.
  destruct (Question.quiz_id q2 =? quiz_id); simpl; [rewrite Hview; f_equal|]; now apply IH.
Qed.

Lemma start_quiz_attempt_same_but_keys st1 st2 now u quiz_id :
  same_but_keys st1 st2 ->
  snd (start_quiz_attempt st1 now u quiz_id) = snd (start_quiz_attempt st2 now u quiz_id).
Proof.
  intros [Hu [Hq [Hqs [Ha Hl]]]].
  unfold start_quiz_attempt, session_get_quiz, get_quiz, attempt_of. rewrite Hq, Ha.
  destruct (negb _); [reflexivity|].
  destruct (find _ (quizzes st2)) as [quiz|];
    [|destruct (sqlite_integer quiz_id); reflexivity].
  destruct (find _ (attempts st2)); [reflexivity|].
  destruct (now <? Quiz.start_time quiz); [reflexivity|].
  simpl. rewrite Ha. unfold questions_of. simpl.
  now rewrite (question_views_same_but_keys (Quiz.id quiz) _ _ Hqs).
Qed.

Lemma start_quiz_attempt_201 st now u quiz_id :
  snd (snd (start_quiz_attempt st now u quiz_id)) = 201 ->
  exists attempt_id title duration,
    fst (snd (start_quiz_attempt st now u quiz_id))
    = Json (JObj [("attemptId", JNum attempt_id);
                  ("quizTitle", JStr title);
                  ("duration", JNum duration);
                  ("questions", JArr (map question_view (questions_of st quiz_id)))]).
Proof.
  unfold start_quiz_attempt.
  destruct (negb _); [discriminate|].
  lookup st quiz_id quiz Hq; [|discriminate|discriminate].
  rewrite (get_quiz_id _ _ _ Hq).
  destruct (attempt_of st quiz_id (User.id u)); [discriminate|].
  destruct (now <? Quiz.start_time quiz); [discriminate|].
  intros _. simpl. eauto.
Qed.

Lemma comprehension_total {A : Type} (f : A -> result json) (l : list A) :
  (forall a, In a l -> exists j, f a = Ok j) ->
  exists js, comprehension f l = Ok js /\ length js = length l.
Proof.
  induction l as [|a l IH]; intros H; simpl.
  - now exists [].
  - destruct (H a (or_introl eq_refl)) as [j ->].
    destruct IH as [js [-> Hlen]]; [intros; apply H; now right|].
    exists (j :: js). simpl. now rewrite Hlen.
Qed.

Lemma quiz_detail_total st quiz :
  students_registered st (Quiz.id quiz) ->
  exists results_list logs_list,
    quiz_detail st quiz
    = Ok (Json (JObj [("id", JNum (Quiz.id quiz));
                      ("title", JStr (Quiz.title quiz));
                      ("questions",
                       JArr (map question_detail (questions_of st (Quiz.id quiz))));
                      ("results", JArr results_list);
                      ("proctorLogs", JArr logs_list)]), 200).
Proof.
  intros [Hattempts Hlogs]. unfold quiz_detail.
  destruct (comprehension_total (result_detail st) (attempts_of st (Quiz.id quiz)))
    as [rs [-> _]].
  { intros a Ha. unfold result_detail, student_email.
    destruct (get_user st (Attempt.student_id a)) eqn:E; [simpl; eauto|].
    now apply Hattempts in Ha. }
  destruct (comprehension_total (log_detail st) (logs_of st (Quiz.id quiz)))
    as [ls [-> _]].
  { intros l Hl. unfold log_detail, student_email.
    destruct (get_user st (ProctorLog.student_id l)) eqn:E; [simpl; eauto|].
    now apply Hlogs in Hl. }
  simpl. eauto.
Qed.

(** C4: every 201 response of [start_quiz_attempt] carries as
    ["questions"] the student's views of the quiz's questions, none of
    which has a ["correctAnswer"] entry, and the response is the same for
    two databases that differ only in the stored correct keys; the GET of
    [manage_quiz_details], for a requester it lets in, answers 200 with the
    detailed views, each of which has the question's correct key under
    ["correctAnswer"]. *)
Theorem question_views_correct_answer
  (st st2 : db) (now : Z) (student requester : User.t) (quiz_id : Z) (quiz : Quiz.t) :
  get_quiz st quiz_id = Some quiz ->
  let questions := questions_of st quiz_id in
  (User.role student = "student" ->
   attempts_for st quiz_id (User.id student) = [] ->
   Quiz.start_time quiz <= now ->
   snd (snd (start_quiz_attempt st now student quiz_id)) = 201)
  /\ (snd (snd (start_quiz_attempt st now student quiz_id)) = 201 ->
      exists attempt_id title duration,
        fst (snd (start_quiz_attempt st now student quiz_id))
        = Json (JObj [("attemptId", JNum attempt_id);
                      ("quizTitle", JStr title);
                      ("duration", JNum duration);
                      ("questions", JArr (map question_view questions))]))
  /\ Forall (fun view => contains "correctAnswer" view = Ok false)
            (map question_view questions)
  /\ (same_but_keys st st2 ->
      snd (start_quiz_attempt st now student quiz_id)
      = snd (start_quiz_attempt st2 now student quiz_id))
  /\ (String.eqb (User.role requester) "teacher"
      && negb (Quiz.teacher_id quiz =? User.id requester) = false ->
      students_registered st quiz_id ->
      exists results_list logs_list,
        manage_quiz_details st requester GET quiz_id
        = (st, (Json (JObj [("id", JNum quiz_id);
                            ("title", JStr (Quiz.title quiz));
                            ("questions", JArr (map question_detail questions));
                            ("results", JArr results_list);
                            ("proctorLogs", JArr logs_list)]), 200)))
  /\ Forall (fun q => getitem (question_detail q) "correctAnswer"
                      = Ok (JStr (Question.correct_answer q)))
            questions.
Proof.
  intros Hquiz questions.
  pose proof (get_quiz_id _ _ _ Hquiz) as Hid.
  repeat split.
  - intros Hrole Hnone Hle. unfold start_quiz_attempt.
    apply attempt_of_attempts_for in Hnone.
    rewrite (role_check _ _ Hrole), (session_get_quiz_some _ _ _ Hquiz), Hid, Hnone.
    apply Z.ltb_ge in Hle. now rewrite Hle.
  - apply start_quiz_attempt_201.
  - apply Forall_forall. intros view Hview.
    apply in_map_iff in Hview. destruct Hview as [q [<- _]]. reflexivity.
  - apply start_quiz_attempt_same_but_keys.
  - intros Hallowed Hregistered. unfold manage_quiz_details.
    rewrite (session_get_quiz_some _ _ _ Hquiz), Hallowed. subst quiz_id.
    destruct (quiz_detail_total st quiz Hregistered) as [rs [ls ->]]. eauto.
  - apply Forall_forall. intros q _. reflexivity.
Qed.

End QuestionViews.

Lemma question_views_correct_answer_witness :
  get_quiz Scenario.authored 1 = Some (Quiz.mk 1 "Midterm" Scenario.opening 30 1)
  /\ snd (snd (start_quiz_attempt Scenario.authored Scenario.during Scenario.student 1)) = 201
  /\ Forall (fun view => contains "correctAnswer" view = Ok false)
            (map question_view (questions_of Scenario.authored 1))
  /\ (exists results_list logs_list,
        @manage_quiz_details Reference.platform Scenario.submitted Scenario.teacher GET 1
        = (Scenario.submitted,
           (Json (JObj [("id", JNum 1);
                        ("title", JStr "Midterm");
                        ("questions",
                         JArr (map question_detail (questions_of Scenario.submitted 1)));
                        ("results", JArr results_list);
                        ("proctorLogs", JArr logs_list)]), 200))).
Proof.
  split; [reflexivity|].
  destruct (@question_views_correct_answer Reference.platform Scenario.authored
              Scenario.authored Scenario.during Scenario.student Scenario.teacher 1
              (Quiz.mk 1 "Midterm" Scenario.opening 30 1) eq_refl)
    as [Hstart [_ [Hviews _]]].
  destruct (@question_views_correct_answer Reference.platform Scenario.submitted
              Scenario.submitted Scenario.during Scenario.student Scenario.teacher 1
              (Quiz.mk 1 "Midterm" Scenario.opening 30 1) eq_refl)
    as [_ [_ [_ [_ [Hdetail _]]]]].
  split; [|split; [exact Hviews|]].
  - apply Hstart; [reflexivity|reflexivity|]. vm_compute. discriminate.
  - apply Hdetail; [reflexivity|]. split.
    + intros a Ha. simpl in Ha. destruct Ha as [<-|[]]. vm_compute. discriminate.
    + intros l [].
Defined.

(** ** The proctor log *)

Section ProctorEvents.
Context {P : Platform}.



End ProctorEvents.



(** ** Importing questions *)

Lemma existsb_In_keys (s : string) :
  existsb (String.eqb s) ["A"; "B"; "C"; "D"] = true -> In s ["A"; "B"; "C"; "D"].
Proof.
  intros H. apply existsb_exists in H. destruct H as [k [Hk Heq]].
  apply String.eqb_eq in Heq. now subst.
Qed.

(** A row that is in order is read as a question with the six texts. *)
Lemma read_row_ok (r : row) :
  row_ok r = true ->
  exists text a b c d answer,
    text_field r "question_text" = Some text
    /\ text_field r "option_a" = Some a
    /\ text_field r "option_b" = Some b
    /\ text_field r "option_c" = Some c
    /\ text_field r "option_d" = Some d
    /\ text_field r "correct_answer" = Some answer
    /\ In (upper answer) ["A"; "B"; "C"; "D"]
    /\ read_row r
       = Ok (mk_pending (Some text) (Some a) (Some b) (Some c) (Some d) (upper answer)).
Proof.
  unfold row_ok, read_row, text_field, csv_columns, field. cbn [forallb].
  destruct (assoc "question_text" r) as [[text|]|]; try discriminate.
  destruct (assoc "option_a" r) as [[a|]|]; try discriminate.
  destruct (assoc "option_b" r) as [[b|]|]; try discriminate.
  destruct (assoc "option_c" r) as [[c|]|]; try discriminate.
  destruct (assoc "option_d" r) as [[d|]|]; try discriminate.
  destruct (assoc "correct_answer" r) as [[answer|]|]; try discriminate.
  cbn [andb negb bind]. intros H. rewrite H. cbn [negb bind].
  exists text, a, b, c, d, answer.
  repeat split; try reflexivity. now apply existsb_In_keys.
Qed.

(** A row that is not in order raises, or is read as a question the
    database will refuse. *)
Lemma read_row_not_ok (r : row) :
  row_ok r = false ->
  (exists e, read_row r = Raise e)
  \/ (exists p, read_row r = Ok p /\ incomplete p).
Proof.
  unfold row_ok, read_row, text_field, csv_columns, field, incomplete.
  cbn [forallb].
  destruct (assoc "question_text" r) as [[text|]|], (assoc "option_a" r) as [[a|]|],
    (assoc "option_b" r) as [[b|]|], (assoc "option_c" r) as [[c|]|],
    (assoc "option_d" r) as [[d|]|], (assoc "correct_answer" r) as [[answer|]|];
    cbn [andb negb bind];
    try match goal with
        | |- context [existsb ?f ?l] => destruct (existsb f l)
        end;
    cbn [andb negb bind p_text p_option_a p_option_b p_option_c p_option_d];
    intros H; try discriminate H; eauto 10.
Qed.

Lemma flush_questions_incomplete quiz_id p ps : forall st,
  incomplete p -> flush_questions st quiz_id (p :: ps) = Raise DBAPIError.
Proof.
  intros st H. simpl. unfold incomplete in H.
  destruct (p_text p); [|reflexivity].
  destruct (p_option_a p); [|reflexivity].
  destruct (p_option_b p); [|reflexivity].
  destruct (p_option_c p); [|reflexivity].
  destruct (p_option_d p); [|reflexivity].
  repeat destruct H as [H|H]; discriminate H.
Qed.

Lemma flush_questions_cons st quiz_id text a b c d key ps :
  flush_questions st quiz_id
    (mk_pending (Some text) (Some a) (Some b) (Some c) (Some d) key :: ps)
  = flush_questions (snd (insert_question st quiz_id text a b c d key)) quiz_id ps.
Proof. reflexivity. Qed.

(** Rows that are all in order are all stored, in order. *)
Lemma import_rows_ok quiz_id rows : forall st,
  forallb row_ok rows = true ->
  exists ps added,
    read_rows rows = Ok ps
    /\ length ps = length rows
    /\ flush_questions st quiz_id ps = Ok (set_questions st (questions st ++ added))
    /\ Forall2 (stored_as quiz_id) rows added.
Proof.
  induction rows as [|r rows IH]; intros st Hok.
  - exists [], []. simpl. rewrite app_nil_r. destruct st. repeat split. constructor.
  - simpl in Hok. apply andb_true_iff in Hok. destruct Hok as [Hr Hrows].
    destruct (read_row_ok r Hr)
      as [text [a [b [c [d [answer [Ht [Ha [Hb [Hc [Hd [Hans [Hkey Hread]]]]]]]]]]]]].
    destruct (IH (snd (insert_question st quiz_id text a b c d (upper answer))) Hrows)
      as [ps [added [Hps [Hlen [Hflush Hstored]]]]].
    exists (mk_pending (Some text) (Some a) (Some b) (Some c) (Some d) (upper answer) :: ps).
    eexists. cbn [read_rows]. rewrite Hread, Hps. cbn [bind length].
    rewrite flush_questions_cons, Hflush.
    split; [reflexivity|]. split; [now rewrite Hlen|]. split.
    + simpl. rewrite <- app_assoc. reflexivity.
    + constructor; [|exact Hstored].
      unfold stored_as. simpl. rewrite Hans. simpl. tauto.
Qed.

(** One row out of order fails the import, in the loop or at the commit. *)
Lemma import_rows_not_ok quiz_id rows :
  forallb row_ok rows = false ->
  (exists e, read_rows rows = Raise e)
  \/ (exists ps, read_rows rows = Ok ps
                 /\ forall st, flush_questions st quiz_id ps = Raise DBAPIError).
Proof.
  induction rows as [|r rows IH]; simpl; intros Hbad; [discriminate|].
  destruct (row_ok r) eqn:Hr.
  - destruct (read_row_ok r Hr)
      as [text [a [b [c [d [answer [_ [_ [_ [_ [_ [_ [_ Hread]]]]]]]]]]]]].
    rewrite Hread. simpl.
    destruct (IH Hbad) as [[e He] | [ps [Hps Hflush]]].
    + left. rewrite He. simpl. eauto.
    + right. rewrite Hps. simpl. eexists. split; [reflexivity|].
      intros st. simpl. apply Hflush.
  - destruct (read_row_not_ok r Hr) as [[e He] | [p [Hp Hinc]]].
    + left. rewrite He. simpl. eauto.
    + rewrite Hp. simpl. destruct (read_rows rows) as [ps|e]; simpl; [right|left; eauto].
      eexists. split; [reflexivity|].
      intros st. now apply flush_questions_incomplete.
Qed.

Lemma stored_as_quiz_id quiz_id rows added :
  Forall2 (stored_as quiz_id) rows added ->
  filter (fun q => Question.quiz_id q =? quiz_id) added = added.
Proof.
  induction 1 as [|r q rows added [Hid _] _ IH]; [reflexivity|].
  simpl. rewrite Hid, Z.eqb_refl. now f_equal.
Qed.

(** C6: the import is all or nothing.  When some row misses one of the
    six columns, or has a correct answer that uppercased is none of A, B, C,
    D, [add_questions_csv] answers 400 and the database is the one before
    the request: no question is committed.  Otherwise the response is 201
    with the count, and the questions table of the result is the one before
    followed by one question for every row, in the order of the rows, each
    a question of the quiz with the row's texts and the uppercased correct
    answer: the questions of the quiz are those it had and these; the other
    tables are unchanged. *)
Theorem add_questions_csv_all_or_nothing
  (st : db) (current_user : User.t) (quiz_id : Z) (quiz : Quiz.t)
  (file : upload) (rows : list row) :
  User.role current_user = "teacher" ->
  get_quiz st quiz_id = Some quiz ->
  Quiz.teacher_id quiz = User.id current_user ->
  filename file <> "" ->
  endswith (filename file) ".csv" = true ->
  stream file = Some rows ->
  let result := add_questions_csv st current_user quiz_id (Some file) in
  (forallb row_ok rows = false ->
   (exists e, snd result = (Failure "Error processing CSV: " e, 400))
   /\ fst result = st
   /\ questions_of (fst result) quiz_id = questions_of st quiz_id)
  /\ (forallb row_ok rows = true ->
      snd result = (Json (added_message (length rows)), 201)
      /\ exists added,
           questions (fst result) = (questions st ++ added)%list
           /\ Forall2 (stored_as quiz_id) rows added
           /\ questions_of (fst result) quiz_id = (questions_of st quiz_id ++ added)%list
           /\ users (fst result) = users st
           /\ quizzes (fst result) = quizzes st
           /\ attempts (fst result) = attempts st
           /\ proctor_logs (fst result) = proctor_logs st).
Proof.
  intros Hrole Hquiz Howner Hname Hcsv Hstream result.
  pose proof (get_quiz_id _ _ _ Hquiz) as Hid.
  assert (Hview : result
                  = match import_rows st quiz rows with
                    | Ok r => r
                    | Raise e => (st, (Failure "Error processing CSV: " e, 400))
                    end).
  { subst result. unfold add_questions_csv.
    rewrite (role_check _ _ Hrole), (session_get_quiz_some _ _ _ Hquiz), Howner,
      Z.eqb_refl. simpl.
    apply String.eqb_neq in Hname. now rewrite Hname, Hcsv, Hstream. }
  rewrite Hview. unfold import_rows. split.
  - intros Hbad.
    destruct (import_rows_not_ok (Quiz.id quiz) rows Hbad) as [[e He] | [ps [Hps Hflush]]].
    + rewrite He. simpl. eauto.
    + rewrite Hps. simpl. rewrite Hflush. simpl. eauto.
  - intros Hok.
    destruct (import_rows_ok (Quiz.id quiz) rows st Hok)
      as [ps [added [Hps [Hlen [Hflush Hstored]]]]].
    rewrite Hps. simpl. rewrite Hflush. simpl. rewrite Hlen.
    split; [reflexivity|]. exists added. rewrite Hid in Hstored.
    repeat split; try assumption.
    unfold questions_of. simpl. rewrite filter_app.
    now rewrite (stored_as_quiz_id _ _ _ Hstored).
Qed.

(** A valid first row and a second row with correct answer E add nothing;
    two valid rows are both added, the lower-case answer uppercased. *)
Lemma add_questions_csv_all_or_nothing_witness :
  let valid (text answer : string) : row :=
    [("question_text", Some text); ("option_a", Some "1"); ("option_b", Some "2");
     ("option_c", Some "3"); ("option_d", Some "4"); ("correct_answer", Some answer)] in
  let refused :=
    add_questions_csv Scenario.authored Scenario.teacher 1
      (Some (mk_upload "bank.csv" (Some [valid "q6" "A"; valid "q7" "E"]))) in
  let accepted :=
    add_questions_csv Scenario.authored Scenario.teacher 1
      (Some (mk_upload "bank.csv" (Some [valid "q6" "A"; valid "q7" "b"]))) in
  questions (fst refused) = questions Scenario.authored
  /\ snd accepted = (Json (added_message 2), 201)
  /\ (exists added,
         questions (fst accepted) = (questions Scenario.authored ++ added)%list
         /\ Forall2 (stored_as 1) [valid "q6" "A"; valid "q7" "b"] added)
  /\ map Question.correct_answer (questions_of (fst accepted) 1)
     = ["A"; "B"; "C"; "D"; "A"; "A"; "B"].
Proof.
  intros valid refused accepted. split; [|split; [|split; [|reflexivity]]].
  - destruct (add_questions_csv_all_or_nothing Scenario.authored Scenario.teacher 1
                (Quiz.mk 1 "Midterm" Scenario.opening 30 1)
                (mk_upload "bank.csv" (Some [valid "q6" "A"; valid "q7" "E"]))
                [valid "q6" "A"; valid "q7" "E"]
                eq_refl eq_refl eq_refl ltac:(discriminate) eq_refl eq_refl)
      as [Hbad _].
    destruct (Hbad eq_refl) as [_ [Hsame _]]. exact (f_equal questions Hsame).
  - destruct (add_questions_csv_all_or_nothing Scenario.authored Scenario.teacher 1
                (Quiz.mk 1 "Midterm" Scenario.opening 30 1)
                (mk_upload "bank.csv" (Some [valid "q6" "A"; valid "q7" "b"]))
                [valid "q6" "A"; valid "q7" "b"]
                eq_refl eq_refl eq_refl ltac:(discriminate) eq_refl eq_refl)
      as [_ Hok].
    exact (proj1 (Hok eq_refl)).
  - destruct (add_questions_csv_all_or_nothing Scenario.authored Scenario.teacher 1
                (Quiz.mk 1 "Midterm" Scenario.opening 30 1)
                (mk_upload "bank.csv" (Some [valid "q6" "A"; valid "q7" "b"]))
                [valid "q6" "A"; valid "q7" "b"]
                eq_refl eq_refl eq_refl ltac:(discriminate) eq_refl eq_refl)
      as [_ Hok].
    destruct (Hok eq_refl) as [_ [added [Hadded [Hstored _]]]].
    exists added. split; [exact Hadded|exact Hstored].
Defined.

(** ** Creating a quiz *)

Section CreateQuiz.
Context {P : Platform}.


End CreateQuiz.



(** ** Adding a question by hand *)

(** C7, where the code departs from it: with the four options present and
    the correct answer E, [add_question_manual] stores the question and
    answers 201; the key is not compared with A, B, C, D as
    [add_questions_csv] compares it. *)
Lemma add_question_manual_key_outside_options :
  @add_question_manual Reference.platform Scenario.authored Scenario.teacher 1
    (Scenario.question_data "q6" "E")
  = (set_questions Scenario.authored
       (questions Scenario.authored
        ++ [Question.mk 6 1 "q6" "first" "second" "third" "fourth" "E"]),
     (Json (JObj [("id", JNum 6); ("text", JStr "q6")]), 201))
  /\ ~ In "E" ["A"; "B"; "C"; "D"].
Proof.
  split; [reflexivity|].
  intros [H|[H|[H|[H|[]]]]]; discriminate H.
Qed.

(** * Properties of the rest of the code *)

(** ** Every request as a sequence of changes *)

Lemma role_is (u : User.t) (r : string) :
  negb (String.eqb (User.role u) r) = false -> User.role u = r.
Proof.
  intros Hrole. apply negb_false_iff in Hrole. now apply String.eqb_eq.
Qed.

Lemma changes_one now u st st' : change now u st st' -> changes now u st st'.
Proof.
  intros Hchange. eapply changes_more; [exact Hchange|apply changes_none].
Qed.

Lemma grade_bounds answers qs : forall acc score,
  grade qs answers acc = Ok score ->
  acc <= score <= acc + Z.of_nat (length qs).
Proof.
  induction qs as [|q qs IH]; simpl; intros acc score Hg.
  - inversion Hg. lia.
  - destruct (get answers (str (Question.id q))) as [v|]; simpl in Hg; [|discriminate].
    apply IH in Hg.
    destruct (truthy v && eq_str v (Question.correct_answer q)); lia.
Qed.

Section Changes.
Context {P : Platform}.

Lemma flush_questions_changes now u quiz ps : forall st st',
  User.role u = "teacher" ->
  get_quiz st (Quiz.id quiz) = Some quiz ->
  Quiz.teacher_id quiz = User.id u ->
  flush_questions st (Quiz.id quiz) ps = Ok st' ->
  changes now u st st'.
Proof.
  induction ps as [|p ps IH]; simpl; intros st st' Hrole Hquiz Howner Hflush.
  - inversion Hflush. apply changes_none.
  - monad_inv Hflush.
    match type of Hflush with
    | flush_questions ?next _ _ = _ => apply changes_more with (st' := next)
    end.
    + eapply question_added; eauto.
    + apply IH; auto.
Qed.

(** The database after a request is reached from the one before by the
    changes of [change], each under its conditions. *)
Lemma handle_changes_steps st now u r : changes now u st (fst (handle st now u r)).
Proof.
  destruct r as [m data|m quiz_id|quiz_id data|quiz_id files|quiz_id|quiz_id data|quiz_id data];
    simpl.
  - unfold manage_quizzes.
    destruct m; try apply changes_none;
      (destruct (negb _) eqn:Hrole; [apply changes_none|]); apply role_is in Hrole;
      try apply changes_none.
    destruct (create_quiz st u data) as [[st' resp]|e] eqn:E; [|apply changes_none].
    unfold create_quiz in E. monad_inv E. simpl.
    apply changes_one. eapply quiz_created. exact Hrole.
  - unfold manage_quiz_details.
    destruct m; try apply changes_none;
      (lookup st quiz_id quiz Hquiz; [|apply changes_none|apply changes_none]).
    + destruct (_ && _); [apply changes_none|].
      destruct (quiz_detail st quiz); apply changes_none.
    + destruct (negb (String.eqb _ _)) eqn:Hrole; [apply changes_none|].
      apply role_is in Hrole.
      destruct (negb (_ =? _)) eqn:Howner; [apply changes_none|].
      apply negb_false_iff, Z.eqb_eq in Howner. simpl.
      apply changes_one, quiz_deleted; auto.
      now rewrite (get_quiz_id _ _ _ Hquiz).
  - unfold add_question_manual.
    destruct (negb _) eqn:Hrole; [apply changes_none|]. apply role_is in Hrole.
    lookup st quiz_id quiz Hquiz; [|apply changes_none|apply changes_none].
    destruct (negb (_ =? _)) eqn:Howner; [apply changes_none|].
    apply negb_false_iff, Z.eqb_eq in Howner.
    destruct (new_question_manual st quiz data) as [[st' resp]|e] eqn:E;
      [|apply changes_none].
    unfold new_question_manual in E. monad_inv E. simpl.
    apply changes_one. eapply question_added; auto.
    now rewrite (get_quiz_id _ _ _ Hquiz).
  - unfold add_questions_csv.
    destruct (negb _) eqn:Hrole; [apply changes_none|]. apply role_is in Hrole.
    lookup st quiz_id quiz Hquiz; [|apply changes_none|apply changes_none].
    destruct (negb (_ =? _)) eqn:Howner; [apply changes_none|].
    apply negb_false_iff, Z.eqb_eq in Howner.
    destruct files as [file|]; [|apply changes_none].
    destruct (String.eqb _ _); [apply changes_none|].
    destruct (endswith _ _); [|apply changes_none].
    destruct (stream file) as [rows|]; [|apply changes_none].
    destruct (import_rows st quiz rows) as [[st' resp]|e] eqn:E; [|apply changes_none].
    unfold import_rows in E. monad_inv E. simpl.
    eapply flush_questions_changes; eauto.
    now rewrite (get_quiz_id _ _ _ Hquiz).
  - unfold start_quiz_attempt.
    destruct (negb _) eqn:Hrole; [apply changes_none|]. apply role_is in Hrole.
    lookup st quiz_id quiz Hquiz; [|apply changes_none|apply changes_none].
    destruct (attempt_of st (Quiz.id quiz) (User.id u)) eqn:Hnone; [apply changes_none|].
    destruct (now <? Quiz.start_time quiz) eqn:Hearly; [apply changes_none|].
    apply Z.ltb_ge in Hearly. simpl.
    apply changes_one, attempt_started; auto.
    now rewrite (get_quiz_id _ _ _ Hquiz).
  - unfold submit_quiz_attempt.
    destruct (negb _) eqn:Hrole; [apply changes_none|]. apply role_is in Hrole.
    destruct (active_attempt_of st quiz_id (User.id u)) as [attempt|] eqn:Ha;
      [|apply changes_none].
    destruct (get_default data "answers" (JObj [])) as [answers|e]; [|apply changes_none].
    unfold grade_attempt.
    destruct (grade (questions_of st quiz_id) answers 0) as [score|e] eqn:Hg;
      [|apply changes_none].
    simpl. apply grade_bounds in Hg.
    pose proof (active_attempt_of_some _ _ _ _ Ha) as [_ [Hq _]]. subst quiz_id.
    apply changes_one. apply (attempt_graded now u st attempt score); auto.
  - unfold log_proctor_event.
    destruct (negb _) eqn:Hrole; [apply changes_none|]. apply role_is in Hrole.
    destruct (new_log st now u quiz_id data) as [[st' resp]|e] eqn:E; [|apply changes_none].
    unfold new_log in E. monad_inv E. simpl.
    apply changes_one. eapply event_logged. exact Hrole.
Qed.

End Changes.

Lemma changes_invariant (I : db -> Prop) now u :
  (forall st st', change now u st st' -> I st -> I st') ->
  forall st st', changes now u st st' -> I st -> I st'.
Proof.
  intros Hstep st st' Hchanges. induction Hchanges as [st|st st' st'' Hc _ IH]; auto.
  intros Hst. apply IH. eapply Hstep; eauto.
Qed.

Lemma find_app_some {A : Type} (p : A -> bool) (l l' : list A) (x : A) :
  find p l = Some x -> find p (l ++ l') = Some x.
Proof.
  induction l as [|y l IH]; simpl; [discriminate|].
  destruct (p y); auto.
Qed.

Lemma find_filter_kept {A : Type} (p keep : A -> bool) (l : list A) :
  (forall x, p x = true -> keep x = true) ->
  find p (filter keep l) = find p l.
Proof.
  intros Hkeep. induction l as [|y l IH]; simpl; [reflexivity|].
  destruct (p y) eqn:Hp.
  - rewrite (Hkeep y Hp). simpl. now rewrite Hp.
  - destruct (keep y); simpl; [now rewrite Hp|exact IH].
Qed.

Lemma update_attempt_ids st a' :
  map Attempt.id (attempts (update_attempt st a')) = map Attempt.id (attempts st).
Proof.
  simpl. rewrite map_map. apply map_ext. intros a.
  destruct (Attempt.id a =? Attempt.id a') eqn:E; [|reflexivity].
  apply Z.eqb_eq in E. congruence.
Qed.

Lemma change_keys_unique now u st st' :
  change now u st st' -> keys_unique st -> keys_unique st'.
Proof.
  intros Hchange [Hquiz [Hquestion [Hattempt Hlog]]].
  destruct Hchange as [title start_time duration Hrole
                      |quiz Hrole Hget Howner
                      |quiz text a b c d correct Hrole Hget Howner
                      |quiz Hrole Hget Hnone Hopen
                      |attempt score Hrole Hactive Hscore
                      |quiz_id event_type question_number Hrole];
    unfold keys_unique.
  - repeat split; [|exact Hquestion|exact Hattempt|exact Hlog].
    simpl. rewrite map_app. apply NoDup_snoc; [exact Hquiz|apply next_id_fresh].
  - repeat split; simpl; now apply filter_keeps_unique.
  - repeat split; [exact Hquiz| |exact Hattempt|exact Hlog].
    simpl. rewrite map_app. apply NoDup_snoc; [exact Hquestion|apply next_id_fresh].
  - repeat split; [exact Hquiz|exact Hquestion| |exact Hlog].
    simpl. rewrite map_app. apply NoDup_snoc; [exact Hattempt|apply next_id_fresh].
  - repeat split; [exact Hquiz|exact Hquestion| |exact Hlog].
    now rewrite update_attempt_ids.
  - repeat split; [exact Hquiz|exact Hquestion|exact Hattempt|].
    simpl. rewrite map_app. apply NoDup_snoc; [exact Hlog|apply next_id_fresh].
Qed.

Lemma get_quiz_kept st st' k :
  (forall q, get_quiz st k = Some q -> get_quiz st' k = Some q) ->
  get_quiz st k <> None -> get_quiz st' k <> None.
Proof.
  intros Hkept Hsome. destruct (get_quiz st k) as [q|]; [|contradiction].
  now rewrite (Hkept q eq_refl).
Qed.

Lemma change_rows_belong now u st st' :
  change now u st st' -> rows_belong st -> rows_belong st'.
Proof.
  intros Hchange [Hquestions Hattempts].
  destruct Hchange as [title start_time duration Hrole
                      |quiz Hrole Hquiz Howner
                      |quiz text a b c d correct Hrole Hquiz Howner
                      |quiz Hrole Hquiz Hnone Hopen
                      |attempt score Hrole Hactive Hscore
                      |quiz_id event_type question_number Hrole];
    split; simpl.
  - intros q Hq. apply (get_quiz_kept st); [|now apply Hquestions].
    intros x Hx. unfold get_quiz in *. simpl. now apply find_app_some.
  - intros x Hx. apply (get_quiz_kept st); [|now apply Hattempts].
    intros y Hy. unfold get_quiz in *. simpl. now apply find_app_some.
  - intros q Hq. apply filter_In in Hq. destruct Hq as [Hq Hother].
    apply (get_quiz_kept st); [|now apply Hquestions].
    intros x Hx. unfold get_quiz in *. simpl. rewrite find_filter_kept; [exact Hx|].
    intros y Hy. apply Z.eqb_eq in Hy. now rewrite Hy.
  - intros x Hx. apply filter_In in Hx. destruct Hx as [Hx Hother].
    apply (get_quiz_kept st); [|now apply Hattempts].
    intros y Hy. unfold get_quiz in *. simpl. rewrite find_filter_kept; [exact Hy|].
    intros z Hz. apply Z.eqb_eq in Hz. now rewrite Hz.
  - intros q Hq. apply in_app_or in Hq. destruct Hq as [Hq|[<-|[]]].
    + now apply Hquestions.
    + simpl. unfold get_quiz in *. simpl. now rewrite Hquiz.
  - exact Hattempts.
  - exact Hquestions.
  - intros x Hx. apply in_app_or in Hx. destruct Hx as [Hx|[<-|[]]].
    + now apply Hattempts.
    + simpl. unfold get_quiz in *. simpl. now rewrite Hquiz.
  - exact Hquestions.
  - intros x Hx. apply in_map_iff in Hx. destruct Hx as [y [Hxy Hy]].
    destruct (Attempt.id y =? _); [|subst x; now apply Hattempts].
    subst x. simpl. apply active_attempt_of_some in Hactive.
    now apply Hattempts.
  - exact Hquestions.
  - exact Hattempts.
Qed.

Lemma change_attempts_scored now u st st' :
  change now u st st' ->
  (forall a, In a (attempts st) -> attempt_scored a) ->
  forall a, In a (attempts st') -> attempt_scored a.
Proof.
  intros Hchange Hscored.
  destruct Hchange as [title start_time duration Hrole
                      |quiz Hrole Hquiz Howner
                      |quiz text a b c d correct Hrole Hquiz Howner
                      |quiz Hrole Hquiz Hnone Hopen
                      |attempt score Hrole Hactive Hscore
                      |quiz_id event_type question_number Hrole];
    simpl; intros x Hx; auto.
  - apply filter_In in Hx. now apply Hscored.
  - apply in_app_or in Hx. destruct Hx as [Hx|[<-|[]]]; [now apply Hscored|].
    unfold attempt_scored. simpl. auto.
  - apply in_map_iff in Hx. destruct Hx as [y [Hxy Hy]].
    destruct (Attempt.id y =? _); [|subst x; now apply Hscored].
    subst x. unfold attempt_scored. simpl.
    eexists. eexists. repeat split; try reflexivity; try lia. discriminate.
Qed.

Section TableInvariants.
Context {P : Platform}.

(** X2: primary keys stay unique.  If the ids of the quizzes, of the
    questions, of the attempts and of the proctor events are pairwise
    distinct before a request, they are pairwise distinct after it: a new
    row takes one more than the largest id in use, a graded attempt keeps
    its id, and a deletion only removes rows. *)
Theorem handle_keys_unique (st : db) (now : Z) (u : User.t) (r : request) :
  keys_unique st -> keys_unique (fst (handle st now u r)).
Proof.
  apply (changes_invariant keys_unique now u (change_keys_unique now u)).
  apply handle_changes_steps.
Qed.

(** X3: no orphan questions or attempts.  If every question and every
    attempt belongs to a quiz of the table before a request, the same holds
    after it: questions and attempts are only created for a quiz that
    exists, and deleting a quiz deletes them with it. *)
Theorem handle_rows_belong (st : db) (now : Z) (u : User.t) (r : request) :
  rows_belong st -> rows_belong (fst (handle st now u r)).
Proof.
  apply (changes_invariant rows_belong now u (change_rows_belong now u)).
  apply handle_changes_steps.
Qed.

(** X4: the score of an attempt.  In every database reached from one
    without attempts, an unfinished attempt has no score, no total and no
    finish time, and a finished attempt has all three, with the score
    between zero and the total. *)
Theorem reachable_attempts_scored (st : db) :
  reachable st -> forall a, In a (attempts st) -> attempt_scored a.
Proof.
  induction 1 as [st Hnone|st now u r _ IH].
  - rewrite Hnone. intros a [].
  - apply (changes_invariant
             (fun s => forall a, In a (attempts s) -> attempt_scored a) now u
             (change_attempts_scored now u) st); [|exact IH].
    apply handle_changes_steps.
Qed.

End TableInvariants.

(** ** The effect of one request *)

Lemma flush_questions_appends quiz_id ps : forall st st',
  flush_questions st quiz_id ps = Ok st' ->
  exists added,
    st' = set_questions st (questions st ++ added)
    /\ Forall (fun q => Question.quiz_id q = quiz_id) added.
Proof.
  induction ps as [|p ps IH]; simpl; intros st st' Hflush.
  - inversion Hflush. exists []. rewrite app_nil_r. now destruct st'.
  - monad_inv Hflush. apply IH in Hflush. destruct Hflush as [added [-> Hadded]].
    eexists (_ :: added). split.
    + simpl. rewrite <- app_assoc. reflexivity.
    + constructor; [reflexivity|exact Hadded].
Qed.

Lemma filter_all {A : Type} (l : list A) : filter (fun _ => true) l = l.
Proof. induction l as [|x l IH]; simpl; congruence. Qed.

Lemma filter_filter_kept {A : Type} (p keep : A -> bool) (l : list A) :
  (forall x, p x = true -> keep x = true) ->
  filter p (filter keep l) = filter p l.
Proof.
  intros Hkeep. induction l as [|x l IH]; simpl; [reflexivity|].
  destruct (p x) eqn:Hp.
  - rewrite (Hkeep x Hp). simpl. rewrite Hp. now f_equal.
  - destruct (keep x); simpl; [now rewrite Hp|exact IH].
Qed.

Section Effect.
Context {P : Platform}.

(** A request leaves the database as it is, makes one change, or (the CSV
    import) appends questions to a quiz of the requesting teacher. *)
Lemma handle_effect st now u r :
  fst (handle st now u r) = st
  \/ change now u st (fst (handle st now u r))
  \/ exists quiz added,
       User.role u = "teacher"
       /\ get_quiz st (Quiz.id quiz) = Some quiz
       /\ Quiz.teacher_id quiz = User.id u
       /\ fst (handle st now u r) = set_questions st (questions st ++ added)
       /\ Forall (fun q => Question.quiz_id q = Quiz.id quiz) added.
Proof.
  destruct r as [m data|m quiz_id|quiz_id data|quiz_id files|quiz_id|quiz_id data|quiz_id data];
    simpl.
  - unfold manage_quizzes.
    destruct m; try (now left);
      (destruct (negb _) eqn:Hrole; [now left|]); apply role_is in Hrole;
      try (now left).
    destruct (create_quiz st u data) as [[st' resp]|e] eqn:E; [|now left].
    unfold create_quiz in E. monad_inv E. simpl.
    right; left. eapply quiz_created. exact Hrole.
  - unfold manage_quiz_details.
    destruct m; try (now left);
      (lookup st quiz_id quiz Hquiz; [|now left|now left]).
    + destruct (_ && _); [now left|].
      destruct (quiz_detail st quiz); now left.
    + destruct (negb (String.eqb _ _)) eqn:Hrole; [now left|].
      apply role_is in Hrole.
      destruct (negb (_ =? _)) eqn:Howner; [now left|].
      apply negb_false_iff, Z.eqb_eq in Howner. simpl.
      right; left. apply quiz_deleted; auto.
      now rewrite (get_quiz_id _ _ _ Hquiz).
  - unfold add_question_manual.
    destruct (negb _) eqn:Hrole; [now left|]. apply role_is in Hrole.
    lookup st quiz_id quiz Hquiz; [|now left|now left].
    destruct (negb (_ =? _)) eqn:Howner; [now left|].
    apply negb_false_iff, Z.eqb_eq in Howner.
    destruct (new_question_manual st quiz data) as [[st' resp]|e] eqn:E; [|now left].
    unfold new_question_manual in E. monad_inv E. simpl.
    right; left. eapply question_added; auto.
    now rewrite (get_quiz_id _ _ _ Hquiz).
  - unfold add_questions_csv.
    destruct (negb _) eqn:Hrole; [now left|]. apply role_is in Hrole.
    lookup st quiz_id quiz Hquiz; [|now left|now left].
    destruct (negb (_ =? _)) eqn:Howner; [now left|].
    apply negb_false_iff, Z.eqb_eq in Howner.
    destruct files as [file|]; [|now left].
    destruct (String.eqb _ _); [now left|].
    destruct (endswith _ _); [|now left].
    destruct (stream file) as [rows|]; [|now left].
    destruct (import_rows st quiz rows) as [[st' resp]|e] eqn:E; [|now left].
    unfold import_rows in E. monad_inv E. simpl.
    apply flush_questions_appends in E1. destruct E1 as [added [-> Hadded]].
    right; right. exists quiz, added. repeat split; auto.
    now rewrite (get_quiz_id _ _ _ Hquiz).
  - unfold start_quiz_attempt.
    destruct (negb _) eqn:Hrole; [now left|]. apply role_is in Hrole.
    lookup st quiz_id quiz Hquiz; [|now left|now left].
    destruct (attempt_of st (Quiz.id quiz) (User.id u)) eqn:Hnone; [now left|].
    destruct (now <? Quiz.start_time quiz) eqn:Hearly; [now left|].
    apply Z.ltb_ge in Hearly. simpl.
    right; left. apply attempt_started; auto.
    now rewrite (get_quiz_id _ _ _ Hquiz).
  - unfold submit_quiz_attempt.
    destruct (negb _) eqn:Hrole; [now left|]. apply role_is in Hrole.
    destruct (active_attempt_of st quiz_id (User.id u)) as [attempt|] eqn:Ha; [|now left].
    destruct (get_default data "answers" (JObj [])) as [answers|e]; [|now left].
    unfold grade_attempt.
    destruct (grade (questions_of st quiz_id) answers 0) as [score|e] eqn:Hg; [|now left].
    simpl. apply grade_bounds in Hg.
    pose proof (active_attempt_of_some _ _ _ _ Ha) as [_ [Hq _]]. subst quiz_id.
    right; left. apply (attempt_graded now u st attempt score); auto.
  - unfold log_proctor_event.
    destruct (negb _) eqn:Hrole; [now left|]. apply role_is in Hrole.
    destruct (new_log st now u quiz_id data) as [[st' resp]|e] eqn:E; [|now left].
    unfold new_log in E. monad_inv E. simpl.
    right; left. eapply event_logged. exact Hrole.
Qed.

End Effect.

Section Separation.
Context {P : Platform}.

(** X6: a quiz is out of reach of everyone but its teacher.  With unique
    primary keys, a request of a user who is not the quiz's teacher leaves
    the quiz row and the list of its questions as they are. *)
Theorem quiz_untouched_by_others
  (st : db) (now : Z) (u : User.t) (r : request) (q : Quiz.t) :
  keys_unique st ->
  In q (quizzes st) ->
  Quiz.teacher_id q <> User.id u ->
  In q (quizzes (fst (handle st now u r)))
  /\ questions_of (fst (handle st now u r)) (Quiz.id q) = questions_of st (Quiz.id q).
Proof.
  intros [Hunique _] Hq Hother.
  assert (Hdiff : forall quiz, get_quiz st (Quiz.id quiz) = Some quiz ->
                               Quiz.teacher_id quiz = User.id u ->
                               (Quiz.id quiz =? Quiz.id q) = false).
  { intros quiz Hquiz Howner. apply Z.eqb_neq. intros Hid.
    apply find_some in Hquiz. destruct Hquiz as [Hin _].
    assert (quiz = q) by (apply (NoDup_map_In_eq Quiz.id (quizzes st)); assumption).
    subst quiz. contradiction. }
  assert (Hadded : forall quiz added,
             get_quiz st (Quiz.id quiz) = Some quiz ->
             Quiz.teacher_id quiz = User.id u ->
             Forall (fun x => Question.quiz_id x = Quiz.id quiz) added ->
             filter (fun x => Question.quiz_id x =? Quiz.id q) (questions st ++ added)
             = filter (fun x => Question.quiz_id x =? Quiz.id q) (questions st)).
  { intros quiz added Hquiz Howner Hall. rewrite filter_app.
    rewrite <- app_nil_r. f_equal.
    induction Hall as [|x added Hx _ IH]; simpl; [reflexivity|].
    now rewrite Hx, (Hdiff quiz Hquiz Howner). }
  destruct (handle_effect st now u r) as [-> | [Hchange | Himport]].
  - auto.
  - destruct Hchange as [title start_time duration Hrole
                        |quiz Hrole Hquiz Howner
                        |quiz text a b c d correct Hrole Hquiz Howner
                        |quiz Hrole Hquiz Hnone Hopen
                        |attempt score Hrole Hactive Hscore
                        |quiz_id event_type question_number Hrole];
      try (split; [exact Hq|reflexivity]).
    + split; [simpl; apply in_or_app; now left|reflexivity].
    + pose proof (Hdiff quiz Hquiz Howner) as Hneq. split.
      * simpl. apply filter_In. split; [exact Hq|].
        rewrite Z.eqb_sym. now rewrite Hneq.
      * unfold questions_of. simpl. apply filter_filter_kept.
        intros x Hx. apply Z.eqb_eq in Hx. rewrite Hx, Z.eqb_sym. now rewrite Hneq.
    + split; [exact Hq|]. unfold questions_of. simpl.
      apply (Hadded quiz [_] Hquiz Howner). now repeat constructor.
  - destruct Himport as [quiz [added [Hrole [Hquiz [Howner [-> Hall]]]]]].
    split; [exact Hq|]. unfold questions_of. simpl. now apply (Hadded quiz).
Qed.

(** X7: quizzes and questions are never rewritten.  With unique primary
    keys, a quiz (a question) of the database after a request that has the
    id of a quiz (a question) before it is that very row: title, start
    time, duration and owner, texts, options and correct key are fixed at
    creation. *)
Theorem quizzes_and_questions_immutable
  (st : db) (now : Z) (u : User.t) (r : request) :
  keys_unique st ->
  (forall q q', In q (quizzes st) -> In q' (quizzes (fst (handle st now u r))) ->
                Quiz.id q' = Quiz.id q -> q' = q)
  /\ (forall x x', In x (questions st) -> In x' (questions (fst (handle st now u r))) ->
                   Question.id x' = Question.id x -> x' = x).
Proof.
  intros Hkeys.
  pose proof (changes_invariant keys_unique now u (change_keys_unique now u)
                st _ (handle_changes_steps st now u r) Hkeys)
    as [Hquiz' [Hquestion' _]].
  destruct Hkeys as [Hquiz [Hquestion _]].
  assert (Hsub : (forall q, In q (quizzes st) -> In q (quizzes (fst (handle st now u r))))
                 \/ (forall q', In q' (quizzes (fst (handle st now u r))) ->
                                In q' (quizzes st))).
  { destruct (handle_effect st now u r) as [-> | [Hchange | Himport]]; [now left| |].
    - destruct Hchange; try (now left).
      + left. intros q Hq. simpl. apply in_or_app. now left.
      + right. intros q' Hq'. simpl in Hq'. now apply filter_In in Hq'.
    - destruct Himport as [quiz [added [_ [_ [_ [-> _]]]]]]. now left. }
  assert (Hsubq : (forall x, In x (questions st) ->
                             In x (questions (fst (handle st now u r))))
                  \/ (forall x', In x' (questions (fst (handle st now u r))) ->
                                 In x' (questions st))).
  { destruct (handle_effect st now u r) as [-> | [Hchange | Himport]]; [now left| |].
    - destruct Hchange; try (now left).
      + right. intros x' Hx'. simpl in Hx'. now apply filter_In in Hx'.
      + left. intros x Hx. simpl. apply in_or_app. now left.
    - destruct Himport as [quiz [added [_ [_ [_ [-> _]]]]]].
      left. intros x Hx. simpl. apply in_or_app. now left. }
  split.
  - intros q q' Hq Hq' Hid. destruct Hsub as [Hgrow|Hshrink].
    + apply (NoDup_map_In_eq Quiz.id (quizzes (fst (handle st now u r)))); auto.
    + apply (NoDup_map_In_eq Quiz.id (quizzes st)); auto.
  - intros x x' Hx Hx' Hid. destruct Hsubq as [Hgrow|Hshrink].
    + apply (NoDup_map_In_eq Question.id (questions (fst (handle st now u r)))); auto.
    + apply (NoDup_map_In_eq Question.id (questions st)); auto.
Qed.

(** X8: the life of an attempt row.  With unique primary keys, a request
    leaves an attempt as it is; or grades it, and then the attempt was
    unfinished, belongs to the requesting student, and is stored finished
    with a score between zero and the total; or removes it with every
    attempt of its quiz, and then the requester is a teacher.  A finished
    attempt is therefore never graded again. *)
Theorem attempt_row_lifecycle
  (st : db) (now : Z) (u : User.t) (r : request) (a : Attempt.t) :
  keys_unique st ->
  In a (attempts st) ->
  In a (attempts (fst (handle st now u r)))
  \/ (Attempt.finished a = false
      /\ Attempt.student_id a = User.id u
      /\ User.role u = "student"
      /\ exists score total,
           0 <= score <= total
           /\ In (graded a score total now) (attempts (fst (handle st now u r))))
  \/ (User.role u = "teacher"
      /\ attempts_of (fst (handle st now u r)) (Attempt.quiz_id a) = []).
Proof.
  intros [_ [_ [Hids _]]] Hin.
  destruct (handle_effect st now u r) as [-> | [Hchange | Himport]]; [now left| |].
  - destruct Hchange as [title start_time duration Hrole
                        |quiz Hrole Hquiz Howner
                        |quiz text q1 q2 q3 q4 correct Hrole Hquiz Howner
                        |quiz Hrole Hquiz Hnone Hopen
                        |attempt score Hrole Hactive Hscore
                        |quiz_id event_type question_number Hrole];
      try (now left).
    + destruct (Attempt.quiz_id a =? Quiz.id quiz) eqn:E.
      * right; right. split; [exact Hrole|]. apply Z.eqb_eq in E.
        unfold attempts_of. simpl. rewrite E.
        clear. induction (attempts st) as [|x l IH]; simpl; [reflexivity|].
        destruct (Attempt.quiz_id x =? Quiz.id quiz) eqn:Ex; simpl; [exact IH|].
        now rewrite Ex.
      * left. simpl. apply filter_In. split; [exact Hin|]. now rewrite E.
    + left. simpl. apply in_or_app. now left.
    + pose proof (active_attempt_of_some _ _ _ _ Hactive) as [Hin' [_ [Hs Hf]]].
      destruct (Attempt.id a =? Attempt.id attempt) eqn:E.
      * apply Z.eqb_eq in E.
        assert (a = attempt)
          by (apply (NoDup_map_In_eq Attempt.id (attempts st)); assumption).
        subst a. right; left. repeat split; auto.
        exists score, (Z.of_nat (length (questions_of st (Attempt.quiz_id attempt)))).
        split; [exact Hscore|]. now apply update_attempt_In with (attempt := attempt).
      * left. simpl. apply in_map_iff. exists a. split; [|exact Hin].
        simpl. now rewrite E.
  - destruct Himport as [quiz [added [_ [_ [_ [-> _]]]]]]. now left.
Qed.

End Separation.

(** ** Deleting a quiz *)

Lemma filter_none_left {A : Type} (p : A -> bool) (l : list A) :
  filter p (filter (fun x => negb (p x)) l) = [].
Proof.
  induction l as [|x l IH]; simpl; [reflexivity|].
  destruct (p x) eqn:Hp; simpl; [exact IH|]. now rewrite Hp.
Qed.

Lemma find_none_left {A : Type} (p : A -> bool) (l : list A) :
  find p (filter (fun x => negb (p x)) l) = None.
Proof.
  induction l as [|x l IH]; simpl; [reflexivity|].
  destruct (p x) eqn:Hp; simpl; [exact IH|]. now rewrite Hp.
Qed.

Lemma filter_other {A : Type} (f : A -> Z) (k d : Z) (l : list A) :
  k <> d ->
  filter (fun x => f x =? k) (filter (fun x => negb (f x =? d)) l)
  = filter (fun x => f x =? k) l.
Proof.
  intros Hkd. apply filter_filter_kept. intros x Hx.
  apply Z.eqb_eq in Hx. apply negb_true_iff, Z.eqb_neq. congruence.
Qed.

Lemma question_detail_keys : forall qs qs2,
  map question_detail qs = map question_detail qs2 ->
  map Question.correct_answer qs = map Question.correct_answer qs2.
Proof.
  induction qs as [|q qs IH]; intros [|q2 qs2] Hmap; try discriminate Hmap;
    [reflexivity|].
  assert (Hhead : question_detail q = question_detail q2)
    by exact (f_equal (hd (question_detail q)) Hmap).
  assert (Htail : map question_detail qs = map question_detail qs2)
    by exact (f_equal (@tl json) Hmap).
  unfold question_detail in Hhead. injection Hhead as _ _ _ _ _ _ Hkey.
  simpl. f_equal; [exact Hkey|now apply IH].
Qed.

Section DeleteQuiz.
Context {P : Platform}.

(** X9: the owning teacher's DELETE is answered 200 and removes the quiz
    with all of its questions, attempts and proctor events, and nothing
    else: the user table and the rows of every other quiz id are as before.
    Afterwards the GET and the DELETE of that quiz id, by any user, and a
    student's start of an attempt on it are answered 404 (the id of a quiz
    is an SQLite integer); the database stays as the deletion left it. *)
Theorem delete_quiz_cascades
  (st : db) (current_user : User.t) (quiz_id : Z) (quiz : Quiz.t) :
  User.role current_user = "teacher" ->
  get_quiz st quiz_id = Some quiz ->
  Quiz.teacher_id quiz = User.id current_user ->
  let st' := fst (manage_quiz_details st current_user DELETE quiz_id) in
  snd (manage_quiz_details st current_user DELETE quiz_id)
  = (Json (JObj [("message", JStr "Quiz deleted successfully")]), 200)
  /\ get_quiz st' quiz_id = None
  /\ questions_of st' quiz_id = []
  /\ attempts_of st' quiz_id = []
  /\ logs_of st' quiz_id = []
  /\ users st' = users st
  /\ (forall other, other <> quiz_id ->
        get_quiz st' other = get_quiz st other
        /\ questions_of st' other = questions_of st other
        /\ attempts_of st' other = attempts_of st other
        /\ logs_of st' other = logs_of st other)
  /\ (- 2 ^ 63 <= quiz_id < 2 ^ 63 ->
      forall (u : User.t) (now : Z),
        manage_quiz_details st' u GET quiz_id = (st', (error "Quiz not found", 404))
        /\ manage_quiz_details st' u DELETE quiz_id = (st', (error "Quiz not found", 404))
        /\ (User.role u = "student" ->
            start_quiz_attempt st' now u quiz_id = (st', (error "Quiz not found", 404)))).
Proof.
  intros Hrole Hquiz Howner.
  pose proof (get_quiz_id _ _ _ Hquiz) as Hid.
  assert (Hview : manage_quiz_details st current_user DELETE quiz_id
                  = (delete_quiz st quiz,
                     (Json (JObj [("message", JStr "Quiz deleted successfully")]), 200))).
  { unfold manage_quiz_details.
    now rewrite (session_get_quiz_some _ _ _ Hquiz), (role_check _ _ Hrole), Howner,
      Z.eqb_refl. }
  rewrite Hview. simpl. subst quiz_id.
  assert (Hgone : get_quiz (delete_quiz st quiz) (Quiz.id quiz) = None)
    by apply (find_none_left (fun q => Quiz.id q =? Quiz.id quiz)).
  repeat split.
  - exact Hgone.
  - apply (filter_none_left (fun q => Question.quiz_id q =? Quiz.id quiz)).
  - apply (filter_none_left (fun a => Attempt.quiz_id a =? Quiz.id quiz)).
  - apply (filter_none_left (fun l => ProctorLog.quiz_id l =? Quiz.id quiz)).
  - unfold get_quiz. simpl. apply find_filter_kept. intros x Hx.
    apply Z.eqb_eq in Hx. apply negb_true_iff, Z.eqb_neq. congruence.
  - now apply (filter_other Question.quiz_id).
  - now apply (filter_other Attempt.quiz_id).
  - now apply (filter_other ProctorLog.quiz_id).
  - unfold manage_quiz_details. now rewrite (session_get_quiz_none _ _ Hgone H).
  - unfold manage_quiz_details. now rewrite (session_get_quiz_none _ _ Hgone H).
  - intros Hstudent. unfold start_quiz_attempt.
    now rewrite (role_check _ _ Hstudent), (session_get_quiz_none _ _ Hgone H).
Qed.

(** X10: nobody but its teacher writes to a quiz.  For a user who is not a
    teacher, deleting the quiz and adding questions to it, by hand or by
    CSV, are answered 403; for a teacher who does not own it, deleting and
    viewing are answered 403 and adding questions 404, the very response of
    a quiz id that is an SQLite integer and is the id of no quiz.  A quiz
    id that is no SQLite integer is answered 500 by both views that add
    questions: the lookup raises outside their [try].  The database is
    unchanged in every case. *)
Theorem quiz_writes_refused
  (st : db) (current_user : User.t) (quiz_id : Z) (quiz : Quiz.t)
  (data : json) (files : option upload) :
  get_quiz st quiz_id = Some quiz ->
  (User.role current_user <> "teacher" ->
   manage_quiz_details st current_user DELETE quiz_id = (st, (error "Not authorized", 403))
   /\ add_question_manual st current_user quiz_id data = (st, (error "Not authorized", 403))
   /\ add_questions_csv st current_user quiz_id files = (st, (error "Not authorized", 403)))
  /\ (User.role current_user = "teacher" ->
      Quiz.teacher_id quiz <> User.id current_user ->
      manage_quiz_details st current_user DELETE quiz_id
      = (st, (error "Not authorized to delete this quiz", 403))
      /\ manage_quiz_details st current_user GET quiz_id
         = (st, (error "Not authorized to view this quiz", 403))
      /\ add_question_manual st current_user quiz_id data
         = (st, (error "Quiz not found or not authorized", 404))
      /\ add_questions_csv st current_user quiz_id files
         = (st, (error "Quiz not found or not authorized", 404))
      /\ (forall missing, get_quiz st missing = None ->
            - 2 ^ 63 <= missing < 2 ^ 63 ->
            add_question_manual st current_user missing data
            = (st, (error "Quiz not found or not authorized", 404))
            /\ add_questions_csv st current_user missing files
               = (st, (error "Quiz not found or not authorized", 404)))
      /\ (forall missing, get_quiz st missing = None ->
            ~ (- 2 ^ 63 <= missing < 2 ^ 63) ->
            add_question_manual st current_user missing data
            = (st, (Unhandled OverflowError, 500))
            /\ add_questions_csv st current_user missing files
               = (st, (Unhandled OverflowError, 500)))).
Proof.
  intros Hquiz. split.
  - intros Hrole. apply String.eqb_neq in Hrole.
    unfold manage_quiz_details, add_question_manual, add_questions_csv.
    now rewrite (session_get_quiz_some _ _ _ Hquiz), Hrole.
  - intros Hrole Hother. apply Z.eqb_neq in Hother.
    unfold manage_quiz_details, add_question_manual, add_questions_csv.
    rewrite (session_get_quiz_some _ _ _ Hquiz), (role_check _ _ Hrole), Hother.
    pose proof (role_check _ _ Hrole) as Hteacher.
    apply negb_false_iff in Hteacher. rewrite Hteacher.
    do 4 (split; [reflexivity|]). split.
    + intros missing Hmissing Hrange.
      now rewrite (session_get_quiz_none _ _ Hmissing Hrange).
    + intros missing Hmissing Hrange.
      now rewrite (session_get_quiz_overflow _ _ Hmissing Hrange).
Qed.

(** X11: the detail view gives the correct keys to students.  A requester
    who is not a teacher gets 200 from the GET of [manage_quiz_details]
    with the detailed views, before the quiz opens and without an attempt;
    and the response fixes the correct keys: two databases on which a
    student gets the same response have the same keys for the quiz. *)
Theorem quiz_detail_shows_keys_to_students
  (st st2 : db) (requester : User.t) (quiz_id : Z) (quiz quiz2 : Quiz.t) :
  User.role requester <> "teacher" ->
  get_quiz st quiz_id = Some quiz ->
  students_registered st quiz_id ->
  (exists results_list logs_list,
      manage_quiz_details st requester GET quiz_id
      = (st, (Json (JObj [("id", JNum quiz_id);
                          ("title", JStr (Quiz.title quiz));
                          ("questions",
                           JArr (map question_detail (questions_of st quiz_id)));
                          ("results", JArr results_list);
                          ("proctorLogs", JArr logs_list)]), 200)))
  /\ (get_quiz st2 quiz_id = Some quiz2 ->
      students_registered st2 quiz_id ->
      snd (manage_quiz_details st requester GET quiz_id)
      = snd (manage_quiz_details st2 requester GET quiz_id) ->
      map Question.correct_answer (questions_of st quiz_id)
      = map Question.correct_answer (questions_of st2 quiz_id)).
Proof.
  intros Hrole Hquiz Hregistered.
  apply String.eqb_neq in Hrole.
  assert (Hview : forall s q,
             get_quiz s quiz_id = Some q ->
             students_registered s quiz_id ->
             exists results_list logs_list,
               manage_quiz_details s requester GET quiz_id
               = (s, (Json (JObj [("id", JNum quiz_id);
                                  ("title", JStr (Quiz.title q));
                                  ("questions",
                                   JArr (map question_detail (questions_of s quiz_id)));
                                  ("results", JArr results_list);
                                  ("proctorLogs", JArr logs_list)]), 200))).
  { intros s q Hq Hreg. unfold manage_quiz_details.
    rewrite (session_get_quiz_some _ _ _ Hq), Hrole. simpl.
    pose proof (get_quiz_id _ _ _ Hq) as Hid. subst quiz_id.
    destruct (quiz_detail_total s q Hreg) as [rs [ls ->]]. eauto. }
  split; [now apply Hview|].
  intros Hquiz2 Hregistered2 Hsame.
  destruct (Hview st quiz Hquiz Hregistered) as [rs [ls Heq]].
  destruct (Hview st2 quiz2 Hquiz2 Hregistered2) as [rs2 [ls2 Heq2]].
  rewrite Heq, Heq2 in Hsame. simpl in Hsame.
  injection Hsame as _ Hquestions _ _.
  now apply question_detail_keys.
Qed.

End DeleteQuiz.

(** ** Authoring questions *)

Section Authoring.
Context {P : Platform}.

Lemma owner_add_question_manual st u quiz_id quiz data :
  User.role u = "teacher" ->
  get_quiz st quiz_id = Some quiz ->
  Quiz.teacher_id quiz = User.id u ->
  add_question_manual st u quiz_id data
  = match new_question_manual st quiz data with
    | Ok r => r
    | Raise e => (st, (Failure "Error adding question: " e, 400))
    end.
Proof.
  intros Hrole Hquiz Howner. unfold add_question_manual.
  now rewrite (role_check _ _ Hrole), (session_get_quiz_some _ _ _ Hquiz), Howner, Z.eqb_refl.
Qed.

(** X12: what [add_question_manual] refuses.  For the owning teacher, a
    body that is no container (null, a boolean, a number) is answered 400
    through a TypeError; a JSON object without ["text"], ["options"] or
    ["correctAnswer"] is answered 400 "Missing required fields"; one whose
    options are an object without one of A, B, C, D is answered 400
    "Missing option fields".  No question is added in any of these cases. *)
Theorem add_question_manual_refusals
  (st : db) (current_user : User.t) (quiz_id : Z) (quiz : Quiz.t) :
  User.role current_user = "teacher" ->
  get_quiz st quiz_id = Some quiz ->
  Quiz.teacher_id quiz = User.id current_user ->
  (forall data,
      (data = JNull \/ (exists b, data = JBool b) \/ (exists z, data = JNum z)) ->
      add_question_manual st current_user quiz_id data
      = (st, (Failure "Error adding question: " TypeError, 400)))
  /\ (forall fields,
        (assoc "text" fields = None \/ assoc "options" fields = None
         \/ assoc "correctAnswer" fields = None) ->
        add_question_manual st current_user quiz_id (JObj fields)
        = (st, (Failure "Error adding question: "
                  (ValueError "Missing required fields (text, options, correctAnswer)"),
                400)))
  /\ (forall fields options,
        assoc "text" fields <> None ->
        assoc "options" fields = Some (JObj options) ->
        assoc "correctAnswer" fields <> None ->
        (assoc "A" options = None \/ assoc "B" options = None
         \/ assoc "C" options = None \/ assoc "D" options = None) ->
        add_question_manual st current_user quiz_id (JObj fields)
        = (st, (Failure "Error adding question: "
                  (ValueError "Missing option fields (A, B, C, D)"), 400))).
Proof.
  intros Hrole Hquiz Howner. split; [|split].
  - intros data Hdata. rewrite (owner_add_question_manual _ _ _ _ _ Hrole Hquiz Howner).
    destruct Hdata as [-> | [[b ->] | [z ->]]]; reflexivity.
  - intros fields Hmissing.
    rewrite (owner_add_question_manual _ _ _ _ _ Hrole Hquiz Howner).
    unfold new_question_manual. cbn [all_in contains bind].
    destruct (assoc "text" fields); [|reflexivity].
    destruct (assoc "options" fields); [|reflexivity].
    destruct (assoc "correctAnswer" fields); [|reflexivity].
    destruct Hmissing as [Hm | [Hm | Hm]]; discriminate Hm.
  - intros fields options Htext Hoptions Hcorrect Hmissing.
    rewrite (owner_add_question_manual _ _ _ _ _ Hrole Hquiz Howner).
    unfold new_question_manual. cbn [all_in contains bind getitem].
    rewrite Hoptions.
    destruct (assoc "text" fields); [|contradiction].
    destruct (assoc "correctAnswer" fields); [|contradiction].
    cbn [negb bind all_in contains].
    destruct (assoc "A" options); [|reflexivity].
    destruct (assoc "B" options); [|reflexivity].
    destruct (assoc "C" options); [|reflexivity].
    destruct (assoc "D" options); [|reflexivity].
    destruct Hmissing as [Hm | [Hm | [Hm | Hm]]]; discriminate Hm.
Qed.


Lemma owner_add_questions_csv st u quiz_id quiz files :
  User.role u = "teacher" ->
  get_quiz st quiz_id = Some quiz ->
  Quiz.teacher_id quiz = User.id u ->
  add_questions_csv st u quiz_id files
  = match files with
    | None => (st, (error "No file part", 400))
    | Some file =>
        if String.eqb (filename file) ""
        then (st, (error "No selected file", 400))
        else if endswith (filename file) ".csv"
        then match stream file with
             | None => (st, (error not_utf8, 400))
             | Some rows =>
                 match import_rows st quiz rows with
                 | Ok r => r
                 | Raise e => (st, (Failure "Error processing CSV: " e, 400))
                 end
             end
        else (st, (error "Invalid file type. Must be .csv", 400))
    end.
Proof.
  intros Hrole Hquiz Howner. unfold add_questions_csv.
  now rewrite (role_check _ _ Hrole), (session_get_quiz_some _ _ _ Hquiz), Howner, Z.eqb_refl.
Qed.

(** X14: the upload checks of [add_questions_csv].  For the owning
    teacher: a request without a file part, a file with an empty name, a
    name that does not end in [.csv] and a stream that is not UTF-8 are
    each answered 400 with their own message, and a CSV without rows is
    answered 201 "Successfully added 0 questions."; the database is
    unchanged in all five cases. *)
Theorem add_questions_csv_upload_checks
  (st : db) (current_user : User.t) (quiz_id : Z) (quiz : Quiz.t) :
  User.role current_user = "teacher" ->
  get_quiz st quiz_id = Some quiz ->
  Quiz.teacher_id quiz = User.id current_user ->
  add_questions_csv st current_user quiz_id None = (st, (error "No file part", 400))
  /\ (forall content,
        add_questions_csv st current_user quiz_id (Some (mk_upload "" content))
        = (st, (error "No selected file", 400)))
  /\ (forall name content,
        name <> "" -> endswith name ".csv" = false ->
        add_questions_csv st current_user quiz_id (Some (mk_upload name content))
        = (st, (error "Invalid file type. Must be .csv", 400)))
  /\ (forall name,
        name <> "" -> endswith name ".csv" = true ->
        add_questions_csv st current_user quiz_id (Some (mk_upload name None))
        = (st, (error not_utf8, 400))
        /\ add_questions_csv st current_user quiz_id (Some (mk_upload name (Some [])))
           = (st, (Json (added_message 0), 201))).
Proof.
  intros Hrole Hquiz Howner.
  repeat split; try intros name; try intros content; intros;
    rewrite (owner_add_questions_csv _ _ _ _ _ Hrole Hquiz Howner); simpl;
    try reflexivity;
    match goal with
    | Hname : _ <> "" |- _ => apply String.eqb_neq in Hname; rewrite Hname
    end;
    match goal with
    | Hcsv : endswith _ _ = _ |- _ => rewrite Hcsv
    end; reflexivity.
Qed.

End Authoring.

(** ** The correct answers a CSV row may have *)

Lemma upper_ascii_key (c k : ascii) :
  In k ["A"; "B"; "C"; "D"]%char ->
  upper_ascii c = k ->
  c = k \/ c = ascii_of_nat (nat_of_ascii k + 32).
Proof.
  intros Hk Hc. destruct Hk as [<-|[<-|[<-|[<-|[]]]]];
    destruct c as [[] [] [] [] [] [] [] []]; vm_compute in Hc;
    try discriminate Hc; auto.
Qed.

Lemma upper_key (s : string) :
  In (upper s) ["A"; "B"; "C"; "D"] <->
  In s ["A"; "B"; "C"; "D"; "a"; "b"; "c"; "d"].
Proof.
  split.
  - intros Hup. destruct s as [|c [|c' s']].
    + simpl in Hup. repeat destruct Hup as [Hup|Hup]; try discriminate Hup;
        try contradiction.
    + cbn [upper] in Hup.
      assert (Hk : exists k, In k ["A"; "B"; "C"; "D"]%char /\ upper_ascii c = k).
      { destruct Hup as [Hup|[Hup|[Hup|[Hup|[]]]]]; injection Hup as Hup;
          eexists; (split; [|symmetry; exact Hup]); simpl; auto. }
      destruct Hk as [k [Hk Hc]].
      destruct (upper_ascii_key c k Hk Hc) as [-> | ->];
        destruct Hk as [<-|[<-|[<-|[<-|[]]]]]; simpl; auto 10.
    + cbn [upper] in Hup.
      repeat destruct Hup as [Hup|Hup]; try discriminate Hup; try contradiction.
  - intros Hs. repeat destruct Hs as [<-|Hs]; simpl; auto 10; try contradiction.
Qed.

(** X15: the correct answers the import accepts are the eight one-letter
    strings A, B, C, D, a, b, c, d.  A row whose six columns hold text is
    read as a question with the uppercased answer when its answer is one of
    the eight, and raises ValueError "Invalid correct_answer value: ..."
    with the answer as written otherwise (so an answer with a space around
    the letter, an empty answer and an option text all fail the import). *)
Theorem csv_accepted_answers (r : row) (text a b c d answer : string) :
  text_field r "question_text" = Some text ->
  text_field r "option_a" = Some a ->
  text_field r "option_b" = Some b ->
  text_field r "option_c" = Some c ->
  text_field r "option_d" = Some d ->
  text_field r "correct_answer" = Some answer ->
  (In answer ["A"; "B"; "C"; "D"; "a"; "b"; "c"; "d"] ->
   read_row r = Ok (mk_pending (Some text) (Some a) (Some b) (Some c) (Some d)
                               (upper answer))
   /\ In (upper answer) ["A"; "B"; "C"; "D"])
  /\ (~ In answer ["A"; "B"; "C"; "D"; "a"; "b"; "c"; "d"] ->
      read_row r
      = Raise (ValueError (String.append "Invalid correct_answer value: " answer))).
Proof.
  unfold text_field, read_row, csv_columns, field. cbn [forallb].
  destruct (assoc "question_text" r) as [[?|]|]; try discriminate.
  destruct (assoc "option_a" r) as [[?|]|]; try discriminate.
  destruct (assoc "option_b" r) as [[?|]|]; try discriminate.
  destruct (assoc "option_c" r) as [[?|]|]; try discriminate.
  destruct (assoc "option_d" r) as [[?|]|]; try discriminate.
  destruct (assoc "correct_answer" r) as [[?|]|]; try discriminate.
  intros Ht Ha Hb Hc Hd Hans.
  injection Ht as ->. injection Ha as ->. injection Hb as ->.
  injection Hc as ->. injection Hd as ->. injection Hans as ->.
  cbn [andb negb bind].
  destruct (existsb (String.eqb (upper answer)) ["A"; "B"; "C"; "D"]) eqn:Ekey;
    cbn [negb bind]; split.
  - intros _. split; [reflexivity|now apply existsb_In_keys].
  - intros Hnot. exfalso. apply Hnot, upper_key. now apply existsb_In_keys.
  - intros Hin. apply upper_key in Hin. exfalso.
    assert (Hex : existsb (String.eqb (upper answer)) ["A"; "B"; "C"; "D"] = true).
    { apply existsb_exists. exists (upper answer). split; [exact Hin|].
      apply String.eqb_refl. }
    congruence.
  - intros _. reflexivity.
Qed.

(** ** Listing the quizzes of a teacher *)

Section Listing.
Context {P : Platform}.



End Listing.

(** ** More on submitting *)

Lemma grade_not_mapping answers q qs acc :
  (forall m, answers <> JObj m) ->
  grade (q :: qs) answers acc = Raise AttributeError.
Proof.
  intros Hnot. simpl. destruct answers; try reflexivity. now destruct (Hnot m).
Qed.

Lemma find_map_same {A : Type} (p : A -> bool) (f : A -> A) (l : list A) :
  (forall x, In x l -> p (f x) = p x) ->
  find p (map f l) = option_map f (find p l).
Proof.
  induction l as [|x l IH]; simpl; intros Hp; [reflexivity|].
  rewrite (Hp x (or_introl eq_refl)).
  destruct (p x); [reflexivity|]. apply IH. intros y Hy. apply Hp. now right.
Qed.

(** After the grading, under unique keys, the row of the pair is the
    graded one. *)
Lemma attempt_of_graded st quiz_id student_id attempt score total now :
  attempts_unique st ->
  active_attempt_of st quiz_id student_id = Some attempt ->
  attempt_of (update_attempt st (graded attempt score total now)) quiz_id student_id
  = Some (graded attempt score total now).
Proof.
  intros [Hid Hkey] Hactive.
  apply active_attempt_of_some in Hactive. destruct Hactive as [Hin [Hq [Hs _]]].
  unfold attempt_of. simpl. rewrite find_map_same.
  - assert (Hfind : find (fun a => (Attempt.quiz_id a =? quiz_id)
                                   && (Attempt.student_id a =? student_id))
                         (attempts st) = Some attempt).
    { destruct (find _ (attempts st)) as [x|] eqn:Hx.
      - apply find_some in Hx. destruct Hx as [Hxin Hx].
        apply andb_true_iff in Hx. destruct Hx as [Hxq Hxs].
        apply Z.eqb_eq in Hxq, Hxs. f_equal.
        apply (NoDup_map_In_eq attempt_key (attempts st)); auto.
        unfold attempt_key. congruence.
      - apply (find_none _ _ Hx) in Hin. subst.
        now rewrite !Z.eqb_refl in Hin. }
    rewrite Hfind. simpl. now rewrite Z.eqb_refl.
  - intros x Hx. simpl. destruct (Attempt.id x =? Attempt.id attempt) eqn:E;
      [|reflexivity].
    apply Z.eqb_eq in E.
    assert (x = attempt) by (apply (NoDup_map_In_eq Attempt.id (attempts st)); auto).
    now subst x.
Qed.

(** X17: a submission that is not well formed.  For a student with an
    unfinished attempt: a body that is not a JSON object fails outside the
    [try] and is answered 500; a body whose ["answers"] is not a mapping is
    answered 400 when the quiz has a question, and in both cases the
    attempt stays unfinished, so the student can submit again; but for a
    quiz without questions the answers are never looked at, and the same
    body finishes the attempt with 0 out of 0. *)
Theorem submit_quiz_attempt_malformed
  (st : db) (now : Z) (current_user : User.t) (quiz_id : Z) (attempt : Attempt.t) :
  User.role current_user = "student" ->
  active_attempt_of st quiz_id (User.id current_user) = Some attempt ->
  (forall data,
      (forall fields, data <> JObj fields) ->
      submit_quiz_attempt st now current_user quiz_id data
      = (st, (Unhandled AttributeError, 500)))
  /\ (forall fields answers,
        assoc "answers" fields = Some answers ->
        (forall m, answers <> JObj m) ->
        (questions_of st quiz_id <> [] ->
         submit_quiz_attempt st now current_user quiz_id (JObj fields)
         = (st, (Failure "Error submitting quiz: " AttributeError, 400)))
        /\ (questions_of st quiz_id = [] ->
            submit_quiz_attempt st now current_user quiz_id (JObj fields)
            = (update_attempt st (graded attempt 0 0 now),
               (Json (JObj [("score", JNum 0); ("totalQuestions", JNum 0)]), 200)))).
Proof.
  intros Hrole Hactive. unfold submit_quiz_attempt.
  rewrite (role_check _ _ Hrole), Hactive. split.
  - intros data Hnot. destruct data; try reflexivity. now destruct (Hnot m).
  - intros fields answers Hanswers Hnot. simpl. rewrite Hanswers.
    unfold grade_attempt. split; intros Hquestions.
    + destruct (questions_of st quiz_id) as [|q qs]; [contradiction|].
      now rewrite grade_not_mapping.
    + rewrite Hquestions. reflexivity.
Qed.

(** X18: the three states of an attempt.  For a student with no attempt
    on an open quiz, under unique keys: before the start a submission is
    answered 404; the start is answered 201; a submission with an answers
    mapping is then answered 200; and from then on every start is answered
    400 and every submission 404, with the database unchanged. *)
Theorem attempt_goes_through_three_states
  (st : db) (now now' : Z) (current_user : User.t) (quiz_id : Z) (quiz : Quiz.t)
  (fields answers : list (string * json)) :
  User.role current_user = "student" ->
  attempts_unique st ->
  get_quiz st quiz_id = Some quiz ->
  attempts_for st quiz_id (User.id current_user) = [] ->
  Quiz.start_time quiz <= now ->
  assoc "answers" fields = Some (JObj answers) ->
  let started := fst (start_quiz_attempt st now current_user quiz_id) in
  let finished :=
    fst (submit_quiz_attempt started now' current_user quiz_id (JObj fields)) in
  (forall data,
      submit_quiz_attempt st now current_user quiz_id data
      = (st, (error "No active attempt found", 404)))
  /\ snd (snd (start_quiz_attempt st now current_user quiz_id)) = 201
  /\ snd (snd (submit_quiz_attempt started now' current_user quiz_id (JObj fields))) = 200
  /\ (forall t,
        start_quiz_attempt finished t current_user quiz_id
        = (finished, (error "Quiz already attempted", 400)))
  /\ (forall t data,
        submit_quiz_attempt finished t current_user quiz_id data
        = (finished, (error "No active attempt found", 404))).
Proof.
  intros Hrole Hunique Hquiz Hnone Hopen Hanswers started finished.
  pose proof (get_quiz_id _ _ _ Hquiz) as Hid.
  apply attempt_of_attempts_for in Hnone.
  assert (Hinactive : active_attempt_of st quiz_id (User.id current_user) = None).
  { apply active_attempt_of_none. intros a Ha Hq Hs. exfalso.
    eapply attempt_of_found; eauto. }
  assert (Hstarted : started = snd (insert_attempt st now quiz_id (User.id current_user))).
  { unfold started, start_quiz_attempt.
    rewrite (role_check _ _ Hrole), (session_get_quiz_some _ _ _ Hquiz), Hid, Hnone.
    apply Z.ltb_ge in Hopen. now rewrite Hopen. }
  assert (Hstatus : snd (snd (start_quiz_attempt st now current_user quiz_id)) = 201).
  { unfold start_quiz_attempt.
    rewrite (role_check _ _ Hrole), (session_get_quiz_some _ _ _ Hquiz), Hid, Hnone.
    apply Z.ltb_ge in Hopen. now rewrite Hopen. }
  set (new_attempt := Attempt.mk (next_id (map Attempt.id (attempts st))) quiz_id
                                 (User.id current_user) None None now None false).
  assert (Hactive : active_attempt_of started quiz_id (User.id current_user)
                    = Some new_attempt).
  { rewrite Hstarted. unfold active_attempt_of. simpl.
    rewrite find_app_none by exact Hinactive. simpl. now rewrite !Z.eqb_refl. }
  assert (Hunique' : attempts_unique started).
  { destruct Hunique as [Huid Hkey]. rewrite Hstarted. unfold attempts_unique. simpl.
    rewrite !map_app. simpl. split.
    - apply NoDup_snoc; [exact Huid|apply next_id_fresh].
    - apply NoDup_snoc; [exact Hkey|now apply attempt_of_none_key]. }
  destruct (grade (questions_of started quiz_id) (JObj answers) 0) as [score|e] eqn:Hg.
  2:{ exfalso. clear - Hg. revert Hg. generalize 0.
      induction (questions_of started quiz_id) as [|q qs IH]; simpl; intros acc Hg;
        [discriminate|].
      destruct (assoc (str (Question.id q)) answers); simpl in Hg; eapply IH; eauto. }
  assert (Hsubmit : submit_quiz_attempt started now' current_user quiz_id (JObj fields)
                    = (update_attempt started
                         (graded new_attempt score
                                 (Z.of_nat (length (questions_of started quiz_id))) now'),
                       (Json (JObj [("score", JNum score);
                                    ("totalQuestions",
                                     JNum (Z.of_nat (length (questions_of started quiz_id))))]),
                        200))).
  { eapply submit_quiz_attempt_graded; eauto. simpl. now rewrite Hanswers. }
  assert (Hfinished : finished
                      = update_attempt started
                          (graded new_attempt score
                                  (Z.of_nat (length (questions_of started quiz_id))) now'))
    by (unfold finished; now rewrite Hsubmit).
  split; [|split; [exact Hstatus|split; [now rewrite Hsubmit|split]]].
  - intros data. unfold submit_quiz_attempt.
    now rewrite (role_check _ _ Hrole), Hinactive.
  - intros t. unfold start_quiz_attempt. rewrite (role_check _ _ Hrole).
    assert (Hquiz' : get_quiz finished quiz_id = Some quiz)
      by (rewrite Hfinished, Hstarted; exact Hquiz).
    rewrite (session_get_quiz_some _ _ _ Hquiz'), Hid. rewrite Hfinished at 1.
    now rewrite (attempt_of_graded started quiz_id (User.id current_user) new_attempt
                   _ _ _ Hunique' Hactive).
  - intros t data. unfold submit_quiz_attempt. rewrite (role_check _ _ Hrole).
    rewrite Hfinished at 1.
    now rewrite (update_attempt_no_active started quiz_id (User.id current_user)
                   new_attempt _ _ _ Hunique' Hactive).
Qed.

Section StudentListing.
Context {P : Platform}.

(** X19: the student's list of quizzes.  A student is listed every quiz
    of every teacher; the entry of a quiz has a null ["attempt"] exactly
    when the student has no attempt on it, which is when a start is not
    refused as "already attempted"; and after a submission answered 200,
    under unique keys, the entry of that quiz shows the stored score and
    total with [finished] true. *)
Theorem student_quizzes_show_attempts
  (st : db) (now : Z) (current_user : User.t) (q : Quiz.t) (data : json) :
  User.role current_user = "student" ->
  get_student_quizzes st current_user
  = (st, (Json (JArr (map (student_quiz st current_user) (quizzes st))), 200))
  /\ (getitem (student_quiz st current_user q) "attempt" = Ok JNull
      <-> attempts_for st (Quiz.id q) (User.id current_user) = [])
  /\ (attempts_unique st ->
      snd (snd (submit_quiz_attempt st now current_user (Quiz.id q) data)) = 200 ->
      exists score total,
        snd (submit_quiz_attempt st now current_user (Quiz.id q) data)
        = (Json (JObj [("score", JNum score); ("totalQuestions", JNum total)]), 200)
        /\ getitem (student_quiz
                      (fst (submit_quiz_attempt st now current_user (Quiz.id q) data))
                      current_user q) "attempt"
           = Ok (JObj [("score", JNum score); ("totalQuestions", JNum total);
                       ("finished", JBool true)])).
Proof.
  intros Hrole. split; [|split].
  - unfold get_student_quizzes. now rewrite (role_check _ _ Hrole).
  - rewrite <- attempt_of_attempts_for. unfold student_quiz. simpl.
    destruct (attempt_of st (Quiz.id q) (User.id current_user)); simpl;
      split; intros Heq; try reflexivity; discriminate Heq.
  - intros Hunique Hok.
    assert (Hgraded : exists attempt answers score,
               active_attempt_of st (Quiz.id q) (User.id current_user) = Some attempt
               /\ get_default data "answers" (JObj []) = Ok answers
               /\ grade (questions_of st (Quiz.id q)) answers 0 = Ok score).
    { unfold submit_quiz_attempt in Hok. rewrite (role_check _ _ Hrole) in Hok.
      destruct (active_attempt_of st (Quiz.id q) (User.id current_user))
        as [attempt|] eqn:Ha; [|discriminate Hok].
      destruct (get_default data "answers" (JObj [])) as [answers|e] eqn:Hd;
        [|discriminate Hok].
      unfold grade_attempt in Hok.
      destruct (grade (questions_of st (Quiz.id q)) answers 0) as [score|e] eqn:Hg;
        [|discriminate Hok].
      exists attempt, answers, score. repeat split; assumption || reflexivity. }
    destruct Hgraded as [attempt [answers [score [Hactive [Hdata Hgrade]]]]].
    rewrite (submit_quiz_attempt_graded st now current_user (Quiz.id q) attempt data
               answers score Hrole Hactive Hdata Hgrade).
    exists score, (Z.of_nat (length (questions_of st (Quiz.id q)))).
    split; [reflexivity|]. cbn [fst]. unfold student_quiz.
    now rewrite (attempt_of_graded st (Quiz.id q) (User.id current_user) attempt
                   _ _ _ Hunique Hactive).
Qed.

End StudentListing.

(** ** Accounts and sessions *)

Section AccountProperties.
Context {P : Platform} {B : Hasher}.

Lemma handle_users st now u r : users (fst (handle st now u r)) = users st.
Proof.
  destruct (handle_effect st now u r) as [-> | [Hchange | Himport]]; [reflexivity| |].
  - now destruct Hchange.
  - now destruct Himport as [quiz [added [_ [_ [_ [-> _]]]]]].
Qed.

(** A request leaves the accounts as they are, or appends one user, with
    a fresh id, an email no user had and a hash that checks against the
    password of the body; the other tables are then as before. *)
Lemma serve_accounts a now salt session rt :
  (users (store (fst (fst (serve a now salt session rt)))) = users (store a)
   /\ password_hash (fst (fst (serve a now salt session rt))) = password_hash a)
  \/ exists email role pw_hash,
       user_by_email (store a) email = None
       /\ fst (fst (serve a now salt session rt))
          = mk_app (set_users (store a)
                      (users (store a)
                       ++ [User.mk (next_id (map User.id (users (store a)))) email role]))
                   (password_hash a
                    ++ [(next_id (map User.id (users (store a))), pw_hash)]).
Proof.
  destruct rt as [data|data| | | |r]; simpl.
  - unfold register.
    destruct (missing_fields data _) as [[|]|e]; try (left; now split).
    destruct (new_account a salt session data) as [[[a' s'] r']|e] eqn:E;
      [|left; now split].
    unfold new_account in E.
    destruct (getitem data "email") as [email|]; simpl in E; [|discriminate E].
    destruct (column_text email) as [known|] eqn:Hknown; simpl in E; [|discriminate E].
    destruct (user_by_email (store a) known) eqn:Hfree.
    + inversion E; subst. left. now split.
    + monad_inv E. right. simpl. eauto.
  - unfold login.
    destruct (missing_fields data _) as [[|]|e]; try (left; now split).
    destruct (authenticate a session data) as [[[a' s'] r']|e] eqn:E; [|left; now split].
    unfold authenticate in E.
    destruct (getitem data "email") as [email|]; simpl in E; [|discriminate E].
    destruct (column_text email) as [known|]; simpl in E; [|discriminate E].
    destruct (user_by_email (store a) known).
    + monad_inv E; left; now split.
    + inversion E; subst. left. now split.
  - unfold logout, login_required. destruct (load_user a session); left; now split.
  - unfold check_session. destruct (load_user a session); left; now split.
  - unfold protected, login_required. destruct (load_user a session) as [u|];
      [|left; now split].
    unfold get_student_quizzes. destruct (negb _); left; now split.
  - unfold protected, login_required. destruct (load_user a session) as [u|];
      [|left; now split].
    destruct (handle (store a) now u r) as [st' resp] eqn:E. simpl.
    left. split; [|reflexivity].
    change st' with (fst (st', resp)). rewrite <- E. apply handle_users.
Qed.

Lemma user_by_email_none_email st email :
  user_by_email st email = None -> ~ In email (map User.email (users st)).
Proof.
  intros Hnone Hin. apply in_map_iff in Hin. destruct Hin as [u [<- Hu]].
  apply (find_none _ _ Hnone) in Hu. now rewrite String.eqb_refl in Hu.
Qed.

(** X21: in every state of the application, user ids are unique, no two
    users have the same email, and the hash column has exactly one entry
    per user. *)
Theorem app_accounts_sound (a : app) : app_reachable a -> accounts_sound a.
Proof.
  induction 1 as [|a now salt session rt _ IH].
  - unfold accounts_sound. simpl. repeat split; constructor.
  - destruct IH as [Hid [Hemail Hhash]].
    destruct (serve_accounts a now salt session rt)
      as [[Husers Hhashes] | [email [role [pw_hash [Hfree ->]]]]].
    + unfold accounts_sound. now rewrite Husers, Hhashes.
    + unfold accounts_sound. simpl. rewrite !map_app. simpl. repeat split.
      * apply NoDup_snoc; [exact Hid|apply next_id_fresh].
      * apply NoDup_snoc; [exact Hemail|now apply user_by_email_none_email].
      * now rewrite Hhash.
Qed.

End AccountProperties.

Lemma change_students_known now u st st' :
  change now u st st' ->
  get_user st (User.id u) <> None ->
  students_known st ->
  get_user st' (User.id u) <> None /\ students_known st'.
Proof.
  intros Hchange Hu [Hattempts Hlogs].
  destruct Hchange as [title start_time duration Hrole
                      |quiz Hrole Hquiz Howner
                      |quiz text a b c d correct Hrole Hquiz Howner
                      |quiz Hrole Hquiz Hnone Hopen
                      |attempt score Hrole Hactive Hscore
                      |quiz_id event_type question_number Hrole];
    (split; [exact Hu|]); split; try assumption.
  - intros x Hx. simpl in Hx. apply filter_In in Hx. now apply Hattempts.
  - intros x Hx. simpl in Hx. apply filter_In in Hx. now apply Hlogs.
  - intros x Hx. simpl in Hx. apply in_app_or in Hx.
    destruct Hx as [Hx|[<-|[]]]; [now apply Hattempts|exact Hu].
  - intros x Hx. simpl in Hx. apply in_map_iff in Hx. destruct Hx as [y [Hxy Hy]].
    destruct (Attempt.id y =? _); [|subst x; now apply Hattempts].
    subst x. apply active_attempt_of_some in Hactive. destruct Hactive as [Hin _].
    exact (Hattempts attempt Hin).
  - intros x Hx. simpl in Hx. apply in_app_or in Hx.
    destruct Hx as [Hx|[<-|[]]]; [now apply Hlogs|exact Hu].
Qed.

Section AppInvariants.
Context {P : Platform} {B : Hasher}.

(** The store after a request is the store before, or has one more user,
    or is what a view under [login_required] makes of it for the user of
    the session. *)
Lemma serve_store a now salt session rt :
  store (fst (fst (serve a now salt session rt))) = store a
  \/ (exists new_user,
         store (fst (fst (serve a now salt session rt)))
         = set_users (store a) (users (store a) ++ [new_user]))
  \/ (exists u r,
         load_user a session = Some u
         /\ store (fst (fst (serve a now salt session rt)))
            = fst (handle (store a) now u r)).
Proof.
  destruct (serve_accounts a now salt session rt)
    as [_ | [email [role [pw_hash [_ Hnew]]]]].
  - destruct rt as [data|data| | | |r]; simpl.
    + unfold register.
      destruct (missing_fields data _) as [[|]|e]; try now left.
      destruct (new_account a salt session data) as [[[a' s'] r']|e] eqn:E; [|now left].
      unfold new_account in E.
      destruct (getitem data "email") as [email|]; simpl in E; [|discriminate E].
      destruct (column_text email) as [known|]; simpl in E; [|discriminate E].
      destruct (user_by_email (store a) known).
      * inversion E; subst. now left.
      * monad_inv E. right; left. simpl. eauto.
    + unfold login.
      destruct (missing_fields data _) as [[|]|e]; try now left.
      destruct (authenticate a session data) as [[[a' s'] r']|e] eqn:E; [|now left].
      unfold authenticate in E.
      destruct (getitem data "email") as [email|]; simpl in E; [|discriminate E].
      destruct (column_text email) as [known|]; simpl in E; [|discriminate E].
      destruct (user_by_email (store a) known).
      * monad_inv E; now left.
      * inversion E; subst. now left.
    + unfold logout, login_required. destruct (load_user a session); now left.
    + unfold check_session. destruct (load_user a session); now left.
    + unfold protected, login_required. destruct (load_user a session) as [u|];
        [|now left].
      unfold get_student_quizzes. destruct (negb _); now left.
    + unfold protected, login_required.
      destruct (load_user a session) as [u|] eqn:Hu; [|now left].
      right; right. exists u, r. split; [reflexivity|].
      now destruct (handle (store a) now u r).
  - right; left. rewrite Hnew. simpl. eauto.
Qed.

Lemma load_user_known a session u :
  load_user a session = Some u -> get_user (store a) (User.id u) = Some u.
Proof.
  unfold load_user. destruct session as [user_id|]; [|discriminate].
  intros Hu. pose proof Hu as Hfound. apply find_some in Hfound.
  destruct Hfound as [_ Hid]. apply Z.eqb_eq in Hid. now rewrite Hid.
Qed.

(** The invariants of the tables hold in every state of the application. *)
Lemma app_invariants a :
  app_reachable a ->
  keys_unique (store a)
  /\ rows_belong (store a)
  /\ attempts_unique (store a)
  /\ students_known (store a)
  /\ (forall x, In x (attempts (store a)) -> attempt_scored x).
Proof.
  induction 1 as [|a now salt session rt _ IH].
  - simpl. unfold keys_unique, rows_belong, attempts_unique, students_known. simpl.
    repeat split; try constructor; intros x [].
  - destruct IH as [Hkeys [Hbelong [Hunique [Hknown Hscored]]]].
    destruct (serve_store a now salt session rt)
      as [-> | [[new_user ->] | [u [r [Hu ->]]]]].
    + exact (conj Hkeys (conj Hbelong (conj Hunique (conj Hknown Hscored)))).
    + split; [exact Hkeys|]. split; [exact Hbelong|]. split; [exact Hunique|].
      split; [|exact Hscored].
      destruct Hknown as [Hattempts Hlogs]. split.
      * intros x Hx. specialize (Hattempts x Hx). unfold get_user in *. simpl.
        destruct (find _ (users (store a))) as [found|] eqn:Hf; [|contradiction].
        now rewrite (find_app_some _ _ _ _ Hf).
      * intros x Hx. specialize (Hlogs x Hx). unfold get_user in *. simpl.
        destruct (find _ (users (store a))) as [found|] eqn:Hf; [|contradiction].
        now rewrite (find_app_some _ _ _ _ Hf).
    + pose proof (handle_changes_steps (store a) now u r) as Hchanges.
      apply load_user_known in Hu.
      assert (Hu' : get_user (store a) (User.id u) <> None) by now rewrite Hu.
      split; [|split; [|split; [|split]]].
      * exact (changes_invariant keys_unique now u (change_keys_unique now u)
                 _ _ Hchanges Hkeys).
      * exact (changes_invariant rows_belong now u (change_rows_belong now u)
                 _ _ Hchanges Hbelong).
      * now apply handle_attempts_unique.
      * apply (changes_invariant
                 (fun s => get_user s (User.id u) <> None /\ students_known s) now u)
          with (st := store a); auto.
        intros s s' Hchange [Hs1 Hs2]. now apply (change_students_known now u s s').
      * exact (changes_invariant
                 (fun s => forall x, In x (attempts s) -> attempt_scored x) now u
                 (change_attempts_scored now u) _ _ Hchanges Hscored).
Qed.

(** X26: the tables of the application.  In every state the
    application reaches from the empty database, primary keys are unique,
    every question and attempt belongs to an existing quiz, a (quiz,
    student) pair has at most one attempt, the students of attempts and
    proctor events are registered users, and an attempt is finished
    exactly when it has a score, which lies between zero and its total. *)
Theorem app_tables_sound (a : app) :
  app_reachable a ->
  keys_unique (store a)
  /\ rows_belong (store a)
  /\ attempts_unique (store a)
  /\ students_known (store a)
  /\ (forall x, In x (attempts (store a)) -> attempt_scored x).
Proof. apply app_invariants. Qed.

(** X25: the detail view fails on no quiz id of the database.  In every
    state of the application, [manage_quiz_details] answers 500 only when
    the quiz id is no SQLite integer, the lookup of the quiz raising; to a
    quiz id that is one it never answers 500: the students whose email it
    reads exist. *)
Theorem quiz_detail_never_fails
  (a : app) (current_user : User.t) (m : method) (quiz_id : Z) :
  app_reachable a ->
  let response := snd (manage_quiz_details (store a) current_user m quiz_id) in
  (snd response = 500 ->
   fst response = Unhandled OverflowError
   /\ get_quiz (store a) quiz_id = None
   /\ ~ (- 2 ^ 63 <= quiz_id < 2 ^ 63))
  /\ (- 2 ^ 63 <= quiz_id < 2 ^ 63 -> snd response <> 500)
  /\ (get_quiz (store a) quiz_id <> None -> snd response <> 500).
Proof.
  intros Hreach response.
  destruct (app_invariants a Hreach) as [_ [_ [_ [[Hattempts Hlogs] _]]]].
  assert (Hdetail : forall quiz, exists rs ls r,
             quiz_detail (store a) quiz = Ok (Json (JObj [("id", JNum (Quiz.id quiz));
                                                          ("title", JStr (Quiz.title quiz));
                                                          ("questions", JArr r);
                                                          ("results", JArr rs);
                                                          ("proctorLogs", JArr ls)]), 200)).
  { intros quiz. destruct (quiz_detail_total (store a) quiz) as [rs [ls ->]]; [|eauto].
    split.
    - intros x Hx. apply Hattempts. unfold attempts_of in Hx. now apply filter_In in Hx.
    - intros x Hx. apply Hlogs. unfold logs_of in Hx. now apply filter_In in Hx. }
  assert (Hfails : snd response = 500 ->
                   fst response = Unhandled OverflowError
                   /\ get_quiz (store a) quiz_id = None
                   /\ ~ (- 2 ^ 63 <= quiz_id < 2 ^ 63)).
  { subst response. unfold manage_quiz_details.
    destruct m; [|discriminate|];
      (destruct (session_get_quiz (store a) quiz_id) as [[quiz|]|e] eqn:Hget;
       [| discriminate
        | intros _; apply session_get_quiz_raise in Hget;
          destruct Hget as [Hnone [Hout ->]]; now repeat split]).
    - destruct (_ && _); [discriminate|].
      destruct (Hdetail quiz) as [rs [ls [r ->]]]. discriminate.
    - destruct (negb _); [discriminate|]. destruct (negb _); discriminate. }
  split; [exact Hfails|]. split.
  - intros Hrange Hstatus. now destruct (Hfails Hstatus) as [_ [_ Hout]].
  - intros Hfound Hstatus. now destruct (Hfails Hstatus) as [_ [Hnone _]].
Qed.

(** A request of the application leaves it as it is, registers one user,
    or is a request of the user of the session to one of the seven routes
    of [handle], with the effect of [handle_effect]. *)
Lemma serve_effect a now salt session rt :
  fst (fst (serve a now salt session rt)) = a
  \/ (exists data email role pw_hash,
         rt = Register data
         /\ user_by_email (store a) email = None
         /\ fst (fst (serve a now salt session rt))
            = mk_app (set_users (store a)
                        (users (store a)
                         ++ [User.mk (next_id (map User.id (users (store a)))) email role]))
                     (password_hash a
                      ++ [(next_id (map User.id (users (store a))), pw_hash)]))
  \/ (exists u r,
         rt = Api r
         /\ load_user a session = Some u
         /\ fst (fst (serve a now salt session rt))
            = mk_app (fst (handle (store a) now u r)) (password_hash a)).
Proof.
  destruct rt as [data|data| | | |r]; simpl.
  - unfold register.
    destruct (missing_fields data _) as [[|]|e]; try now left.
    destruct (new_account a salt session data) as [[[a' s'] r']|e] eqn:E; [|now left].
    unfold new_account in E.
    destruct (getitem data "email") as [email|]; simpl in E; [|discriminate E].
    destruct (column_text email) as [known|] eqn:Hknown; simpl in E; [|discriminate E].
    destruct (user_by_email (store a) known) eqn:Hfree.
    + inversion E; subst. now left.
    + monad_inv E. right; left. simpl. eauto 10.
  - unfold login.
    destruct (missing_fields data _) as [[|]|e]; try now left.
    destruct (authenticate a session data) as [[[a' s'] r']|e] eqn:E; [|now left].
    unfold authenticate in E.
    destruct (getitem data "email") as [email|]; simpl in E; [|discriminate E].
    destruct (column_text email) as [known|]; simpl in E; [|discriminate E].
    destruct (user_by_email (store a) known).
    + monad_inv E; now left.
    + inversion E; subst. now left.
  - unfold logout, login_required. destruct (load_user a session); now left.
  - unfold check_session. destruct (load_user a session); now left.
  - unfold protected, login_required. destruct (load_user a session) as [u|];
      [|now left].
    unfold get_student_quizzes. destruct (negb _); left; now destruct a.
  - unfold protected, login_required.
    destruct (load_user a session) as [u|] eqn:Hu; [|now left].
    right; right. exists u, r. repeat split.
    now destruct (handle (store a) now u r).
Qed.

(** X1: every request of the application, whatever its route, leaves the
    application as it is, or makes one change.  The registration appends
    one user, with a fresh id and an email no user had, and the hash of
    that user; the other tables are as before.  A request of the
    logged-in user to one of the seven quiz routes makes one of six
    changes under the conditions the views test (a quiz created or a quiz
    deleted with its rows by its teacher, a question added to a teacher's
    own quiz, an attempt started by a student with none on an open quiz, an
    unfinished attempt of the requesting student graded with a score
    between zero and the number of questions, a proctor event appended by a
    student), or, for a CSV import, appends questions to a quiz the
    requesting teacher owns; users and hashes are then as before. *)
Theorem request_effect
  (a : app) (now : Z) (salt : string) (session : option Z) (rt : route) :
  let a' := fst (fst (serve a now salt session rt)) in
  a' = a
  \/ (exists data new_user pw_hash,
         rt = Register data
         /\ User.id new_user = next_id (map User.id (users (store a)))
         /\ user_by_email (store a) (User.email new_user) = None
         /\ users (store a') = (users (store a) ++ [new_user])%list
         /\ quizzes (store a') = quizzes (store a)
         /\ questions (store a') = questions (store a)
         /\ attempts (store a') = attempts (store a)
         /\ proctor_logs (store a') = proctor_logs (store a)
         /\ password_hash a' = (password_hash a ++ [(User.id new_user, pw_hash)])%list)
  \/ (exists u r,
         rt = Api r
         /\ load_user a session = Some u
         /\ password_hash a' = password_hash a
         /\ users (store a') = users (store a)
         /\ (change now u (store a) (store a')
             \/ exists quiz added,
                  User.role u = "teacher"
                  /\ get_quiz (store a) (Quiz.id quiz) = Some quiz
                  /\ Quiz.teacher_id quiz = User.id u
                  /\ questions (store a') = (questions (store a) ++ added)%list
                  /\ quizzes (store a') = quizzes (store a)
                  /\ attempts (store a') = attempts (store a)
                  /\ proctor_logs (store a') = proctor_logs (store a)
                  /\ Forall (fun q => Question.quiz_id q = Quiz.id quiz) added)).
Proof.
  intros a'. subst a'.
  destruct (serve_effect a now salt session rt)
    as [-> | [[data [email [role [pw_hash [Hrt [Hfree ->]]]]]] | [u [r [Hrt [Hu ->]]]]]].
  - now left.
  - right; left.
    exists data, (User.mk (next_id (map User.id (users (store a)))) email role), pw_hash.
    simpl. now repeat split.
  - destruct (handle_effect (store a) now u r) as [Hsame | [Hchange | Himport]].
    + left. rewrite Hsame. now destruct a.
    + right; right. exists u, r. simpl. repeat split; auto using handle_users.
    + right; right. exists u, r. simpl. repeat split; auto using handle_users.
      right. destruct Himport as [quiz [added [Hrole [Hquiz [Howner [-> Hadded]]]]]].
      exists quiz, added. simpl. now repeat split.
Qed.

(** X5: the roles write disjoint tables.  No request but a registration
    changes the user table or the hashes; only a request of a logged-in
    teacher changes quizzes or questions; a request of anyone but a
    logged-in student adds or rewrites no attempt and no proctor event (it
    can only remove them, with their quiz); and a request whose user is
    neither a teacher nor a student, or is not logged in, changes no table
    but, by registering, the users. *)
Theorem roles_write_their_tables
  (a : app) (now : Z) (salt : string) (session : option Z) (rt : route) :
  let st := store a in
  let st' := store (fst (fst (serve a now salt session rt))) in
  ((forall data, rt <> Register data) ->
   users st' = users st
   /\ password_hash (fst (fst (serve a now salt session rt))) = password_hash a)
  /\ ((forall u, load_user a session = Some u -> User.role u <> "teacher") ->
      quizzes st' = quizzes st /\ questions st' = questions st)
  /\ ((forall u, load_user a session = Some u -> User.role u <> "student") ->
      (exists keep, attempts st' = filter keep (attempts st))
      /\ (exists keep, proctor_logs st' = filter keep (proctor_logs st)))
  /\ ((forall u, load_user a session = Some u ->
                 User.role u <> "teacher" /\ User.role u <> "student") ->
      quizzes st' = quizzes st /\ questions st' = questions st
      /\ attempts st' = attempts st /\ proctor_logs st' = proctor_logs st).
Proof.
  intros st st'. subst st st'.
  assert (Hsame : forall s : db,
             (exists keep, attempts s = filter keep (attempts s))
             /\ (exists keep, proctor_logs s = filter keep (proctor_logs s))).
  { intros s. split; exists (fun _ => true); now rewrite filter_all. }
  destruct (serve_effect a now salt session rt)
    as [-> | [[data [email [role [pw_hash [Hrt [Hfree ->]]]]]] | [u [r [Hrt [Hu ->]]]]]].
  - repeat split; auto; apply Hsame.
  - simpl. split; [intros Hnot; now elim (Hnot data)|].
    repeat split; apply (Hsame (store a)).
  - simpl.
    destruct (handle_effect (store a) now u r) as [-> | [Hchange | Himport]].
    + repeat split; auto; apply Hsame.
    + split; [intros _; split; [apply handle_users|reflexivity]|].
      destruct Hchange as [title start_time duration Hrole
                          |quiz Hrole Hquiz Howner
                          |quiz text q1 q2 q3 q4 correct Hrole Hquiz Howner
                          |quiz Hrole Hquiz Hnone Hopen
                          |attempt score Hrole Hactive Hscore
                          |quiz_id event_type question_number Hrole];
        (split; [intros Hnot; try (now elim (Hnot u Hu)); split; reflexivity|]);
        (split; [intros Hnot; try (now elim (Hnot u Hu))|
                 intros Hnot; destruct (Hnot u Hu) as [Hnot1 Hnot2]; contradiction]);
        try apply (Hsame (store a)).
      simpl. split; eexists; reflexivity.
    + split; [intros _; split; [apply handle_users|reflexivity]|].
      destruct Himport as [quiz [added [Hrole [_ [_ [-> _]]]]]].
      repeat split; try apply (Hsame (store a));
        intros; match goal with
                | Hnot : forall u, load_user _ _ = Some u -> _ |- _ =>
                    pose proof (Hnot u Hu); tauto
                end.
Qed.


End AppInvariants.

Section Credentials.
Context {P : Platform} {B : Hasher}.

(** X20: what [register] refuses.  A body that is null or empty, or a
    JSON object in which ["email"], ["password"] or ["role"] is absent or
    has a false value (null, the empty string, zero), is answered 400
    "Missing required fields"; a body whose email is the email of a user is
    answered 400 "Email already registered".  No user is created and the
    session is kept in both cases. *)
Theorem register_refusals (a : app) (salt : string) (session : option Z) :
  (forall data,
      truthy data = false ->
      register a salt session data = (a, session, (error "Missing required fields", 400)))
  /\ (forall fields key,
        In key ["email"; "password"; "role"] ->
        (assoc key fields = None
         \/ exists v, assoc key fields = Some v /\ truthy v = false) ->
        register a salt session (JObj fields)
        = (a, session, (error "Missing required fields", 400)))
  /\ (forall fields email password role,
        assoc "email" fields = Some (JStr email) -> email <> "" ->
        assoc "password" fields = Some password -> truthy password = true ->
        assoc "role" fields = Some role -> truthy role = true ->
        user_by_email (store a) email <> None ->
        register a salt session (JObj fields)
        = (a, session, (error "Email already registered", 400))).
Proof.
  unfold register, missing_fields. split; [|split].
  - intros data Hfalse. now rewrite Hfalse.
  - intros fields key Hkey Hmissing.
    destruct (truthy (JObj fields)); [|reflexivity]. cbn [negb any_missing get bind].
    assert (Hget : forall k,
               (assoc k fields = None
                \/ exists v, assoc k fields = Some v /\ truthy v = false) ->
               negb (truthy match assoc k fields with Some v => v | None => JNull end)
               = true).
    { intros k [Hk | [v [Hk Hv]]]; rewrite Hk; [reflexivity|now rewrite Hv]. }
    destruct Hkey as [<-|[<-|[<-|[]]]].
    + destruct (assoc "email" fields) eqn:E; cbn [bind];
        specialize (Hget "email"); rewrite E in Hget; now rewrite (Hget Hmissing).
    + destruct (assoc "email" fields) as [v|]; cbn [bind]; [|reflexivity].
      destruct (negb (truthy v)); [reflexivity|].
      destruct (assoc "password" fields) eqn:E; cbn [bind];
        specialize (Hget "password"); rewrite E in Hget; now rewrite (Hget Hmissing).
    + destruct (assoc "email" fields) as [v|]; cbn [bind]; [|reflexivity].
      destruct (negb (truthy v)); [reflexivity|].
      destruct (assoc "password" fields) as [w|]; cbn [bind]; [|reflexivity].
      destruct (negb (truthy w)); [reflexivity|].
      destruct (assoc "role" fields) eqn:E; cbn [bind];
        specialize (Hget "role"); rewrite E in Hget; now rewrite (Hget Hmissing).
  - intros fields email password role Hemail Hnonempty Hpassword Htruthy Hrole Hrole'
           Htaken.
    assert (Hfields : truthy (JObj fields) = true)
      by (destruct fields; [discriminate Hemail|reflexivity]).
    rewrite Hfields. cbn [negb any_missing get bind].
    rewrite Hemail, Hpassword, Hrole. cbn [bind truthy].
    apply String.eqb_neq in Hnonempty. rewrite Hnonempty, Htruthy, Hrole'.
    cbn [negb]. unfold new_account. cbn [getitem]. rewrite Hemail. cbn [bind].
    unfold column_text. rewrite bind_text_str. cbn [bind].
    destruct (user_by_email (store a) email); [reflexivity|contradiction].
Qed.


(** X23: what a login can do.  A login never changes the database.  When
    it is answered 200, the body's email is the email of a user of the
    table, the body's password checks against that user's stored hash, and
    the session it opens is that user's; with any other answer the session
    is the one the request came with. *)
Theorem login_opens_session_by_password
  (a : app) (session : option Z) (data : json) :
  fst (fst (login a session data)) = a
  /\ (snd (snd (login a session data)) = 200 ->
      exists user email password pw_hash,
        In user (users (store a))
        /\ getitem data "email" = Ok email
        /\ bind_text email = Some (User.email user)
        /\ getitem data "password" = Ok password
        /\ hash_of a (User.id user) = Some pw_hash
        /\ check_password_hash pw_hash password = Some true
        /\ snd (fst (login a session data)) = Some (User.id user))
  /\ (snd (snd (login a session data)) <> 200 ->
      snd (fst (login a session data)) = session).
Proof.
  unfold login.
  destruct (missing_fields data _) as [[|]|e];
    try (split; [reflexivity|split; [discriminate|reflexivity]]).
  unfold authenticate.
  destruct (getitem data "email") as [email|] eqn:Hemail; cbn [bind];
    [|split; [reflexivity|split; [discriminate|reflexivity]]].
  unfold column_text.
  destruct (bind_text email) as [known|] eqn:Hknown; cbn [bind];
    [|split; [reflexivity|split; [discriminate|reflexivity]]].
  destruct (user_by_email (store a) known) as [user|] eqn:Huser;
    [|split; [reflexivity|split; [discriminate|reflexivity]]].
  destruct (getitem data "password") as [password|] eqn:Hpassword; cbn [bind];
    [|split; [reflexivity|split; [discriminate|reflexivity]]].
  unfold check_password.
  destruct (hash_of a (User.id user)) as [pw_hash|] eqn:Hhash; cbn [bind];
    [|split; [reflexivity|split; [discriminate|reflexivity]]].
  destruct (check_password_hash pw_hash password) as [[|]|] eqn:Hcheck; cbn [bind];
    try (split; [reflexivity|split; [discriminate|reflexivity]]).
  split; [reflexivity|split; [|intros Hnot; now contradiction Hnot]].
  intros _. apply find_some in Huser. destruct Huser as [Hin Heq].
  apply String.eqb_eq in Heq. subst known.
  exists user, email, password, pw_hash. repeat split; auto.
Qed.

End Credentials.

(** ** The properties on the scenarios *)

Ltac distinct :=
  repeat (constructor; [simpl; intuition discriminate|]); try constructor.

Lemma scenario_authored_keys : keys_unique Scenario.authored.
Proof. unfold keys_unique. simpl. repeat split; distinct. Qed.

Lemma scenario_started_keys : keys_unique Scenario.started.
Proof. unfold keys_unique. simpl. repeat split; distinct. Qed.

Lemma scenario_started_unique : attempts_unique Scenario.started.
Proof. unfold attempts_unique. simpl. split; distinct. Qed.

Lemma scenario_started_belong : rows_belong Scenario.started.
Proof.
  split; intros x Hx; simpl in Hx;
    repeat (destruct Hx as [<-|Hx]; [discriminate|]); contradiction.
Qed.

Lemma play_reachable script : forall a,
  @app_reachable Reference.platform Standin.hasher a ->
  @app_reachable Reference.platform Standin.hasher (fold_left Site.play script a).
Proof.
  induction script as [|[[[now salt] session] rt] script IH]; intros a Ha; [exact Ha|].
  simpl. apply IH. unfold Site.play, Site.serve. now apply app_reachable_step.
Qed.

Lemma site_graded_reachable :
  @app_reachable Reference.platform Standin.hasher Site.graded.
Proof.
  change (@app_reachable Reference.platform Standin.hasher
            (fold_left Site.play Site.script Site.empty)).
  apply play_reachable. apply app_reachable_init.
Qed.

Lemma handle_keys_unique_witness :
  keys_unique Scenario.started
  /\ keys_unique (fst (@handle Reference.platform Scenario.started (Scenario.during + 900)
                         Scenario.student (SubmitQuizAttempt 1 Scenario.answers))).
Proof.
  split; [exact scenario_started_keys|].
  exact (@handle_keys_unique Reference.platform Scenario.started (Scenario.during + 900)
           Scenario.student (SubmitQuizAttempt 1 Scenario.answers) scenario_started_keys).
Defined.

Lemma handle_rows_belong_witness :
  rows_belong Scenario.started
  /\ rows_belong (fst (@handle Reference.platform Scenario.started (Scenario.during + 900)
                         Scenario.teacher (ManageQuizDetails DELETE 1))).
Proof.
  split; [exact scenario_started_belong|].
  exact (@handle_rows_belong Reference.platform Scenario.started (Scenario.during + 900)
           Scenario.teacher (ManageQuizDetails DELETE 1) scenario_started_belong).
Defined.

Lemma reachable_attempts_scored_witness :
  @reachable Reference.platform Scenario.submitted
  /\ attempt_scored (Attempt.mk 1 1 2 (Some 3) (Some 5) Scenario.during
                                (Some (Scenario.during + 900)) true).
Proof.
  assert (Hreach : @reachable Reference.platform Scenario.submitted)
    by exact (@reachable_step Reference.platform Scenario.started (Scenario.during + 900)
                Scenario.student (SubmitQuizAttempt 1 Scenario.answers)
                scenario_started_reachable).
  split; [exact Hreach|].
  apply (@reachable_attempts_scored Reference.platform Scenario.submitted Hreach).
  left. reflexivity.
Defined.

Lemma quiz_untouched_by_others_witness :
  keys_unique Scenario.authored
  /\ Quiz.teacher_id (Quiz.mk 1 "Midterm" Scenario.opening 30 1) <> User.id Site.colleague
  /\ In (Quiz.mk 1 "Midterm" Scenario.opening 30 1)
        (quizzes (fst (@handle Reference.platform Scenario.authored 0 Site.colleague
                         (ManageQuizDetails DELETE 1))))
  /\ questions_of (fst (@handle Reference.platform Scenario.authored 0 Site.colleague
                          (AddQuestionManual 1 (Scenario.question_data "q6" "A")))) 1
     = questions_of Scenario.authored 1.
Proof.
  assert (Hother : Quiz.teacher_id (Quiz.mk 1 "Midterm" Scenario.opening 30 1)
                   <> User.id Site.colleague) by discriminate.
  split; [exact scenario_authored_keys|]. split; [exact Hother|]. split.
  - apply (@quiz_untouched_by_others Reference.platform Scenario.authored 0 Site.colleague
             (ManageQuizDetails DELETE 1) (Quiz.mk 1 "Midterm" Scenario.opening 30 1)
             scenario_authored_keys (or_introl eq_refl) Hother).
  - apply (@quiz_untouched_by_others Reference.platform Scenario.authored 0 Site.colleague
             (AddQuestionManual 1 (Scenario.question_data "q6" "A"))
             (Quiz.mk 1 "Midterm" Scenario.opening 30 1)
             scenario_authored_keys (or_introl eq_refl) Hother).
Defined.

Lemma quizzes_and_questions_immutable_witness :
  keys_unique Scenario.authored
  /\ forall q q',
       In q (quizzes Scenario.authored) ->
       In q' (quizzes (fst (@handle Reference.platform Scenario.authored 0 Scenario.teacher
                              (ManageQuizzes POST Scenario.quiz_data)))) ->
       Quiz.id q' = Quiz.id q -> q' = q.
Proof.
  split; [exact scenario_authored_keys|].
  apply (@quizzes_and_questions_immutable Reference.platform Scenario.authored 0
           Scenario.teacher (ManageQuizzes POST Scenario.quiz_data) scenario_authored_keys).
Defined.

Lemma attempt_row_lifecycle_witness :
  keys_unique Scenario.started
  /\ exists score total,
       0 <= score <= total
       /\ In (graded (Attempt.mk 1 1 2 None None Scenario.during None false) score total
                     (Scenario.during + 900))
             (attempts (fst (@handle Reference.platform Scenario.started
                               (Scenario.during + 900) Scenario.student
                               (SubmitQuizAttempt 1 Scenario.answers)))).
Proof.
  split; [exact scenario_started_keys|].
  destruct (@attempt_row_lifecycle Reference.platform Scenario.started
              (Scenario.during + 900) Scenario.student
              (SubmitQuizAttempt 1 Scenario.answers)
              (Attempt.mk 1 1 2 None None Scenario.during None false)
              scenario_started_keys (or_introl eq_refl))
    as [Hsame | [[_ [_ [_ Hgraded]]] | [Hteacher _]]].
  - exfalso. simpl in Hsame. destruct Hsame as [Heq|[]]. discriminate Heq.
  - exact Hgraded.
  - discriminate Hteacher.
Defined.

Lemma delete_quiz_cascades_witness :
  let st' := fst (@manage_quiz_details Reference.platform Scenario.submitted
                    Scenario.teacher DELETE 1) in
  get_quiz Scenario.submitted 1 = Some (Quiz.mk 1 "Midterm" Scenario.opening 30 1)
  /\ get_quiz st' 1 = None
  /\ attempts_of st' 1 = []
  /\ @manage_quiz_details Reference.platform st' Scenario.student GET 1
     = (st', (error "Quiz not found", 404)).
Proof.
  intros st'. split; [reflexivity|].
  destruct (@delete_quiz_cascades Reference.platform Scenario.submitted Scenario.teacher 1
              (Quiz.mk 1 "Midterm" Scenario.opening 30 1) eq_refl eq_refl eq_refl)
    as [_ [Hquiz [_ [Hattempts [_ [_ [_ Hafter]]]]]]].
  assert (Hrange : - 2 ^ 63 <= 1 < 2 ^ 63) by lia.
  destruct (Hafter Hrange Scenario.student 0) as [Hget _].
  split; [exact Hquiz|]. split; [exact Hattempts|exact Hget].
Defined.

Lemma quiz_writes_refused_witness :
  @manage_quiz_details Reference.platform Scenario.submitted Scenario.student DELETE 1
  = (Scenario.submitted, (error "Not authorized", 403))
  /\ @add_question_manual Reference.platform Scenario.submitted Site.colleague 1
       (Scenario.question_data "q6" "A")
     = (Scenario.submitted, (error "Quiz not found or not authorized", 404))
  /\ @add_question_manual Reference.platform Scenario.submitted Site.colleague 7
       (Scenario.question_data "q6" "A")
     = (Scenario.submitted, (error "Quiz not found or not authorized", 404))
  /\ @add_question_manual Reference.platform Scenario.submitted Site.colleague (2 ^ 63)
       (Scenario.question_data "q6" "A")
     = (Scenario.submitted, (Unhandled OverflowError, 500)).
Proof.
  destruct (@quiz_writes_refused Reference.platform Scenario.submitted Scenario.student 1
              (Quiz.mk 1 "Midterm" Scenario.opening 30 1)
              (Scenario.question_data "q6" "A") None eq_refl)
    as [Hstudent _].
  destruct (@quiz_writes_refused Reference.platform Scenario.submitted Site.colleague 1
              (Quiz.mk 1 "Midterm" Scenario.opening 30 1)
              (Scenario.question_data "q6" "A") None eq_refl)
    as [_ Hcolleague].
  assert (Hrole : User.role Scenario.student <> "teacher") by discriminate.
  assert (Hother : Quiz.teacher_id (Quiz.mk 1 "Midterm" Scenario.opening 30 1)
                   <> User.id Site.colleague) by discriminate.
  assert (Hin : - 2 ^ 63 <= 7 < 2 ^ 63) by lia.
  assert (Hout : ~ (- 2 ^ 63 <= 2 ^ 63 < 2 ^ 63)) by lia.
  destruct (Hstudent Hrole) as [Hdelete _].
  destruct (Hcolleague eq_refl Hother) as [_ [_ [Hadd [_ [Hmissing Hoverflow]]]]].
  destruct (Hmissing 7 eq_refl Hin) as [Hseven _].
  destruct (Hoverflow (2 ^ 63) eq_refl Hout) as [Hlarge _].
  split; [exact Hdelete|]. split; [exact Hadd|]. split; [exact Hseven|exact Hlarge].
Defined.

Lemma scenario_authored_registered : students_registered Scenario.authored 1.
Proof. split; intros x []. Qed.

Lemma quiz_detail_shows_keys_to_students_witness :
  exists results_list logs_list,
    @manage_quiz_details Reference.platform Scenario.authored Scenario.student GET 1
    = (Scenario.authored,
       (Json (JObj [("id", JNum 1);
                    ("title", JStr "Midterm");
                    ("questions",
                     JArr (map question_detail (questions_of Scenario.authored 1)));
                    ("results", JArr results_list);
                    ("proctorLogs", JArr logs_list)]), 200)).
Proof.
  assert (Hstudent : User.role Scenario.student <> "teacher") by discriminate.
  exact (proj1 (@quiz_detail_shows_keys_to_students Reference.platform Scenario.authored
                  Scenario.authored Scenario.student 1
                  (Quiz.mk 1 "Midterm" Scenario.opening 30 1)
                  (Quiz.mk 1 "Midterm" Scenario.opening 30 1)
                  Hstudent eq_refl scenario_authored_registered)).
Defined.

Lemma add_question_manual_refusals_witness :
  @add_question_manual Reference.platform Scenario.authored Scenario.teacher 1
    (JObj [("text", JStr "q6"); ("correctAnswer", JStr "A")])
  = (Scenario.authored,
     (Failure "Error adding question: "
        (ValueError "Missing required fields (text, options, correctAnswer)"), 400))
  /\ @add_question_manual Reference.platform Scenario.authored Scenario.teacher 1
       (JObj [("text", JStr "q6");
              ("options", JObj [("A", JStr "first"); ("B", JStr "second");
                                ("C", JStr "third")]);
              ("correctAnswer", JStr "A")])
     = (Scenario.authored,
        (Failure "Error adding question: "
           (ValueError "Missing option fields (A, B, C, D)"), 400)).
Proof.
  destruct (@add_question_manual_refusals Reference.platform Scenario.authored
              Scenario.teacher 1 (Quiz.mk 1 "Midterm" Scenario.opening 30 1)
              eq_refl eq_refl eq_refl)
    as [_ [Hfields Hoptions]].
  split.
  - apply Hfields. right; left. reflexivity.
  - apply (Hoptions _ [("A", JStr "first"); ("B", JStr "second"); ("C", JStr "third")]).
    + discriminate.
    + reflexivity.
    + discriminate.
    + right; right; right. reflexivity.
Defined.


Lemma add_questions_csv_upload_checks_witness :
  add_questions_csv Scenario.authored Scenario.teacher 1 None
  = (Scenario.authored, (error "No file part", 400))
  /\ add_questions_csv Scenario.authored Scenario.teacher 1
       (Some (mk_upload "bank.txt" (Some [])))
     = (Scenario.authored, (error "Invalid file type. Must be .csv", 400))
  /\ add_questions_csv Scenario.authored Scenario.teacher 1
       (Some (mk_upload "bank.csv" (Some [])))
     = (Scenario.authored, (Json (added_message 0), 201)).
Proof.
  destruct (add_questions_csv_upload_checks Scenario.authored Scenario.teacher 1
              (Quiz.mk 1 "Midterm" Scenario.opening 30 1) eq_refl eq_refl eq_refl)
    as [Hnone [_ [Htype Hcsv]]].
  split; [exact Hnone|]. split.
  - apply Htype; [discriminate|reflexivity].
  - apply Hcsv; [discriminate|reflexivity].
Defined.

Lemma csv_accepted_answers_witness :
  let r (answer : string) : row :=
    [("question_text", Some "q6"); ("option_a", Some "1"); ("option_b", Some "2");
     ("option_c", Some "3"); ("option_d", Some "4"); ("correct_answer", Some answer)] in
  read_row (r "c") = Ok (mk_pending (Some "q6") (Some "1") (Some "2") (Some "3") (Some "4") "C")
  /\ read_row (r " A") = Raise (ValueError "Invalid correct_answer value:  A").
Proof.
  intros r. split.
  - apply (csv_accepted_answers (r "c") "q6" "1" "2" "3" "4" "c"
             eq_refl eq_refl eq_refl eq_refl eq_refl eq_refl).
    simpl. auto 10.
  - apply (csv_accepted_answers (r " A") "q6" "1" "2" "3" "4" " A"
             eq_refl eq_refl eq_refl eq_refl eq_refl eq_refl).
    simpl. intuition discriminate.
Defined.


Lemma submit_quiz_attempt_malformed_witness :
  submit_quiz_attempt Scenario.started (Scenario.during + 900) Scenario.student 1 (JArr [])
  = (Scenario.started, (Unhandled AttributeError, 500))
  /\ submit_quiz_attempt Scenario.started (Scenario.during + 900) Scenario.student 1
       (JObj [("answers", JArr [JStr "A"; JStr "B"])])
     = (Scenario.started, (Failure "Error submitting quiz: " AttributeError, 400)).
Proof.
  destruct (submit_quiz_attempt_malformed Scenario.started (Scenario.during + 900)
              Scenario.student 1 (Attempt.mk 1 1 2 None None Scenario.during None false)
              eq_refl eq_refl)
    as [Hbody Hanswers].
  split.
  - apply Hbody. discriminate.
  - destruct (Hanswers [("answers", JArr [JStr "A"; JStr "B"])] (JArr [JStr "A"; JStr "B"])
                eq_refl) as [Hsome _]; [discriminate|].
    apply Hsome. discriminate.
Defined.

Lemma attempt_goes_through_three_states_witness :
  snd (snd (start_quiz_attempt Scenario.authored Scenario.during Scenario.student 1)) = 201
  /\ snd (snd (submit_quiz_attempt
                 (fst (start_quiz_attempt Scenario.authored Scenario.during
                         Scenario.student 1))
                 (Scenario.during + 900) Scenario.student 1 Scenario.answers)) = 200.
Proof.
  assert (Hunique : attempts_unique Scenario.authored) by (split; constructor).
  assert (Hopen : Quiz.start_time (Quiz.mk 1 "Midterm" Scenario.opening 30 1)
                  <= Scenario.during) by (vm_compute; discriminate).
  destruct (attempt_goes_through_three_states Scenario.authored Scenario.during
              (Scenario.during + 900) Scenario.student 1
              (Quiz.mk 1 "Midterm" Scenario.opening 30 1)
              [("answers", JObj [("1", JStr "A"); ("2", JStr "X"); ("3", JStr "C");
                                 ("5", JStr "A")])]
              [("1", JStr "A"); ("2", JStr "X"); ("3", JStr "C"); ("5", JStr "A")]
              eq_refl Hunique eq_refl eq_refl Hopen eq_refl)
    as [_ [Hstart [Hsubmit _]]].
  split; [exact Hstart|exact Hsubmit].
Defined.

Lemma student_quizzes_show_attempts_witness :
  getitem (@student_quiz Reference.platform Scenario.authored Scenario.student
             (Quiz.mk 1 "Midterm" Scenario.opening 30 1)) "attempt" = Ok JNull
  /\ exists score total,
       snd (submit_quiz_attempt Scenario.started (Scenario.during + 900) Scenario.student 1
              Scenario.answers)
       = (Json (JObj [("score", JNum score); ("totalQuestions", JNum total)]), 200)
       /\ getitem (@student_quiz Reference.platform
                     (fst (submit_quiz_attempt Scenario.started (Scenario.during + 900)
                             Scenario.student 1 Scenario.answers))
                     Scenario.student (Quiz.mk 1 "Midterm" Scenario.opening 30 1))
                  "attempt"
          = Ok (JObj [("score", JNum score); ("totalQuestions", JNum total);
                      ("finished", JBool true)]).
Proof.
  split.
  - apply (proj1 (proj2 (@student_quizzes_show_attempts Reference.platform
                           Scenario.authored 0 Scenario.student
                           (Quiz.mk 1 "Midterm" Scenario.opening 30 1) JNull eq_refl))).
    reflexivity.
  - exact (proj2 (proj2 (@student_quizzes_show_attempts Reference.platform
                           Scenario.started (Scenario.during + 900) Scenario.student
                           (Quiz.mk 1 "Midterm" Scenario.opening 30 1) Scenario.answers
                           eq_refl))
                 scenario_started_unique eq_refl).
Defined.

Lemma app_accounts_sound_witness :
  @app_reachable Reference.platform Standin.hasher Site.graded
  /\ accounts_sound Site.graded.
Proof.
  split; [exact site_graded_reachable|].
  exact (@app_accounts_sound Reference.platform Standin.hasher Site.graded
           site_graded_reachable).
Defined.



Lemma quiz_detail_never_fails_witness :
  @app_reachable Reference.platform Standin.hasher Site.graded
  /\ snd (snd (@manage_quiz_details Reference.platform (store Site.graded)
                 Scenario.teacher GET 1)) <> 500
  /\ snd (snd (@manage_quiz_details Reference.platform (store Site.graded)
                 Scenario.teacher GET 7)) <> 500
  /\ snd (@manage_quiz_details Reference.platform (store Site.graded)
            Scenario.teacher GET (2 ^ 63))
     = (Unhandled OverflowError, 500).
Proof.
  split; [exact site_graded_reachable|].
  assert (Hone : - 2 ^ 63 <= 1 < 2 ^ 63) by lia.
  assert (Hseven : - 2 ^ 63 <= 7 < 2 ^ 63) by lia.
  split; [|split; [|reflexivity]].
  - exact (proj1 (proj2 (@quiz_detail_never_fails Reference.platform Standin.hasher
                           Site.graded Scenario.teacher GET 1 site_graded_reachable))
                 Hone).
  - exact (proj1 (proj2 (@quiz_detail_never_fails Reference.platform Standin.hasher
                           Site.graded Scenario.teacher GET 7 site_graded_reachable))
                 Hseven).
Defined.

Lemma app_tables_sound_witness :
  @app_reachable Reference.platform Standin.hasher Site.graded
  /\ keys_unique (store Site.graded)
  /\ students_known (store Site.graded).
Proof.
  split; [exact site_graded_reachable|].
  destruct (@app_tables_sound Reference.platform Standin.hasher Site.graded
              site_graded_reachable) as [Hkeys [_ [_ [Hknown _]]]].
  split; [exact Hkeys|exact Hknown].
Defined.
